(** * mlflow-demo: the email generator's stream reducer, facade and routes

    A shallow embedding of the Python code of
    [mlflow_demo/agent/email_generator.py] and [server/routes/email.py],
    with the properties their specification states.

    Conventions of the embedding.
    - A Python [str] is a [string]; every [ascii] stands for the code point
      of the same number (U+0000 to U+00FF).
    - A Python [dict] is an association list in insertion order.
    - A call that may raise returns an [outcome]: [Returns v] or [Raises e].
      Only exceptions below [Exception] are modelled.
    - The services the code calls but does not implement ([json.loads],
      the MLflow client, the model endpoint) are variables of the sections
      that need them. *)

From Stdlib Require Import Strings.String Strings.Ascii.
From Stdlib Require Import Lists.List.
From Stdlib Require Import Bool Arith ZArith Lia.
From Stdlib Require Import Numbers.DecimalString.
From Stdlib Require Import Sorting.Sorted Sorting.Permutation.
Import ListNotations.

Local Open Scope list_scope.
Local Open Scope string_scope.

(** ** Python string operations *)

Module PyStr.

(** The line feed and the double quote, which a literal cannot hold. *)
Definition nl : string := String (ascii_of_nat 10) "".
Definition dq : string := String (ascii_of_nat 34) "".

(** [str.isspace] on one character, for the code points below 256:
    TAB to CR, FS to US, SPACE, NEL and NBSP. *)
Definition is_space (c : ascii) : bool :=
  let n := nat_of_ascii c in
  (((9 <=? n) && (n <=? 13)) || ((28 <=? n) && (n <=? 32))
   || (n =? 133) || (n =? 160))%nat.

Fixpoint lstrip (s : string) : string :=
  match s with
  | "" => ""
  | String c r => if is_space c then lstrip r else s
  end.

Fixpoint rstrip (s : string) : string :=
  match s with
  | "" => ""
  | String c r =>
      match rstrip r with
      | "" => if is_space c then "" else String c ""
      | r' => String c r'
      end
  end.

(** [s.strip()] *)
Definition strip (s : string) : string := lstrip (rstrip s).

(** [s.startswith(p)] *)
Definition startswith (s p : string) : bool := prefix p s.

(** [s.endswith(p)]: [p] is [s] or a suffix of the tail of [s]. *)
Fixpoint endswith (s p : string) : bool :=
  (s =? p) ||
  match s with
  | "" => false
  | String _ r => endswith r p
  end.

(** Index normalisation of a slice bound: a negative bound counts from the
    end, and every bound is clamped to [0, len]. *)
Definition slice_bound (len i : Z) : Z :=
  if (i <? 0)%Z then Z.max 0 (len + i) else Z.min i len.

(** [s[i:j]] *)
Definition slice (s : string) (i j : Z) : string :=
  let len := Z.of_nat (String.length s) in
  let a := slice_bound len i in
  let b := slice_bound len j in
  substring (Z.to_nat a) (Z.to_nat (b - a)) s.

(** [len(s)] *)
Definition len (s : string) : Z := Z.of_nat (String.length s).

(** [s.replace(old, new)] for a one-character [old]. *)
Fixpoint replace_char (old : ascii) (new : string) (s : string) : string :=
  match s with
  | "" => ""
  | String c r =>
      (if Ascii.eqb c old then new else String c "") ++ replace_char old new r
  end.

(** [s * n] *)
Fixpoint repeat_str (s : string) (n : nat) : string :=
  match n with
  | O => ""
  | S k => s ++ repeat_str s k
  end.

End PyStr.
Import PyStr.

(** ** Code-fence cleaning *)

Definition fence : string := "```".
Definition fence_json_open : string := "```json" ++ nl.
Definition fence_close : string := nl ++ "```".

(** The [if]/[elif] of [_clean_json_response], shared with the copy of it
    inside the reducer: at most one pair of fence markers is removed. *)
Definition unfence (s : string) : string :=
  if startswith s fence_json_open && endswith s fence_close
  then slice s (len fence_json_open) (- len fence_close)
  else if startswith s fence && endswith s fence
  then slice s 3 (-3)
  else s.

(** [EmailGenerator._clean_json_response] *)
Definition _clean_json_response (response_content : string) : string :=
  let clean_string := unfence response_content in
  strip clean_string.

(** The inline version in [_stream_email_reducer_static], which strips
    before it looks for the fence as well as after. *)
Definition clean_inline (email_content : string) : string :=
  let clean_string := strip email_content in
  let clean_string := unfence clean_string in
  strip clean_string.

(** A string is wrapped in a fence when it starts and ends with three
    backticks. *)
Definition fenced (s : string) : bool :=
  startswith s fence && endswith s fence.

(** ** Python values and dictionaries *)

(** The values [json.loads] returns, which are also the values the
    dictionaries of this program hold.  A float is kept as its IEEE-754
    binary64 bit pattern; nothing here computes with it. *)
#[local] Set Warnings "-register-all".
Inductive value : Type :=
| VNone
| VBool (b : bool)
| VInt (n : Z)
| VFloat (bits : N)
| VStr (s : string)
| VList (items : list value)
| VDict (items : list (string * value)).

Definition dict : Type := list (string * value).

(** The first binding of [k], if any. *)
Fixpoint dict_get (d : dict) (k : string) : option value :=
  match d with
  | [] => None
  | (k', v) :: rest => if k' =? k then Some v else dict_get rest k
  end.

(** [d.get(k, default)] *)
Definition get_or (d : dict) (k : string) (default : value) : value :=
  match dict_get d k with
  | Some v => v
  | None => default
  end.

(** [d.get(k)] *)
Definition get (d : dict) (k : string) : value := get_or d k VNone.

(** [d[k] = v]: an existing key keeps its place. *)
Fixpoint dict_set (d : dict) (k : string) (v : value) : dict :=
  match d with
  | [] => [(k, v)]
  | (k', v') :: rest =>
      if k' =? k then (k', v) :: rest else (k', v') :: dict_set rest k v
  end.

(** [bool(v)]: [None], [False], zero, and the empty string, list and
    dictionary are false. *)
Definition truthy (v : value) : bool :=
  match v with
  | VNone => false
  | VBool b => b
  | VInt n => negb (n =? 0)%Z
  | VFloat bits => negb (N.land bits (2 ^ 63 - 1) =? 0)%N
  | VStr s => negb (s =? "")
  | VList items => match items with [] => false | _ => true end
  | VDict items => match items with [] => false | _ => true end
  end.

(** [v == s] for a string literal or variable [s]. *)
Definition eq_str (v : value) (s : string) : bool :=
  match v with
  | VStr t => t =? s
  | _ => false
  end.

(** [type(v).__name__] *)
Definition type_name (v : value) : string :=
  match v with
  | VNone => "NoneType"
  | VBool _ => "bool"
  | VInt _ => "int"
  | VFloat _ => "float"
  | VStr _ => "str"
  | VList _ => "list"
  | VDict _ => "dict"
  end.

(** [Optional[str]] arguments as values. *)
Definition of_opt (o : option string) : value :=
  match o with
  | Some s => VStr s
  | None => VNone
  end.

(** ** Exceptions *)

(** The exception classes the code names or meets, with the two
    built-in classes that derive from [RuntimeError]; [OtherError] is any
    other class below [Exception], related to none of these. *)
Inductive exn_class : Type :=
| FileNotFoundError
| ValueError
| JSONDecodeError
| KeyError
| TypeError
| AttributeError
| RuntimeError
| RecursionError
| NotImplementedError
| OtherError (name : string).

(** An exception: its class and [str(e)]. *)
Record exn : Type := mk_exn { exn_class_of : exn_class; exn_str : string }.

Definition exn_class_eqb (a b : exn_class) : bool :=
  match a, b with
  | FileNotFoundError, FileNotFoundError
  | ValueError, ValueError
  | JSONDecodeError, JSONDecodeError
  | KeyError, KeyError
  | TypeError, TypeError
  | AttributeError, AttributeError
  | RuntimeError, RuntimeError
  | RecursionError, RecursionError
  | NotImplementedError, NotImplementedError => true
  | OtherError n, OtherError m => n =? m
  | _, _ => false
  end.

(** [issubclass(c, base)]: [json.JSONDecodeError] derives from
    [ValueError], [RecursionError] and [NotImplementedError] derive from
    [RuntimeError]; the other classes are unrelated to each other. *)
Definition subclass (c base : exn_class) : bool :=
  match c, base with
  | JSONDecodeError, ValueError
  | RecursionError, RuntimeError
  | NotImplementedError, RuntimeError => true
  | _, _ => exn_class_eqb c base
  end.

(** [isinstance(e, bases)] for the tuple of an [except] clause. *)
Definition caught_by (bases : list exn_class) (e : exn) : bool :=
  existsb (subclass (exn_class_of e)) bases.

Inductive outcome (A : Type) : Type :=
| Returns (a : A)
| Raises (e : exn).
Arguments Returns {A} a.
Arguments Raises {A} e.

Definition bind {A B : Type} (m : outcome A) (k : A -> outcome B) : outcome B :=
  match m with
  | Returns a => k a
  | Raises e => Raises e
  end.

Notation "x <- m ;; k" := (bind m (fun x => k))
  (at level 61, m at next level, right associativity).

(** [try: body except bases as e: handler(e)] *)
Definition try_except {A : Type} (body : outcome A) (bases : list exn_class)
    (handler : exn -> outcome A) : outcome A :=
  match body with
  | Returns a => Returns a
  | Raises e => if caught_by bases e then handler e else Raises e
  end.

(** [try: body except Exception as e: handler(e)] *)
Definition try_except_all {A : Type} (body : outcome A)
    (handler : exn -> outcome A) : outcome A :=
  match body with
  | Returns a => Returns a
  | Raises e => handler e
  end.

(** A list comprehension or a loop of appends whose body may raise. *)
Fixpoint map_m {A B : Type} (f : A -> outcome B) (l : list A)
    : outcome (list B) :=
  match l with
  | [] => Returns []
  | a :: rest => b <- f a ;; bs <- map_m f rest ;; Returns (b :: bs)
  end.

(** [v[k]] for a string key. *)
Definition subscript (v : value) (k : string) : outcome value :=
  match v with
  | VDict d =>
      match dict_get d k with
      | Some x => Returns x
      | None => Raises (mk_exn KeyError ("'" ++ k ++ "'"))
      end
  | VList _ =>
      Raises (mk_exn TypeError "list indices must be integers or slices, not str")
  | VStr _ =>
      Raises (mk_exn TypeError "string indices must be integers, not 'str'")
  | _ =>
      Raises (mk_exn TypeError ("'" ++ type_name v ++ "' object is not subscriptable"))
  end.

(** [v.get(k, default)]: only a dictionary has the method. *)
Definition attr_get (v : value) (k : string) (default : value) : outcome value :=
  match v with
  | VDict d => Returns (get_or d k default)
  | _ =>
      Raises (mk_exn AttributeError
                ("'" ++ type_name v ++ "' object has no attribute 'get'"))
  end.

(** ** The stream reducer *)

(** The two exceptions other than [json.JSONDecodeError] that
    [json.loads] raises on a string: [ValueError] for an integer literal
    over the limit of digits, [RecursionError] for a nesting that is too
    deep.  [MemoryError], which any allocation may raise, is not
    modelled. *)
Inductive loads_failure : Type := DigitLimit | DepthLimit.

Definition failure_class (why : loads_failure) : exn_class :=
  match why with
  | DigitLimit => ValueError
  | DepthLimit => RecursionError
  end.

(** What [json.loads] does on a string: a value, a
    [json.JSONDecodeError] with its message, or one of the two other
    exceptions, with its message. *)
Inductive loads_result : Type :=
| Parsed (v : value)
| DecodeError (msg : string)
| Refused (why : loads_failure) (msg : string).

(** An active MLflow span, of which the code reads the trace id only. *)
Record span : Type := mk_span { span_trace_id : string }.

(** The three locals of the reducer's loop. *)
Record collected : Type := mk_collected {
  email_content : string;
  trace_id : value;
  error_message : value
}.

Definition fixed_failure_subject : string := "Email generation failed".

Section Reducer.

(** [json.loads], and [mlflow.get_current_active_span()] at the time of
    the call. *)
Variable json_loads : string -> loads_result.
Variable get_current_active_span : option span.

Definition loads (s : string) : outcome value :=
  match json_loads s with
  | Parsed v => Returns v
  | DecodeError msg => Raises (mk_exn JSONDecodeError msg)
  | Refused why msg => Raises (mk_exn (failure_class why) msg)
  end.

(** [EmailGenerator._get_current_trace_id] *)
Definition _get_current_trace_id : value :=
  match get_current_active_span with
  | Some active_span => VStr (span_trace_id active_span)
  | None => VNone
  end.

(** One turn of [for chunk in chunks].  Adding a value that is not a
    string to [email_content] raises [TypeError]. *)
Definition collect_step (st : collected) (chunk : dict) : outcome collected :=
  let chunk_type := get chunk "type" in
  if eq_str chunk_type "token" then
    match get_or chunk "content" (VStr "") with
    | VStr content =>
        Returns (mk_collected (email_content st ++ content)
                              (trace_id st) (error_message st))
    | other =>
        Raises (mk_exn TypeError
                  ("can only concatenate str (not " ++ dq ++ type_name other
                   ++ dq ++ ") to str"))
    end
  else if eq_str chunk_type "done" then
    Returns (mk_collected (email_content st) (get chunk "trace_id")
                          (error_message st))
  else if eq_str chunk_type "error" then
    Returns (mk_collected (email_content st) (trace_id st)
                          (get chunk "error"))
  else Returns st.

Fixpoint collect (st : collected) (chunks : list dict) : outcome collected :=
  match chunks with
  | [] => Returns st
  | chunk :: rest => st' <- collect_step st chunk ;; collect st' rest
  end.

(** The [try] block: clean, parse, build the result. *)
Definition reduce_parsed (st : collected) : outcome dict :=
  let clean_string := clean_inline (email_content st) in
  email_json <- loads clean_string ;;
  body <- attr_get email_json "body" (VStr "") ;;
  subject <- attr_get email_json "subject_line" VNone ;;
  let result := [("email_subject", subject); ("email_body", body)] in
  let result :=
    if truthy (trace_id st) then dict_set result "trace_id" (trace_id st)
    else result in
  Returns result.

(** The [except (json.JSONDecodeError, KeyError) as e] block. *)
Definition reduce_failed (st : collected) (e : exn) : outcome dict :=
  let result :=
    [("email_subject", VStr fixed_failure_subject);
     ("email_body", VStr ("Failed to parse email: " ++ exn_str e))] in
  let result :=
    if truthy (trace_id st) then dict_set result "trace_id" (trace_id st)
    else dict_set result "trace_id" _get_current_trace_id in
  let result :=
    if truthy (error_message st)
    then dict_set result "email_body" (error_message st)
    else result in
  Returns result.

(** [EmailGenerator._stream_email_reducer_static] *)
Definition _stream_email_reducer_static (chunks : list dict) : outcome dict :=
  st <- collect (mk_collected "" VNone VNone) chunks ;;
  try_except (reduce_parsed st) [JSONDecodeError; KeyError] (reduce_failed st).

End Reducer.

(** ** The synchronous facade *)

(** A finished run of the async generator
    [stream_generate_email_with_retrieval]: the chunks it yielded, and the
    exception that ended it when it did not end normally. *)
Definition run : Type := (list dict * option exn)%type.

Section Facade.

Variable json_loads : string -> loads_result.
Variable get_current_active_span : option span.
Variable stream_generate_email_with_retrieval : string -> option string -> run.

(** [collect_chunks]: every chunk is appended to the list [chunks],
    then the exception of the run, if any, leaves the coroutine. *)
Definition collect_chunks (r : run) (chunks : list dict)
    : list dict * outcome unit :=
  (fold_left (fun acc chunk => (acc ++ [chunk])%list) (fst r) chunks,
   match snd r with
   | None => Returns tt
   | Some e => Raises e
   end).

(** [EmailGenerator.generate_email_with_retrieval].  [loop_running] tells
    whether [asyncio.get_running_loop()] finds a loop.  With a loop, the
    coroutine runs on a worker thread, and a [RuntimeError] coming out of
    it reaches the [except RuntimeError] clause, whose [asyncio.run] then
    refuses to start under the running loop.  Without one,
    [get_running_loop] itself raises and the clause runs the coroutine. *)
Definition generate_email_with_retrieval (loop_running : bool)
    (customer_name : string) (user_input : option string) : outcome dict :=
  let r := stream_generate_email_with_retrieval customer_name user_input in
  let (chunks, finished) := collect_chunks r [] in
  _ <- (if loop_running then
          try_except finished [RuntimeError]
            (fun _ => Raises (mk_exn RuntimeError
               "asyncio.run() cannot be called from a running event loop"))
        else finished) ;;
  reduced_result <- _stream_email_reducer_static
                      json_loads get_current_active_span chunks ;;
  let result :=
    [("subject_line", get_or reduced_result "email_subject" (VStr ""));
     ("body", get_or reduced_result "email_body" (VStr ""));
     ("trace_id", get reduced_result "trace_id")] in
  Returns result.

End Facade.

(** ** The streaming endpoint *)

Section StreamingEndpoint.

(** [json.dumps] on the dictionaries of the frames. *)
Variable json_dumps : dict -> string.
Variable stream_generate_email_with_retrieval : string -> option string -> run.

(** [f'data: {json.dumps(d)}\n\n'] *)
Definition sse (d : dict) : string :=
  "data: " ++ json_dumps d ++ nl ++ nl.

(** The body of the [async for]: the dictionary sent for one chunk, if
    any.  [chunk['type']] and the payload lookups raise [KeyError] on a
    missing key. *)
Definition event_of_chunk (chunk : dict) : outcome (option dict) :=
  ty <- subscript (VDict chunk) "type" ;;
  if eq_str ty "token" then
    content <- subscript (VDict chunk) "content" ;;
    Returns (Some [("type", VStr "token"); ("content", content)])
  else if eq_str ty "done" then
    tid <- subscript (VDict chunk) "trace_id" ;;
    Returns (Some [("type", VStr "done"); ("trace_id", tid)])
  else if eq_str ty "error" then
    err <- subscript (VDict chunk) "error" ;;
    Returns (Some [("type", VStr "error"); ("error", err)])
  else Returns None.

(** The [try] block of [generate]: the events sent so far, and the
    exception that left the block, if one did. *)
Fixpoint stream_events (chunks : list dict) (ending : option exn)
    : list dict * option exn :=
  match chunks with
  | [] => ([], ending)
  | chunk :: rest =>
      match event_of_chunk chunk with
      | Raises e => ([], Some e)
      | Returns ev =>
          let (evs, raised) := stream_events rest ending in
          (match ev with Some d => d :: evs | None => evs end, raised)
      end
  end.

(** The dictionaries [generate] serialises, in order: the [try] block,
    the [except Exception] clause, the [finally] clause. *)
Definition generate_events (customer_name : string)
    (user_input : option string) : list dict :=
  let (chunks, ending) :=
    stream_generate_email_with_retrieval customer_name user_input in
  let (events, raised) := stream_events chunks ending in
  (events
   ++ match raised with
      | Some e => [[("type", VStr "error"); ("error", VStr (exn_str e))]]
      | None => []
      end
   ++ [[("type", VStr "done")]])%list.

(** The frames of [generate] inside
    [api_generate_email_stream_with_retrieval]. *)
Definition generate (customer_name : string) (user_input : option string)
    : list string :=
  map sse (generate_events customer_name user_input).

End StreamingEndpoint.

(** The closing frame's dictionary. *)
Definition closing_event : dict := [("type", VStr "done")].

(** The [type] of a frame's dictionary is one of the three. *)
Definition frame_type_ok (d : dict) : bool :=
  let ty := get d "type" in
  eq_str ty "token" || eq_str ty "done" || eq_str ty "error".

(** ** Feedback *)

(** The arguments [log_feedback] passes to [mlflow.log_feedback]. *)
Record assessment_source : Type := mk_source {
  source_type : string;
  source_id : string
}.

Record feedback_call : Type := mk_feedback_call {
  fb_trace_id : string;
  fb_name : string;
  fb_value : bool;
  fb_rationale : option string;
  fb_source : assessment_source
}.

Section Feedback.

(** [mlflow.entities.AssessmentSource] and [mlflow.log_feedback]; either
    may raise. *)
Variable AssessmentSource : string -> string -> outcome assessment_source.
Variable mlflow_log_feedback : feedback_call -> outcome unit.

(** [EmailGenerator.log_feedback] *)
Definition log_feedback (trace_id : string) (value : bool)
    (comment user_name : option string) : outcome dict :=
  try_except_all
    (source <- AssessmentSource "HUMAN"
                 (if truthy (of_opt user_name)
                  then match user_name with Some u => u | None => "user" end
                  else "user") ;;
     _ <- mlflow_log_feedback
            (mk_feedback_call trace_id "user_feedback" value
               (if truthy (of_opt comment) then comment else None)
               source) ;;
     Returns [("success", VBool true);
              ("message", VStr "Feedback submitted successfully")])
    (fun e =>
       Returns [("success", VBool false);
                ("message", VStr ("Error submitting feedback: " ++ exn_str e))]).

End Feedback.

(** ** Customer documents and the message composer *)

(** The metadata [_retrieve_customer_data] gives every document. *)
Record doc_metadata : Type := mk_metadata {
  type : string;
  customer_name : string
}.

(** [mlflow.entities.Document] *)
Record Document : Type := mk_document {
  id : string;
  page_content : string;
  metadata : doc_metadata
}.

(** A prompt version of the registry. *)
Record prompt_version : Type := mk_prompt {
  template : string;
  version : Z
}.

(** The fields of an [EmailGenerator] the modelled methods read. *)
Record EmailGenerator : Type := mk_generator {
  prompt_alias : string;
  model : string;
  uc_catalog : string;
  uc_schema : string;
  prompt_name : string;
  prompt : option prompt_version
}.

(** The state of the JSONL data file. *)
Inductive data_file : Type :=
| Missing
| Lines (lines : list string).

Section Retrieval.

(** [str.title] and [str] of a value (as in an f-string), which the
    modelled range of strings cannot hold in general, and [json.loads]. *)
Variable title : string -> string.
Variable py_str : value -> string.
Variable json_loads : string -> loads_result.

(** The path of the data file, as [open] and the error message show it. *)
Variable data_path : string.

(** [x.replace('_', ' ').title()] *)
Definition heading (x : string) : string :=
  title (replace_char "_" " " x).

(** The text joined for one document in [_create_messages]. *)
Definition document_text (doc : Document) : string :=
  heading (type (metadata doc)) ++ ":" ++ nl ++ page_content doc.

(** The value of [customer_info] before the instruction is looked at. *)
Definition formatted_customer_data (customer_documents : list Document)
    : string :=
  String.concat (nl ++ nl) (map document_text customer_documents).

(** [EmailGenerator._create_messages] *)
Definition _create_messages (self : EmailGenerator)
    (customer_documents : list Document) (user_input : option string)
    : list dict :=
  let customer_info := formatted_customer_data customer_documents in
  let customer_info :=
    if truthy (of_opt user_input)
    then customer_info ++ nl ++ nl ++ "User Instructions:" ++ nl
         ++ match user_input with Some u => u | None => "" end
    else customer_info in
  [[("role", VStr "system");
    ("content", VStr match prompt self with
                     | Some p => template p
                     | None => ""
                     end)];
   [("role", VStr "user"); ("content", VStr customer_info)]].

(** [format_value] inside [_format_json_as_markdown] *)
Fixpoint format_value (v : value) (indent_level : nat) {struct v} : string :=
  let indent := repeat_str "  " indent_level in
  match v with
  | VDict items =>
      (fix over_items (kvs : list (string * value)) : string :=
         match kvs with
         | [] => ""
         | (k, x) :: rest =>
             let key_name := heading k in
             match x with
             | VDict _ | VList _ =>
                 indent ++ "**" ++ key_name ++ ":**" ++ nl
                 ++ format_value x (S indent_level) ++ nl
             | _ =>
                 indent ++ "**" ++ key_name ++ ":** " ++ py_str x ++ nl ++ nl
             end ++ over_items rest
         end) items
  | VList items =>
      (fix over_list (i : nat) (l : list value) : string :=
         match l with
         | [] => ""
         | item :: rest =>
             match item with
             | VDict _ =>
                 indent ++ "- Item " ++ py_str (VInt (Z.of_nat i + 1)) ++ ":"
                 ++ nl ++ format_value item (S indent_level)
             | _ => indent ++ "- " ++ py_str item ++ nl
             end ++ over_list (S i) rest
         end) 0%nat items
  | _ => indent ++ py_str v ++ nl
  end.

(** [EmailGenerator._format_json_as_markdown] *)
Definition _format_json_as_markdown (section_name : string) (data : value)
    : string :=
  let markdown := "# " ++ heading section_name ++ nl ++ nl in
  strip (markdown ++ format_value data 0).

(** [open(data_path, 'r')] and the lines of the file. *)
Definition open_lines (f : data_file) : outcome (list string) :=
  match f with
  | Missing =>
      Raises (mk_exn FileNotFoundError
                ("[Errno 2] No such file or directory: '" ++ data_path ++ "'"))
  | Lines lines => Returns lines
  end.

(** The [try] that fills [customers]; a line that does not parse lets
    its [JSONDecodeError] through. *)
Definition load_customers (f : data_file) : outcome (list value) :=
  try_except
    (lines <- open_lines f ;; map_m (loads json_loads) lines)
    [FileNotFoundError]
    (fun _ => Raises (mk_exn FileNotFoundError
                        ("Customer data file not found at " ++ data_path))).

(** [customer['account']['name']] *)
Definition account_name (customer : value) : outcome value :=
  account <- subscript customer "account" ;;
  subscript account "name".

(** The search loop, which stops at the first match. *)
Fixpoint find_customer (customers : list value) (name : string)
    : outcome value :=
  match customers with
  | [] => Returns VNone
  | customer :: rest =>
      n <- account_name customer ;;
      if eq_str n name then Returns customer else find_customer rest name
  end.

(** [customer_data.items()] of the record found. *)
Definition items_of (v : value) : outcome dict :=
  match v with
  | VDict d => Returns d
  | _ =>
      Raises (mk_exn AttributeError
                ("'" ++ type_name v ++ "' object has no attribute 'items'"))
  end.

(** [EmailGenerator._retrieve_customer_data] *)
Definition _retrieve_customer_data (f : data_file) (name : string)
    : outcome (list Document) :=
  customers <- load_customers f ;;
  customer_data <- find_customer customers name ;;
  if negb (truthy customer_data) then
    Raises (mk_exn ValueError
              ("Customer '" ++ name ++ "' not found in data file"))
  else
    items <- items_of customer_data ;;
    Returns (map (fun kv : string * value =>
                    let (key, v) := kv in
                    mk_document (name ++ "_" ++ key)
                                (_format_json_as_markdown key v)
                                (mk_metadata key name))
                 items).

End Retrieval.

(** ** The companies listing *)

Section Companies.

(** [a < b] outside strings, where this development does not fix it. *)
Variable lt_other : value -> value -> outcome bool.

(** [a < b]: on two strings, the order of their code points. *)
Definition py_lt (a b : value) : outcome bool :=
  match a, b with
  | VStr x, VStr y => Returns (String.ltb x y)
  | _, _ => lt_other a b
  end.

(** The key function [lambda x: x['name']]. *)
Definition name_key (x : dict) : outcome value := subscript (VDict x) "name".

(** [x] enters a sorted list after every element whose key is smaller
    than its own, and before the others: elements that came after it
    and compare equal stay after it. *)
Fixpoint insert_by_key (kx : value) (x : dict) (l : list (value * dict))
    : outcome (list (value * dict)) :=
  match l with
  | [] => Returns [(kx, x)]
  | (ky, y) :: rest =>
      smaller <- py_lt ky kx ;;
      if smaller
      then (rest' <- insert_by_key kx x rest ;; Returns ((ky, y) :: rest'))
      else Returns ((kx, x) :: (ky, y) :: rest)
  end.

Fixpoint sort_keyed (l : list (value * dict)) : outcome (list (value * dict)) :=
  match l with
  | [] => Returns []
  | (kx, x) :: rest =>
      sorted_rest <- sort_keyed rest ;; insert_by_key kx x sorted_rest
  end.

(** [sorted(l, key=lambda x: x['name'])]: the keys are computed once,
    then the list is sorted stably on them with [<].  The built-in is
    modelled by a stable insertion sort; where no comparison raises, the
    order alone fixes what a stable sort returns. *)
Definition sorted_by_name (l : list dict) : outcome (list dict) :=
  keyed <- map_m (fun x => k <- name_key x ;; Returns (k, x)) l ;;
  sorted_keyed <- sort_keyed keyed ;;
  Returns (map snd sorted_keyed).

(** [get_companies], on the list [CUSTOMER_DATA] loaded at import. *)
Definition get_companies (CUSTOMER_DATA : list value) : outcome (list dict) :=
  companies <- map_m (fun customer =>
                        n <- account_name customer ;;
                        Returns [("name", n)])
                     CUSTOMER_DATA ;;
  sorted_by_name companies.

End Companies.

(** The object the listing holds for one name. *)
Definition company (n : string) : dict := [("name", VStr n)].

(** [a <= b] on strings, by code points. *)
Definition str_le (a b : string) : Prop := String.leb a b = true.

(** ** Vocabulary of the properties *)

(** The chunks as the producer builds them. *)
Definition token_chunk (content : string) : dict :=
  [("type", VStr "token"); ("content", VStr content)].
Definition done_chunk (trace_id : value) : dict :=
  [("type", VStr "done"); ("trace_id", trace_id)].
Definition error_chunk (error : value) : dict :=
  [("type", VStr "error"); ("error", error)].

Definition has_type (ty : string) (chunk : dict) : bool :=
  eq_str (get chunk "type") ty.

(** The contents of the token chunks, concatenated in order; there is
    none when a token chunk holds something else than a string. *)
Fixpoint token_text (chunks : list dict) : option string :=
  match chunks with
  | [] => Some ""
  | chunk :: rest =>
      if has_type "token" chunk then
        match get_or chunk "content" (VStr ""), token_text rest with
        | VStr content, Some text => Some (content ++ text)
        | _, _ => None
        end
      else token_text rest
  end.

(** The ids the done chunks carry and the messages the error chunks
    carry, in order. *)
Definition done_ids (chunks : list dict) : list value :=
  map (fun chunk => get chunk "trace_id") (filter (has_type "done") chunks).
Definition error_messages (chunks : list dict) : list value :=
  map (fun chunk => get chunk "error") (filter (has_type "error") chunks).

Definition first_done_id (chunks : list dict) : value := hd VNone (done_ids chunks).
Definition last_done_id (chunks : list dict) : value := last (done_ids chunks) VNone.
Definition last_error (chunks : list dict) : value :=
  last (error_messages chunks) VNone.

(** The facade as its contract words it: the reducer's result with its
    keys renamed. *)
Definition renamed (reduced : dict) : dict :=
  [("subject_line", get_or reduced "email_subject" (VStr ""));
   ("body", get_or reduced "email_body" (VStr ""));
   ("trace_id", get reduced "trace_id")].

Definition facade_contract (json_loads : string -> loads_result)
    (active : option span) (chunks : list dict) : outcome dict :=
  reduced <- _stream_email_reducer_static json_loads active chunks ;;
  Returns (renamed reduced).

(** The formatted customer data as the composer's contract words it: the
    sections of the documents, in their order and separated by a blank
    line, each one the heading of the section (its type with spaces for
    underscores, in title case, and a colon) on a line of its own,
    followed by the text of the document. *)
Definition section_text (title : string -> string) (doc : Document)
    : string :=
  title (replace_char "_" " " (type (metadata doc))) ++ ":" ++ nl
  ++ page_content doc.

Fixpoint sections_text (title : string -> string) (docs : list Document)
    : string :=
  match docs with
  | [] => ""
  | doc :: rest =>
      match rest with
      | [] => section_text title doc
      | _ :: _ => section_text title doc ++ nl ++ nl ++ sections_text title rest
      end
  end.

(** The two results of [log_feedback]. *)
Definition succeeded : dict :=
  [("success", VBool true); ("message", VStr "Feedback submitted successfully")].

Definition failed (e : exn) : dict :=
  [("success", VBool false);
   ("message", VStr ("Error submitting feedback: " ++ exn_str e))].

(** A record of the data file with a string account name. *)
Definition named (customer : value) (n : string) : Prop :=
  account_name customer = Returns (VStr n).

(** A record that has an account name, which is not [name]. *)
Definition named_otherwise (name : string) (customer : value) : Prop :=
  exists n, account_name customer = Returns n /\ eq_str n name = false.

(** ** The platform and its effects *)

(** One item of the streamed completion: [chunk.choices], each with its
    [delta.content]. *)
Record choice : Type := mk_choice { delta_content : option string }.
Record completion_chunk : Type := mk_completion_chunk { choices : list choice }.

(** What iterating over the response does: the items received, and the
    exception that interrupts the iteration if one does. *)
Definition completion_stream : Type := (list completion_chunk * option exn)%type.

(** The calls that leave the process, in the order they are made. *)
Inductive effect : Type :=
| Connect
| LoadPrompt (uri : string)
| SetActiveModel (name : string)
| ModelCall (model_name : string) (messages : list dict)
| TraceTags (tags : dict)
| TracePreview (request_preview : string) (response_preview : value).

(** The collaborators of the generator: the environment variables, the
    client set-up of the constructor ([mlflow.openai.autolog()],
    [WorkspaceClient()], [get_open_ai_client()]), the prompt registry, the
    chat endpoint, the span that is active while the generator body runs,
    the built-ins of [Retrieval] and the data file.
    [mlflow.set_active_model] and [mlflow.update_current_trace] only record
    on the trace store and are taken to return. *)
Record platform : Type := mk_platform {
  environ : string -> option string;
  connect : outcome unit;
  load_prompt : string -> outcome prompt_version;
  chat_create : string -> list dict -> outcome completion_stream;
  span_inside : option span;
  loads_json : string -> loads_result;
  str_title : string -> string;
  str_of : value -> string;
  data_path_of : string;
  data_source : data_file
}.

(** An async generator or a method with effects: what it yields, the
    calls it makes, and how it ends. *)
Record gen (A : Type) : Type := mk_gen {
  gen_yielded : list dict;
  gen_effects : list effect;
  gen_result : outcome A
}.
Arguments mk_gen {A} _ _ _.
Arguments gen_yielded {A} _.
Arguments gen_effects {A} _.
Arguments gen_result {A} _.

Definition gen_ret {A : Type} (a : A) : gen A := mk_gen [] [] (Returns a).

Definition gen_bind {A B : Type} (m : gen A) (k : A -> gen B) : gen B :=
  match gen_result m with
  | Raises e => mk_gen (gen_yielded m) (gen_effects m) (Raises e)
  | Returns a =>
      let n := k a in
      mk_gen (gen_yielded m ++ gen_yielded n)%list
             (gen_effects m ++ gen_effects n)%list
             (gen_result n)
  end.

Notation "x <~ m ;; k" := (gen_bind m (fun x => k))
  (at level 61, m at next level, right associativity).

Definition yield (chunk : dict) : gen unit := mk_gen [chunk] [] (Returns tt).
Definition perform (e : effect) : gen unit := mk_gen [] [e] (Returns tt).
Definition lift {A : Type} (o : outcome A) : gen A := mk_gen [] [] o.

(** [try: m except bases as e: handler(e)] around yields and effects. *)
Definition gen_try {A : Type} (m : gen A) (bases : list exn_class)
    (handler : exn -> gen A) : gen A :=
  match gen_result m with
  | Returns _ => m
  | Raises e =>
      if caught_by bases e then
        let n := handler e in
        mk_gen (gen_yielded m ++ gen_yielded n)%list
               (gen_effects m ++ gen_effects n)%list
               (gen_result n)
      else m
  end.

(** The run a consumer sees when it drains the generator. *)
Definition run_of (g : gen unit) : run :=
  (gen_yielded g,
   match gen_result g with
   | Returns _ => None
   | Raises e => Some e
   end).

(** [str(n)] for an [int]. *)
Definition int_str (n : Z) : string := NilZero.string_of_int (Z.to_int n).

(** ** The constructor and the prompt *)

(** [a or b] on two optional strings: [None] and the empty string give
    way to [b]. *)
Definition py_or (a b : option string) : option string :=
  if truthy (of_opt a) then a else b.

Definition text_of (o : option string) : string :=
  match o with
  | Some s => s
  | None => ""
  end.

(** The URI [_load_prompt] asks the registry for. *)
Definition prompt_uri (self : EmailGenerator) : string :=
  "prompts:/" ++ uc_catalog self ++ "." ++ uc_schema self ++ "."
  ++ prompt_name self ++ "@" ++ prompt_alias self.

(** [EmailGenerator._load_prompt]: the generator with its prompt set. *)
Definition _load_prompt (pf : platform) (self : EmailGenerator)
    : gen EmailGenerator :=
  _ <~ perform (LoadPrompt (prompt_uri self)) ;;
  loaded <~ lift (load_prompt pf (prompt_uri self)) ;;
  let self :=
    mk_generator (prompt_alias self) (model self) (uc_catalog self)
                 (uc_schema self) (prompt_name self) (Some loaded) in
  _ <~ perform (SetActiveModel (prompt_name self ++ "@" ++ prompt_alias self
                                ++ "@v" ++ int_str (version loaded))) ;;
  gen_ret self.

(** [EmailGenerator.__init__] *)
Definition __init__ (pf : platform)
    (prompt_alias model uc_catalog uc_schema prompt_name : option string)
    : gen EmailGenerator :=
  let prompt_alias := py_or prompt_alias (environ pf "PROMPT_ALIAS") in
  let model := py_or model (environ pf "LLM_MODEL") in
  let uc_catalog := py_or uc_catalog (environ pf "UC_CATALOG") in
  let uc_schema := py_or uc_schema (environ pf "UC_SCHEMA") in
  let prompt_name := py_or prompt_name (environ pf "PROMPT_NAME") in
  if negb (truthy (of_opt model)) then
    lift (Raises (mk_exn ValueError
            "LLM_MODEL environment variable is not set and no model provided"))
  else if negb (truthy (of_opt prompt_name))
          || negb (truthy (of_opt prompt_alias))
          || negb (truthy (of_opt uc_catalog))
          || negb (truthy (of_opt uc_schema)) then
    lift (Raises (mk_exn (OtherError "Exception")
            ("('PROMPT_NAME, PROMPT_ALIAS, UC_CATALOG, and UC_SCHEMA "
             ++ "environment variables', ' must be set or provided')")))
  else
    _ <~ perform Connect ;;
    _ <~ lift (connect pf) ;;
    _load_prompt pf
      (mk_generator (text_of prompt_alias) (text_of model) (text_of uc_catalog)
                    (text_of uc_schema) (text_of prompt_name) None).

(** ** The streaming producer *)

(** The token of an item: the content of the delta of its first choice,
    when there is a choice and the content is not [None]. *)
Definition token_of (chunk : completion_chunk) : option string :=
  match choices chunk with
  | [] => None
  | first :: _ => delta_content first
  end.

(** The [for chunk in response] loop: every token is added to
    [full_response] and yielded. *)
Fixpoint stream_tokens (response : list completion_chunk)
    (full_response : string) : gen string :=
  match response with
  | [] => gen_ret full_response
  | chunk :: rest =>
      match token_of chunk with
      | Some token =>
          _ <~ yield [("type", VStr "token"); ("content", VStr token)] ;;
          stream_tokens rest (full_response ++ token)
      | None => stream_tokens rest full_response
      end
  end.

(** [user_input is None or len(user_input or '') == 0] *)
Definition no_instructions (user_input : option string) : bool :=
  match user_input with
  | None => true
  | Some u => (String.length (text_of (py_or user_input (Some ""))) =? 0)%nat
  end.

(** The [try] and [except json.JSONDecodeError] at the end of
    [_stream_generate_email], on the text received. *)
Definition finish_stream (pf : platform) (customer_name : string)
    (user_input : option string) (full_response : string) : gen unit :=
  gen_try
    (let clean_string := _clean_json_response full_response in
     email_json <~ lift (loads (loads_json pf) clean_string) ;;
     let user_instructions :=
       if no_instructions user_input then "No instructions provided"
       else text_of user_input in
     _ <~ perform (TraceTags
                     [("user_instructions",
                       VStr (if no_instructions user_input then "no"
                             else "yes"))]) ;;
     body <~ lift (subscript email_json "body") ;;
     _ <~ perform (TracePreview
                     ("Customer: " ++ customer_name ++ "; User Instructions: "
                      ++ user_instructions)
                     body) ;;
     yield [("type", VStr "done");
            ("trace_id", _get_current_trace_id (span_inside pf))])
    [JSONDecodeError]
    (fun e =>
       yield [("type", VStr "error");
              ("error", VStr ("Failed to parse email JSON: " ++ exn_str e))]).

(** [EmailGenerator._stream_generate_email] *)
Definition _stream_generate_email (pf : platform) (self : EmailGenerator)
    (customer_data : list Document) (customer_name : string)
    (user_input : option string) : gen unit :=
  let messages :=
    _create_messages (str_title pf) self customer_data user_input in
  _ <~ perform (ModelCall (model self) messages) ;;
  response <~ lift (chat_create pf (model self) messages) ;;
  full_response <~ stream_tokens (fst response) "" ;;
  _ <~ lift (match snd response with
             | Some e => Raises e
             | None => Returns tt
             end) ;;
  finish_stream pf customer_name user_input full_response.

(** [EmailGenerator.stream_generate_email_with_retrieval] *)
Definition stream_generate_email_with_retrieval (pf : platform)
    (self : EmailGenerator) (customer_name : string)
    (user_input : option string) : gen unit :=
  self <~ _load_prompt pf self ;;
  customer_data <~ lift (_retrieve_customer_data (str_title pf) (str_of pf)
                           (loads_json pf) (data_path_of pf) (data_source pf)
                           customer_name) ;;
  _stream_generate_email pf self customer_data customer_name user_input.

(** The producer the facade and the streaming endpoint drain. *)
Definition producer (pf : platform) (self : EmailGenerator)
    (customer_name : string) (user_input : option string) : run :=
  run_of (stream_generate_email_with_retrieval pf self customer_name user_input).

(** ** The other routes *)

(** What a route handler gives the framework: a value to serialise, an
    [HTTPException] with its status and detail, or another exception,
    which the framework answers with status 500. *)
Inductive response (A : Type) : Type :=
| Ok (a : A)
| HttpError (status_code : Z) (detail : string)
| Uncaught (e : exn).
Arguments Ok {A} a.
Arguments HttpError {A} status_code detail.
Arguments Uncaught {A} e.

(** [sub in s] *)
Fixpoint contains (sub s : string) : bool :=
  prefix sub s ||
  match s with
  | "" => false
  | String _ rest => contains sub rest
  end.

(** [k in d] *)
Definition has_key (d : dict) (k : string) : bool :=
  match dict_get d k with
  | Some _ => true
  | None => false
  end.

(** The loop that fills [customers]: the records read so far, and the
    exception of the line that does not parse, if there is one. *)
Fixpoint read_into (json_loads : string -> loads_result)
    (customers : list value) (lines : list string)
    : list value * option exn :=
  match lines with
  | [] => (customers, None)
  | line :: rest =>
      match loads json_loads line with
      | Returns customer => read_into json_loads (customers ++ [customer])%list rest
      | Raises e => (customers, Some e)
      end
  end.

(** [load_customer_data] of the routes module.  [primary] is the file
    beside the package and [alternative] the one under the working
    directory; [data_path.exists()] holds when [primary] is not missing.
    The result comes with the lines printed. *)
Definition load_customer_data (json_loads : string -> loads_result)
    (primary alternative : data_file) : outcome (list value) * list string :=
  let customers := [] in
  let chosen :=
    match primary with
    | Lines _ => primary
    | Missing => alternative
    end in
  match chosen with
  | Missing =>
      (Returns customers,
       ["Warning: input_data.jsonl not found in mlflow_demo/data/"])
  | Lines lines =>
      match read_into json_loads customers lines with
      | (customers, None) => (Returns customers, [])
      | (customers, Some e) =>
          if caught_by [FileNotFoundError] e
          then (Returns customers,
                ["Warning: input_data.jsonl not found in mlflow_demo/data/"])
          else (Raises e, [])
      end
  end.

(** [get_customer_by_name] *)
Fixpoint get_customer_by_name (CUSTOMER_DATA : list value)
    (company_name : string) : response value :=
  match CUSTOMER_DATA with
  | [] => HttpError 404 ("Customer '" ++ company_name ++ "' not found")
  | customer :: rest =>
      match account_name customer with
      | Raises e => Uncaught e
      | Returns n =>
          if eq_str n company_name then Ok customer
          else get_customer_by_name rest company_name
      end
  end.

(** The request body of the two generation routes. *)
Record EmailRequestWithRetrieval : Type := mk_email_request {
  request_customer_name : string;
  request_user_input : option string
}.

(** The status chosen from the text of the exception. *)
Definition status_of (error_msg : string) : Z :=
  if contains "OpenAI client not available" error_msg then 503
  else if contains "Failed to parse LLM output" error_msg then 500
  else if contains "not found" error_msg then 404
  else 500.



Section Routes.

(** What the two response models do with fields that are not of the
    declared type, which is the validation library's business. *)
Variable validate_other : dict -> outcome dict.

(** [EmailOutput] built from the entries of [email_json]: two strings
    and an optional string are accepted as they are. *)
Definition EmailOutput (email_json : dict) : outcome dict :=
  match dict_get email_json "subject_line", dict_get email_json "body",
        get email_json "trace_id" with
  | Some (VStr subject_line), Some (VStr body), VStr t =>
      Returns [("subject_line", VStr subject_line); ("body", VStr body);
               ("trace_id", VStr t)]
  | Some (VStr subject_line), Some (VStr body), VNone =>
      Returns [("subject_line", VStr subject_line); ("body", VStr body);
               ("trace_id", VNone)]
  | _, _, _ => validate_other email_json
  end.


(** [api_generate_email_with_retrieval], around the generator's
    [generate_email_with_retrieval]. *)
Definition api_generate_email_with_retrieval
    (generate_email : string -> option string -> outcome dict)
    (request_data : EmailRequestWithRetrieval) : response dict :=
  match
    (email_json <- generate_email (request_customer_name request_data)
                                  (request_user_input request_data) ;;
     if negb (has_key email_json "subject_line")
        || negb (has_key email_json "body")
     then Raises (mk_exn ValueError
                    ("LLM output is not in the expected format "
                     ++ "(missing 'subject_line' or 'body')"))
     else EmailOutput email_json)
  with
  | Returns out => Ok out
  | Raises e =>
      let error_msg := exn_str e in
      HttpError (status_of error_msg) error_msg
  end.

Variable AssessmentSource : string -> string -> outcome assessment_source.
Variable mlflow_log_feedback : feedback_call -> outcome unit.


End Routes.

(** The generation route on the modelled generator: the handler is a
    coroutine, so the facade finds a running loop; [caller_span] is the
    span active around the handler. *)
Definition generation_route (validate_other : dict -> outcome dict)
    (pf : platform) (caller_span : option span) (self : EmailGenerator)
    (request_data : EmailRequestWithRetrieval) : response dict :=
  api_generate_email_with_retrieval validate_other
    (generate_email_with_retrieval (loads_json pf) caller_span
       (producer pf self) true)
    request_data.

(** ** The host helper *)

(** [ensure_https_protocol], which [server/app.py],
    [server/routes/helper.py], [mlflow_demo/utils/mlflow_helpers.py] and
    [scripts/generate_notebook_urls.py] each define in the same words. *)
Definition ensure_https_protocol (host : option string) : string :=
  if negb (truthy (of_opt host)) then ""
  else
    let host := text_of host in
    if startswith host "https://" || startswith host "http://" then host
    else "https://" ++ host.

(** ** The link helpers *)

Section Links.

(** [os.getenv], and the two notebook utilities of the tracking client. *)
Variable environ : string -> option string.
Variable is_in_databricks_notebook : bool.
Variable get_browser_hostname : option string.

(** The first lines of every link generator of
    [mlflow_demo/utils/mlflow_helpers.py]. *)
Definition databricks_host : string :=
  if is_in_databricks_notebook
  then ensure_https_protocol get_browser_hostname
  else ensure_https_protocol (environ "DATABRICKS_HOST").

(** [get_mlflow_experiment_id] *)
Definition get_mlflow_experiment_id : option string :=
  environ "MLFLOW_EXPERIMENT_ID".

(** The link generators that return a string, by the string they return:
    [print_url] decides what is printed, and nothing else. *)
Definition generate_dataset_link (dataset_id : option string)
    (print_url : bool) : string :=
  let experiment_id := environ "MLFLOW_EXPERIMENT_ID" in
  if negb (truthy (VStr databricks_host))
     || negb (truthy (of_opt experiment_id))
  then ""
  else if truthy (of_opt dataset_id)
  then databricks_host ++ "/ml/experiments/" ++ text_of experiment_id
       ++ "/datasets?selectedDatasetId=" ++ text_of dataset_id
  else databricks_host ++ "/ml/experiments/" ++ text_of experiment_id
       ++ "/datasets".

Definition generate_prompt_link (prompt_name : option string)
    (print_url : bool) : string :=
  let experiment_id := environ "MLFLOW_EXPERIMENT_ID" in
  let uc_catalog := environ "UC_CATALOG" in
  let uc_schema := environ "UC_SCHEMA" in
  if negb (truthy (VStr databricks_host))
     || negb (truthy (of_opt experiment_id))
  then ""
  else if truthy (of_opt prompt_name) && truthy (of_opt uc_catalog)
          && truthy (of_opt uc_schema)
  then
    let full_prompt_name :=
      text_of uc_catalog ++ "." ++ text_of uc_schema ++ "."
      ++ text_of prompt_name in
    databricks_host ++ "/ml/experiments/" ++ text_of experiment_id
    ++ "/prompts/" ++ full_prompt_name
  else if truthy (of_opt prompt_name)
  then databricks_host ++ "/ml/experiments/" ++ text_of experiment_id
       ++ "/prompts/" ++ text_of prompt_name
  else databricks_host ++ "/ml/experiments/" ++ text_of experiment_id
       ++ "/prompts".

Definition generate_evaluation_comparison_link
    (selected_run_id compare_to_run_id : string) (print_url : bool) : string :=
  let experiment_id := get_mlflow_experiment_id in
  if negb (truthy (VStr databricks_host))
     || negb (truthy (of_opt experiment_id))
  then ""
  else databricks_host ++ "/ml/experiments/" ++ text_of experiment_id
       ++ "/evaluation-runs" ++ "?selectedRunUuid=" ++ selected_run_id
       ++ "&compareToRunUuid=" ++ compare_to_run_id.

Definition generate_labeling_schema_link (print_url : bool) : string :=
  let experiment_id := get_mlflow_experiment_id in
  if negb (truthy (VStr databricks_host))
     || negb (truthy (of_opt experiment_id))
  then ""
  else databricks_host ++ "/ml/experiments/" ++ text_of experiment_id
       ++ "/label-schemas".

Definition generate_labeling_session_link (session_id : option string)
    (print_url : bool) : string :=
  let experiment_id := get_mlflow_experiment_id in
  if negb (truthy (VStr databricks_host))
     || negb (truthy (of_opt experiment_id))
  then ""
  else if truthy (of_opt session_id)
  then databricks_host ++ "/ml/experiments/" ++ text_of experiment_id
       ++ "/labeling-sessions" ++ "?selectedLabelingSessionId="
       ++ text_of session_id
  else databricks_host ++ "/ml/experiments/" ++ text_of experiment_id
       ++ "/labeling-sessions".

(** [notebook_env_vars] of [get_notebook_url] in
    [server/routes/helper.py]. *)
Definition notebook_env_vars : list (string * string) :=
  [("1_observe_with_traces", "NOTEBOOK_URL_1_observe_with_traces");
   ("2_create_quality_metrics", "NOTEBOOK_URL_2_create_quality_metrics");
   ("3_find_fix_quality_issues", "NOTEBOOK_URL_3_find_fix_quality_issues");
   ("4_human_review", "NOTEBOOK_URL_4_human_review");
   ("5_production_monitoring", "NOTEBOOK_URL_5_production_monitoring")].

(** [d.get(k)] on a dictionary of strings. *)
Fixpoint str_get (d : list (string * string)) (k : string) : option string :=
  match d with
  | [] => None
  | (k', v) :: rest => if k' =? k then Some v else str_get rest k
  end.

(** [get_notebook_url] of the helper routes. *)
Definition get_notebook_url (name : string) : string :=
  let env_var_name := str_get notebook_env_vars name in
  if truthy (of_opt env_var_name) then
    let url := environ (text_of env_var_name) in
    if truthy (of_opt url) then text_of url else "NOT FOUND"
  else "NOT FOUND".

(** [get_notebook_url_route] *)
Definition get_notebook_url_route (name : string) : dict :=
  let url := get_notebook_url name in
  [("notebook_name", VStr name); ("url", VStr url)].

End Links.

(** ** Sample data *)

(** The text [{"subject_line":"Hi","body":"Bye"}]. *)
Definition sample_email_text : string :=
  "{" ++ dq ++ "subject_line" ++ dq ++ ":" ++ dq ++ "Hi" ++ dq ++ ","
  ++ dq ++ "body" ++ dq ++ ":" ++ dq ++ "Bye" ++ dq ++ "}".

Definition sample_email : value :=
  VDict [("subject_line", VStr "Hi"); ("body", VStr "Bye")].

(** The line [{"account":{"name":"EcomSolutions LLC"}}] and its value. *)
Definition sample_line : string :=
  "{" ++ dq ++ "account" ++ dq ++ ":{" ++ dq ++ "name" ++ dq ++ ":" ++ dq
  ++ "EcomSolutions LLC" ++ dq ++ "}}".

Definition sample_customer (n : string) : value :=
  VDict [("account", VDict [("name", VStr n)])].

(** [json.loads] on the strings the examples use: the sample email, the
    sample line, the number [42]; a string that starts no JSON value, as
    the other strings of the examples do, is refused at its first
    character. *)
Definition sample_loads (s : string) : loads_result :=
  if s =? sample_email_text then Parsed sample_email
  else if s =? sample_line then Parsed (sample_customer "EcomSolutions LLC")
  else if s =? "42" then Parsed (VInt 42)
  else DecodeError "Expecting value: line 1 column 1 (char 0)".

(** A producer that streams the sample email in three tokens for the
    sample customer and raises for any other name. *)
Definition sample_producer (name : string) (user_input : option string) : run :=
  if name =? "EcomSolutions LLC" then
    ([token_chunk ("```json" ++ nl);
      token_chunk sample_email_text;
      token_chunk (nl ++ "```");
      done_chunk (VStr "tr-1")], None)
  else
    ([], Some (mk_exn ValueError
                 ("Customer '" ++ name ++ "' not found in data file"))).

Definition sample_generator : EmailGenerator :=
  mk_generator "production" "llm-endpoint" "main" "default" "email_prompt"
               (Some (mk_prompt "Write a follow-up email." 3)).

Definition sample_documents : list Document :=
  [mk_document "Acme_account" "# Account" (mk_metadata "account" "Acme");
   mk_document "Acme_support_tickets" "# Support Tickets"
               (mk_metadata "support_tickets" "Acme")].

(** Chunk sequences of the examples. *)
Definition chunks_empty_id : list dict :=
  [token_chunk sample_email_text; done_chunk (VStr "")].

Definition chunks_two_done : list dict :=
  [token_chunk sample_email_text; done_chunk (VStr "tr-1");
   done_chunk (VStr "tr-2")].

Definition chunks_fenced : list dict :=
  [token_chunk ("```json" ++ nl);
   token_chunk sample_email_text;
   token_chunk (nl ++ "```");
   done_chunk (VStr "tr-1")].

Definition chunks_refusal : list dict :=
  [token_chunk "Sorry, I cannot comply"].

Definition chunks_empty_error : list dict := [error_chunk (VStr "")].

Definition chunks_two_errors : list dict :=
  [error_chunk (VStr "first"); error_chunk (VStr "second")].

Definition chunks_error : list dict :=
  [token_chunk "Sorry"; error_chunk (VStr "Failed to parse email JSON")].

(** Whether a parse is an object or a failure to decode, the two cases
    the reducer handles; any other JSON value makes [email_json.get]
    raise, and the other exceptions of [json.loads] pass through. *)
Definition object_or_failure (r : loads_result) : bool :=
  match r with
  | Parsed (VDict _) => true
  | Parsed _ => false
  | DecodeError _ => true
  | Refused _ _ => false
  end.

(** [str.title] on ASCII text: a letter is made upper case when the
    character before it is not a letter, and lower case when it is. *)
Definition is_ascii_lower (c : ascii) : bool :=
  let n := nat_of_ascii c in ((97 <=? n) && (n <=? 122))%nat.
Definition is_ascii_upper (c : ascii) : bool :=
  let n := nat_of_ascii c in ((65 <=? n) && (n <=? 90))%nat.
Definition to_upper (c : ascii) : ascii :=
  if is_ascii_lower c then ascii_of_nat (nat_of_ascii c - 32) else c.
Definition to_lower (c : ascii) : ascii :=
  if is_ascii_upper c then ascii_of_nat (nat_of_ascii c + 32) else c.

Fixpoint title_from (previous_is_cased : bool) (s : string) : string :=
  match s with
  | "" => ""
  | String c r =>
      String (if previous_is_cased then to_lower c else to_upper c)
             (title_from (is_ascii_lower c || is_ascii_upper c) r)
  end.

Definition ascii_title (s : string) : string := title_from false s.

(** [json.dumps] with its defaults, on every value but a float: a
    character outside SPACE to TILDE, a quote or a backslash is escaped. *)
Definition hex_digit (n : nat) : string :=
  String.substring n 1 "0123456789abcdef".

Definition escape_char (c : ascii) : string :=
  let n := nat_of_ascii c in
  if (n =? 34)%nat then "\" ++ dq
  else if (n =? 92)%nat then "\\"
  else if (n =? 8)%nat then "\b"
  else if (n =? 12)%nat then "\f"
  else if (n =? 10)%nat then "\n"
  else if (n =? 13)%nat then "\r"
  else if (n =? 9)%nat then "\t"
  else if ((32 <=? n) && (n <=? 126))%nat then String c ""
  else "\u00" ++ hex_digit (n / 16) ++ hex_digit (n mod 16).

Fixpoint escape (s : string) : string :=
  match s with
  | "" => ""
  | String c r => escape_char c ++ escape r
  end.

Fixpoint sample_dumps_value (v : value) : string :=
  match v with
  | VNone => "null"
  | VBool b => if b then "true" else "false"
  | VInt n => NilZero.string_of_int (Z.to_int n)
  | VFloat _ => "NaN"
  | VStr s => dq ++ escape s ++ dq
  | VList items => "[" ++ String.concat ", " (map sample_dumps_value items) ++ "]"
  | VDict items =>
      "{"
      ++ String.concat ", "
           (map (fun '(k, x) =>
                   dq ++ escape k ++ dq ++ ": " ++ sample_dumps_value x)
                items)
      ++ "}"
  end.

Definition sample_dumps (d : dict) : string := sample_dumps_value (VDict d).

(** [str] as an f-string applies it, on [None], booleans, integers and
    strings; the examples format no other value. *)
Definition sample_str (v : value) : string :=
  match v with
  | VNone => "None"
  | VBool b => if b then "True" else "False"
  | VInt n => NilZero.string_of_int (Z.to_int n)
  | VStr s => s
  | other => sample_dumps_value other
  end.

(** A feedback client that knows one trace. *)
Definition sample_source (ty id : string) : outcome assessment_source :=
  Returns (mk_source ty id).

Definition sample_log_feedback (call : feedback_call) : outcome unit :=
  if fb_trace_id call =? "tr-1" then Returns tt
  else Raises (mk_exn (OtherError "MlflowException")
                 ("Trace with ID " ++ fb_trace_id call ++ " not found")).

Definition sample_data : list value :=
  [sample_customer "Zeta Corp"; sample_customer "EcomSolutions LLC";
   sample_customer "Acme"].

(** The insertion sort of [sort_keyed], on names alone. *)
Fixpoint insert_name (x : string) (l : list string) : list string :=
  match l with
  | [] => [x]
  | y :: rest =>
      if String.ltb y x then y :: insert_name x rest else x :: y :: rest
  end.

Fixpoint sort_names (l : list string) : list string :=
  match l with
  | [] => []
  | x :: rest => insert_name x (sort_names rest)
  end.

(** The dictionary of the frame the [except Exception] clause sends. *)
Definition failure_event (e : exn) : dict :=
  [("type", VStr "error"); ("error", VStr (exn_str e))].

(** A chunk the loop of the endpoint handles without raising. *)
Definition handled (chunk : dict) : Prop :=
  exists ev, event_of_chunk chunk = Returns ev.

(** A company with its sort key. *)
Definition keyed (n : string) : value * dict := (VStr n, company n).

(** A comparison that refuses every pair it is asked about. *)
Definition sample_lt_other (a b : value) : outcome bool :=
  Raises (mk_exn TypeError
            ("'<' not supported between instances of '" ++ type_name a
             ++ "' and '" ++ type_name b ++ "'")).

(** ** Vocabulary of the further properties *)

(** A string of whitespace only. *)
Fixpoint all_space (s : string) : bool :=
  match s with
  | "" => true
  | String c r => is_space c && all_space r
  end.

(** A token chunk whose content is whitespace only. *)
Definition blank_token (chunk : dict) : bool :=
  has_type "token" chunk
  && match get_or chunk "content" (VStr "") with
     | VStr s => all_space s
     | _ => false
     end.

Definition not_error (chunk : dict) : bool := negb (has_type "error" chunk).

(** Whether a character occurs in a string. *)
Fixpoint has_char (c : ascii) (s : string) : bool :=
  match s with
  | "" => false
  | String x r => Ascii.eqb x c || has_char c r
  end.

(** The tokens of a response, and their concatenation. *)
Definition tokens_of (response : list completion_chunk) : list string :=
  flat_map (fun chunk => match token_of chunk with
                         | Some token => [token]
                         | None => []
                         end)
           response.

(** The tokens of a response as the producer's contract words them: the
    content of the first choice of every item that has a choice and whose
    content is not [None], in the order of arrival. *)
Fixpoint received_tokens (response : list completion_chunk) : list string :=
  match response with
  | [] => []
  | mk_completion_chunk (mk_choice (Some token) :: _) :: rest =>
      token :: received_tokens rest
  | _ :: rest => received_tokens rest
  end.

Fixpoint joined (tokens : list string) : string :=
  match tokens with
  | [] => ""
  | token :: rest => token ++ joined rest
  end.

Definition is_model_call (e : effect) : bool :=
  match e with
  | ModelCall _ _ => true
  | _ => false
  end.

(** The generator after [_load_prompt] has stored [loaded]. *)
Definition reloaded (self : EmailGenerator) (loaded : prompt_version)
    : EmailGenerator :=
  mk_generator (prompt_alias self) (model self) (uc_catalog self)
               (uc_schema self) (prompt_name self) (Some loaded).

(** The calls [_load_prompt] makes when the registry answers. *)
Definition after_load (self : EmailGenerator) (loaded : prompt_version)
    : list effect :=
  [LoadPrompt (prompt_uri self);
   SetActiveModel (prompt_name self ++ "@" ++ prompt_alias self ++ "@v"
                   ++ int_str (version loaded))].

(** The messages the producer sends to the model. *)
Definition messages_of (pf : platform) (self : EmailGenerator)
    (loaded : prompt_version) (customer_data : list Document)
    (user_input : option string) : list dict :=
  _create_messages (str_title pf) (reloaded self loaded) customer_data
                   user_input.

(** The content of the user message among the messages sent. *)
Definition user_content (messages : list dict) : value :=
  get (nth 1 messages []) "content".

(** The end of a producer's run: nothing, a done chunk or an error
    chunk. *)
Definition terminal (chunks : list dict) : Prop :=
  chunks = [] \/ (exists t, chunks = [done_chunk t])
  \/ (exists m, chunks = [error_chunk (VStr m)]).

(** The documents of a record's sections. *)
Definition documents_of (title : string -> string) (py_str : value -> string)
    (name : string) (items : dict) : list Document :=
  map (fun kv : string * value =>
         let (key, v) := kv in
         mk_document (name ++ "_" ++ key)
                     (_format_json_as_markdown title py_str key v)
                     (mk_metadata key name))
      items.

(** The text of the lookup's [ValueError]. *)
Definition not_found_text (name : string) : string :=
  "Customer '" ++ name ++ "' not found in data file".

(** The status the generation route derives from a message with
    [not found] in it: the two phrases that are looked for first decide,
    wherever they occur. *)
Definition lookup_status (text : string) : Z :=
  if contains "OpenAI client not available" text then 503
  else if contains "Failed to parse LLM output" text then 500
  else 404.

(** The frames' dictionaries for a drained generator. *)
Definition events_of (g : gen unit) : list dict :=
  (gen_yielded g
   ++ match gen_result g with
      | Raises e => [failure_event e]
      | Returns _ => []
      end
   ++ [closing_event])%list.

(** Whether a setting of the constructor is there, as an argument or in
    the environment. *)
Definition resolved (pf : platform) (argument : option string)
    (variable : string) : bool :=
  truthy (of_opt (py_or argument (environ pf variable))).

(** A link of the tracking server's pages: empty when the host or the
    experiment is not known, and else under the experiment's page on the
    host. *)
Definition rooted (host : string) (experiment_id : option string)
    (link : string) : Prop :=
  if negb (truthy (VStr host)) || negb (truthy (of_opt experiment_id))
  then link = ""
  else exists rest : string,
      link = host ++ "/ml/experiments/" ++ text_of experiment_id ++ "/"
             ++ rest.

(** A text that starts with one of the two protocols. *)
Definition has_protocol (url : string) : bool :=
  startswith url "https://" || startswith url "http://".

(** ** Further sample data *)

(** A response that streams the given texts, between two items that carry
    no token. *)
Definition sample_response (texts : list string) : completion_stream :=
  ((mk_completion_chunk []
    :: map (fun t => mk_completion_chunk [mk_choice (Some t)]) texts
    ++ [mk_completion_chunk [mk_choice None]])%list,
   None).

Definition sample_registry (uri : string) : outcome prompt_version :=
  if uri =? "prompts:/main.default.email_prompt@production"
  then Returns (mk_prompt "Write a follow-up email." 3)
  else Raises (mk_exn (OtherError "MlflowException")
                 ("Prompt " ++ uri ++ " not found")).

Definition sample_environ (k : string) : option string :=
  if k =? "LLM_MODEL" then Some "llm-endpoint"
  else if k =? "PROMPT_NAME" then Some "email_prompt"
  else if k =? "PROMPT_ALIAS" then Some "production"
  else if k =? "UC_CATALOG" then Some "main"
  else if k =? "UC_SCHEMA" then Some "default"
  else None.

(** [sample_loads], and the empty object. *)
Definition sample_loads_more (s : string) : loads_result :=
  if s =? "{}" then Parsed (VDict []) else sample_loads s.

Definition sample_platform (environment : string -> option string)
    (response : completion_stream) (source : data_file) : platform :=
  mk_platform environment (Returns tt) sample_registry
              (fun _ _ => Returns response) (Some (mk_span "tr-1"))
              sample_loads_more ascii_title sample_str
              "data/input_data.jsonl" source.

Definition sample_self : EmailGenerator :=
  mk_generator "production" "llm-endpoint" "main" "default" "email_prompt" None.

Definition sample_fenced_texts : list string :=
  ["```json" ++ nl; sample_email_text; nl ++ "```"].

Definition sample_padded_texts : list string :=
  [" "; "```json" ++ nl; sample_email_text; nl ++ "```"; nl].

(** A [json.loads] that gives up on every text for its depth. *)
Definition sample_refusing_loads (s : string) : loads_result :=
  Refused DepthLimit
    "maximum recursion depth exceeded while decoding a JSON array".

(** A validation that refuses every dictionary it is asked about. *)
Definition sample_validate_other (d : dict) : outcome dict :=
  Raises (mk_exn (OtherError "ValidationError") "1 validation error").

(** * Properties *)

(** ** Strings *)

Lemma lstrip_idem (s : string) : lstrip (lstrip s) = lstrip s.
Proof.
  induction s as [|c r IH]; simpl; [reflexivity|].
  destruct (is_space c) eqn:E; [exact IH|].
  simpl. now rewrite E.
Qed.

Lemma rstrip_idem (s : string) : rstrip (rstrip s) = rstrip s.
Proof.
  induction s as [|c r IH]; simpl; [reflexivity|].
  destruct (rstrip r) as [|c' r'] eqn:R.
  - destruct (is_space c) eqn:E; simpl; [reflexivity|]. now rewrite E.
  - simpl in *. now rewrite IH.
Qed.

Lemma lstrip_rstrip_comm (s : string) : lstrip (rstrip s) = rstrip (lstrip s).
Proof.
  induction s as [|c r IH]; simpl; [reflexivity|].
  destruct (is_space c) eqn:E.
  - rewrite <- IH.
    destruct (rstrip r) as [|c' r'] eqn:R; [reflexivity|].
    simpl. now rewrite E.
  - simpl.
    destruct (rstrip r) as [|c' r'] eqn:R; simpl; now rewrite E.
Qed.

Lemma strip_idem (s : string) : strip (strip s) = strip s.
Proof.
  unfold strip.
  rewrite <- (lstrip_rstrip_comm (rstrip s)).
  now rewrite lstrip_idem, rstrip_idem.
Qed.

Lemma startswith_app (p q s : string) :
  startswith s (p ++ q) = true -> startswith s p = true.
Proof.
  unfold startswith. revert s.
  induction p as [|a p IH]; intros s H.
  - now destruct s.
  - destruct s as [|b s]; simpl in *; [discriminate|].
    destruct (ascii_dec a b); [now apply IH | discriminate].
Qed.

Lemma endswith_refl (s : string) : endswith s s = true.
Proof.
  destruct s as [|a s]; simpl; [reflexivity|].
  now rewrite Ascii.eqb_refl, String.eqb_refl.
Qed.

Lemma endswith_tail (c : ascii) (p s : string) :
  endswith s (String c p) = true -> endswith s p = true.
Proof.
  induction s as [|b s IH]; simpl; intros H.
  - discriminate.
  - apply orb_true_iff in H. apply orb_true_iff. right.
    destruct H as [H|H].
    + apply andb_true_iff in H. destruct H as [_ H].
      apply String.eqb_eq in H. subst. apply endswith_refl.
    + apply IH in H. destruct s; simpl in *; exact H || discriminate.
Qed.

(** ** Code-fence cleaning *)

Lemma tagged_fence_is_fence (s : string) :
  startswith s fence_json_open && endswith s fence_close = true ->
  fenced s = true.
Proof.
  intros H. apply andb_true_iff in H. destruct H as [Hs He].
  unfold fenced. apply andb_true_iff. split.
  - apply (startswith_app fence ("json" ++ nl)). exact Hs.
  - apply (endswith_tail (ascii_of_nat 10)). exact He.
Qed.

Lemma unfence_unfenced (s : string) : fenced s = false -> unfence s = s.
Proof.
  intros H. unfold unfence.
  destruct (startswith s fence_json_open && endswith s fence_close) eqn:T.
  - apply tagged_fence_is_fence in T. congruence.
  - unfold fenced in H. now rewrite H.
Qed.

Lemma clean_is_stripped (s : string) :
  strip (_clean_json_response s) = _clean_json_response s.
Proof. unfold _clean_json_response. apply strip_idem. Qed.

Lemma clean_inline_is_stripped (s : string) :
  strip (clean_inline s) = clean_inline s.
Proof. unfold clean_inline. apply strip_idem. Qed.

(** The reducer's copy of the cleaning is the method applied to the
    stripped text. *)
Lemma clean_inline_eq (s : string) :
  clean_inline s = _clean_json_response (strip s).
Proof. reflexivity. Qed.

(** The reducer's copy is idempotent under the same condition. *)
Lemma clean_inline_idempotent_unless_nested (s : string) :
  fenced (clean_inline s) = false ->
  clean_inline (clean_inline s) = clean_inline s.
Proof.
  intros H. unfold clean_inline at 1.
  rewrite clean_inline_is_stripped, (unfence_unfenced _ H).
  apply clean_inline_is_stripped.
Qed.

Example clean_tagged :
  _clean_json_response ("```json" ++ nl ++ "{}" ++ nl ++ "```") = "{}".
Proof. reflexivity. Qed.

Example clean_bare : _clean_json_response "```{}```" = "{}".
Proof. reflexivity. Qed.

Example clean_short : _clean_json_response "````" = "".
Proof. reflexivity. Qed.

Example clean_overlap : _clean_json_response ("```json" ++ nl ++ "```") = "".
Proof. reflexivity. Qed.

Example clean_plain : _clean_json_response "  {}  " = "{}".
Proof. reflexivity. Qed.

Example clean_padded_fence : _clean_json_response " ```{}``` " = "```{}```".
Proof. reflexivity. Qed.

Example clean_inline_padded_fence : clean_inline " ```{}``` " = "{}".
Proof. reflexivity. Qed.

Example clean_inline_nested :
  clean_inline "``````x``````" = "```x```"
  /\ clean_inline (clean_inline "``````x``````") = "x".
Proof. split; reflexivity. Qed.

(** C4, as stated, fails: cleaning removes one pair of fence markers, so
    on a fence inside a fence the second application removes the inner
    pair and changes the text again. *)
Lemma clean_not_idempotent :
  _clean_json_response "``````x``````" = "```x```"
  /\ _clean_json_response (_clean_json_response "``````x``````") = "x"
  /\ _clean_json_response (_clean_json_response "``````x``````")
     <> _clean_json_response "``````x``````".
Proof. repeat split. discriminate. Qed.

(** C4, amended: on every string whose cleaned text is not itself wrapped
    in a fence, cleaning the cleaned text changes nothing; and text with no
    surrounding fence and no surrounding whitespace is returned as it
    is. *)
Theorem clean_idempotent_unless_nested :
  (forall s : string,
      fenced (_clean_json_response s) = false ->
      _clean_json_response (_clean_json_response s) = _clean_json_response s)
  /\ (forall s : string,
         fenced s = false -> strip s = s -> _clean_json_response s = s).
Proof.
  split.
  - intros s H. unfold _clean_json_response at 1.
    rewrite (unfence_unfenced _ H). apply clean_is_stripped.
  - intros s H Hs. unfold _clean_json_response.
    now rewrite (unfence_unfenced _ H).
Qed.

Lemma clean_idempotent_unless_nested_witness :
  (fenced (_clean_json_response "```{}```") = false
   /\ _clean_json_response (_clean_json_response "```{}```")
      = _clean_json_response "```{}```")
  /\ (fenced "{}" = false /\ strip "{}" = "{}"
      /\ _clean_json_response "{}" = "{}").
Proof.
  split.
  - split; [reflexivity|].
    apply (proj1 clean_idempotent_unless_nested "```{}```"). reflexivity.
  - split; [reflexivity|]. split; [reflexivity|].
    apply (proj2 clean_idempotent_unless_nested "{}"); reflexivity.
Defined.

(** ** The stream reducer *)

Lemma append_empty_r (s : string) : s ++ "" = s.
Proof. induction s as [|c s IH]; simpl; [reflexivity | now rewrite IH]. Qed.

Lemma append_assoc (a b c : string) : (a ++ b) ++ c = a ++ (b ++ c).
Proof. induction a as [|x a IH]; simpl; [reflexivity | now rewrite IH]. Qed.

Lemma last_cons {A : Type} (l : list A) (x d : A) : last (x :: l) d = last l x.
Proof.
  revert x d. induction l as [|y l IH]; intros x d; [reflexivity|].
  change (last (y :: l) d = last (y :: l) x). now rewrite !IH.
Qed.

Lemma eq_str_unique (v : value) (a b : string) :
  eq_str v a = true -> eq_str v b = true -> a = b.
Proof.
  destruct v; simpl; try discriminate.
  intros Ha Hb. apply String.eqb_eq in Ha, Hb. congruence.
Qed.

Lemma eq_str_other (v : value) (a b : string) :
  eq_str v a = true -> a <> b -> eq_str v b = false.
Proof.
  intros Ha Hab. destruct (eq_str v b) eqn:Hb; [|reflexivity].
  now destruct Hab; apply (eq_str_unique v).
Qed.

Lemma done_ids_cons (chunk : dict) (rest : list dict) :
  done_ids (chunk :: rest)
  = if has_type "done" chunk then get chunk "trace_id" :: done_ids rest
    else done_ids rest.
Proof. unfold done_ids. simpl. now destruct (has_type "done" chunk). Qed.

Lemma error_messages_cons (chunk : dict) (rest : list dict) :
  error_messages (chunk :: rest)
  = if has_type "error" chunk then get chunk "error" :: error_messages rest
    else error_messages rest.
Proof. unfold error_messages. simpl. now destruct (has_type "error" chunk). Qed.

(** The loop of the reducer computes the token text, the id of the last
    done chunk and the message of the last error chunk. *)
Lemma collect_spec (chunks : list dict) :
  forall (st : collected) (text : string),
    token_text chunks = Some text ->
    collect st chunks
    = Returns (mk_collected (email_content st ++ text)
                            (last (done_ids chunks) (trace_id st))
                            (last (error_messages chunks) (error_message st))).
Proof.
  induction chunks as [|chunk rest IH]; intros st text H.
  - injection H as <-. destruct st; simpl. now rewrite ?append_empty_r, ?append_assoc.
  - rewrite done_ids_cons, error_messages_cons.
    cbn [token_text collect] in *. unfold collect_step, has_type in *.
    destruct (eq_str (get chunk "type") "token") eqn:Tk.
    + rewrite (eq_str_other _ _ "done" Tk), (eq_str_other _ _ "error" Tk)
        by discriminate.
      destruct (get_or chunk "content" (VStr "")); try discriminate.
      destruct (token_text rest) as [t|]; [|discriminate].
      injection H as <-. cbn [bind]. rewrite (IH _ t eq_refl).
      cbn [email_content trace_id error_message].
      now rewrite ?append_empty_r, ?append_assoc.
    + destruct (eq_str (get chunk "type") "done") eqn:Dn.
      * rewrite (eq_str_other _ _ "error" Dn) by discriminate.
        cbn [bind]. rewrite (IH _ text H), last_cons. reflexivity.
      * destruct (eq_str (get chunk "type") "error") eqn:Er; cbn [bind];
          rewrite (IH _ text H), ?last_cons; reflexivity.
Qed.

(** When a token chunk holds something else than a string, the reducer
    raises [TypeError]. *)
Lemma collect_type_error (chunks : list dict) :
  forall st : collected,
    token_text chunks = None ->
    exists e, collect st chunks = Raises e /\ exn_class_of e = TypeError.
Proof.
  induction chunks as [|chunk rest IH]; intros st H; [discriminate|].
  simpl in H. unfold has_type in H. simpl. unfold collect_step.
  destruct (eq_str (get chunk "type") "token") eqn:Tk.
  - destruct (get_or chunk "content" (VStr "")) eqn:C;
      try (eexists; split; [reflexivity|reflexivity]).
    destruct (token_text rest) as [t|] eqn:T; [discriminate|].
    simpl. apply IH. reflexivity.
  - destruct (eq_str (get chunk "type") "done");
      [|destruct (eq_str (get chunk "type") "error")]; simpl; now apply IH.
Qed.

Section ReducerProperties.

Variable json_loads : string -> loads_result.
Variable active : option span.

Local Abbreviation reducer := (_stream_email_reducer_static json_loads active).

Lemma reducer_unfold (chunks : list dict) (text : string) :
  token_text chunks = Some text ->
  reducer chunks
  = let st := mk_collected text (last_done_id chunks) (last_error chunks) in
    try_except (reduce_parsed json_loads st) [JSONDecodeError; KeyError]
               (reduce_failed active st).
Proof.
  intros H. unfold _stream_email_reducer_static.
  now rewrite (collect_spec chunks _ text H).
Qed.

(** An object is reduced to its two fields and the id of the last done
    chunk when that id is set. *)
Lemma reducer_on_object (chunks : list dict) (text : string) (d : dict) :
  token_text chunks = Some text ->
  json_loads (clean_inline text) = Parsed (VDict d) ->
  reducer chunks
  = Returns ([("email_subject", get d "subject_line");
              ("email_body", get_or d "body" (VStr ""))]
             ++ if truthy (last_done_id chunks)
                then [("trace_id", last_done_id chunks)]
                else [])%list.
Proof.
  intros H P. rewrite (reducer_unfold _ _ H). simpl.
  unfold reduce_parsed, loads. simpl. rewrite P. simpl.
  now destruct (truthy (last_done_id chunks)).
Qed.

(** A text that does not parse is reduced to the fallback result. *)
Lemma reducer_on_failure (chunks : list dict) (text msg : string) :
  token_text chunks = Some text ->
  json_loads (clean_inline text) = DecodeError msg ->
  reducer chunks
  = Returns [("email_subject", VStr fixed_failure_subject);
             ("email_body",
               if truthy (last_error chunks) then last_error chunks
               else VStr ("Failed to parse email: " ++ msg));
             ("trace_id",
               if truthy (last_done_id chunks) then last_done_id chunks
               else _get_current_trace_id active)].
Proof.
  intros H P. rewrite (reducer_unfold _ _ H). simpl.
  unfold reduce_parsed, loads. simpl. rewrite P. simpl.
  unfold reduce_failed. simpl.
  now destruct (truthy (last_done_id chunks)), (truthy (last_error chunks)).
Qed.

(** A JSON value that is not an object leaves the reducer as an
    [AttributeError]. *)
Lemma reducer_on_other_json (chunks : list dict) (text : string) (v : value) :
  token_text chunks = Some text ->
  json_loads (clean_inline text) = Parsed v ->
  object_or_failure (Parsed v) = false ->
  exists e, reducer chunks = Raises e /\ exn_class_of e = AttributeError.
Proof.
  intros H P N. rewrite (reducer_unfold _ _ H). simpl.
  unfold reduce_parsed, loads. simpl. rewrite P.
  destruct v; try discriminate; simpl; eexists; split; reflexivity.
Qed.

(** The two other exceptions of [json.loads] are outside the [except]
    clause and leave the reducer as they are. *)
Lemma reducer_on_refusal (chunks : list dict) (text : string)
    (why : loads_failure) (msg : string) :
  token_text chunks = Some text ->
  json_loads (clean_inline text) = Refused why msg ->
  reducer chunks = Raises (mk_exn (failure_class why) msg).
Proof.
  intros H P. rewrite (reducer_unfold _ _ H). simpl.
  unfold reduce_parsed, loads. simpl. rewrite P.
  now destruct why.
Qed.

End ReducerProperties.

Lemma last_done_id_final (chunks : list dict) (final : dict) :
  has_type "done" final = true ->
  last_done_id (chunks ++ [final]) = get final "trace_id".
Proof.
  intros H. unfold last_done_id, done_ids.
  rewrite filter_app, map_app. simpl. rewrite H. simpl.
  apply last_last.
Qed.

Lemma reducer_trace_id (json_loads : string -> loads_result)
    (active : option span) (chunks : list dict) (text : string) :
  token_text chunks = Some text ->
  object_or_failure (json_loads (clean_inline text)) = true ->
  truthy (last_done_id chunks) = true ->
  exists result,
    _stream_email_reducer_static json_loads active chunks = Returns result
    /\ dict_get result "trace_id" = Some (last_done_id chunks).
Proof.
  intros H O T.
  destruct (json_loads (clean_inline text)) as [v|msg|why msg] eqn:P.
  - destruct v; try discriminate.
    rewrite (reducer_on_object _ _ _ _ _ H P), T.
    eexists; split; reflexivity.
  - rewrite (reducer_on_failure _ _ _ _ _ H P), T.
    eexists; split; reflexivity.
  - discriminate.
Qed.

Example reducer_fenced_email :
  _stream_email_reducer_static sample_loads None chunks_fenced
  = Returns [("email_subject", VStr "Hi"); ("email_body", VStr "Bye");
             ("trace_id", VStr "tr-1")].
Proof. reflexivity. Qed.

Example reducer_refusal :
  _stream_email_reducer_static sample_loads (Some (mk_span "tr-9")) chunks_refusal
  = Returns [("email_subject", VStr "Email generation failed");
             ("email_body",
               VStr "Failed to parse email: Expecting value: line 1 column 1 (char 0)");
             ("trace_id", VStr "tr-9")].
Proof. reflexivity. Qed.

Example reducer_number :
  _stream_email_reducer_static sample_loads None [token_chunk "42"]
  = Raises (mk_exn AttributeError "'int' object has no attribute 'get'").
Proof. reflexivity. Qed.

(** C1, as stated, fails: a done chunk whose id is the empty string does
    not pass the test [if trace_id], and the result holds no correlation id
    instead of the one the chunk carries. *)
Lemma reducer_drops_empty_trace_id :
  token_text chunks_empty_id = Some sample_email_text
  /\ sample_loads (clean_inline sample_email_text) = Parsed sample_email
  /\ last_done_id chunks_empty_id = VStr ""
  /\ _stream_email_reducer_static sample_loads None chunks_empty_id
     = Returns [("email_subject", VStr "Hi"); ("email_body", VStr "Bye")]
  /\ dict_get [("email_subject", VStr "Hi"); ("email_body", VStr "Bye")]
              "trace_id"
     <> Some (last_done_id chunks_empty_id).
Proof. repeat split. discriminate. Qed.

(** C1, amended: when the token text, cleaned, parses as an object with
    subject line [S] and body [B], the reducer returns a result with
    subject [S] and body [B]; the result holds the id of the last done
    chunk when that id is set, and no correlation id otherwise. *)
Theorem reducer_parsed_email (json_loads : string -> loads_result)
    (active : option span) (chunks : list dict) (text : string) (d : dict)
    (S B : value) :
  token_text chunks = Some text ->
  json_loads (clean_inline text) = Parsed (VDict d) ->
  dict_get d "subject_line" = Some S ->
  dict_get d "body" = Some B ->
  exists result,
    _stream_email_reducer_static json_loads active chunks = Returns result
    /\ dict_get result "email_subject" = Some S
    /\ dict_get result "email_body" = Some B
    /\ dict_get result "trace_id"
       = if truthy (last_done_id chunks) then Some (last_done_id chunks)
         else None.
Proof.
  intros H P HS HB. rewrite (reducer_on_object _ _ _ _ _ H P).
  unfold get, get_or. rewrite HS, HB.
  eexists; split; [reflexivity|].
  now destruct (truthy (last_done_id chunks)).
Qed.

Lemma reducer_parsed_email_witness :
  token_text chunks_fenced
  = Some ("```json" ++ nl ++ sample_email_text ++ nl ++ "```")
  /\ exists result,
      _stream_email_reducer_static sample_loads None chunks_fenced
      = Returns result
      /\ dict_get result "email_subject" = Some (VStr "Hi")
      /\ dict_get result "email_body" = Some (VStr "Bye")
      /\ dict_get result "trace_id" = Some (VStr "tr-1").
Proof.
  split; [reflexivity|].
  apply (reducer_parsed_email sample_loads None chunks_fenced
           ("```json" ++ nl ++ sample_email_text ++ nl ++ "```")
           [("subject_line", VStr "Hi"); ("body", VStr "Bye")]
           (VStr "Hi") (VStr "Bye"));
    reflexivity.
Defined.

(** C2, as stated, fails: an error chunk whose message is the empty
    string does not pass the test [if error_message] and the body keeps the
    parse-failure text; and of two error chunks only the last one's message
    becomes the body. *)
Lemma reducer_keeps_body_on_empty_error :
  (token_text chunks_empty_error = Some ""
   /\ sample_loads (clean_inline "")
      = DecodeError "Expecting value: line 1 column 1 (char 0)"
   /\ error_messages chunks_empty_error = [VStr ""]
   /\ _stream_email_reducer_static sample_loads None chunks_empty_error
      = Returns [("email_subject", VStr "Email generation failed");
                 ("email_body",
                   VStr "Failed to parse email: Expecting value: line 1 column 1 (char 0)");
                 ("trace_id", VNone)]
   /\ VStr "Failed to parse email: Expecting value: line 1 column 1 (char 0)"
      <> VStr "")
  /\ (error_messages chunks_two_errors = [VStr "first"; VStr "second"]
      /\ _stream_email_reducer_static sample_loads None chunks_two_errors
         = Returns [("email_subject", VStr "Email generation failed");
                    ("email_body", VStr "second");
                    ("trace_id", VNone)]
      /\ VStr "second" <> VStr "first").
Proof. repeat split; discriminate. Qed.

(** C2, amended: when the token text, cleaned, does not parse, the reducer
    returns a result with the fixed failure subject; its body is the
    message of the last error chunk when that message is set, and the
    parse-failure text with the decoder's message otherwise; its
    correlation id is the last done chunk's when set, else the active
    trace's. *)
Theorem reducer_parse_failure (json_loads : string -> loads_result)
    (active : option span) (chunks : list dict) (text msg : string) :
  token_text chunks = Some text ->
  json_loads (clean_inline text) = DecodeError msg ->
  exists result,
    _stream_email_reducer_static json_loads active chunks = Returns result
    /\ dict_get result "email_subject" = Some (VStr "Email generation failed")
    /\ dict_get result "email_body"
       = Some (if truthy (last_error chunks) then last_error chunks
               else VStr ("Failed to parse email: " ++ msg))
    /\ dict_get result "trace_id"
       = Some (if truthy (last_done_id chunks) then last_done_id chunks
               else _get_current_trace_id active).
Proof.
  intros H P. rewrite (reducer_on_failure _ _ _ _ _ H P).
  eexists; repeat split; reflexivity.
Qed.

Lemma reducer_parse_failure_witness :
  (token_text chunks_error = Some "Sorry"
   /\ sample_loads (clean_inline "Sorry")
      = DecodeError "Expecting value: line 1 column 1 (char 0)")
  /\ exists result,
      _stream_email_reducer_static sample_loads (Some (mk_span "tr-9"))
                                   chunks_error
      = Returns result
      /\ dict_get result "email_subject" = Some (VStr "Email generation failed")
      /\ dict_get result "email_body" = Some (VStr "Failed to parse email JSON")
      /\ dict_get result "trace_id" = Some (VStr "tr-9").
Proof.
  split; [split; reflexivity|].
  apply (reducer_parse_failure sample_loads (Some (mk_span "tr-9"))
           chunks_error "Sorry" "Expecting value: line 1 column 1 (char 0)");
    reflexivity.
Defined.

(** C3, as stated, fails: every done chunk overwrites the id, so with two
    done chunks the result holds the id of the last one, not of the
    first. *)
Lemma reducer_reports_last_not_first :
  first_done_id chunks_two_done = VStr "tr-1"
  /\ _stream_email_reducer_static sample_loads None chunks_two_done
     = Returns [("email_subject", VStr "Hi"); ("email_body", VStr "Bye");
                ("trace_id", VStr "tr-2")]
  /\ dict_get [("email_subject", VStr "Hi"); ("email_body", VStr "Bye");
               ("trace_id", VStr "tr-2")] "trace_id"
     <> Some (first_done_id chunks_two_done).
Proof. repeat split. discriminate. Qed.

(** C3, amended: when the token text parses as an object or fails to
    parse, and the last done chunk carries an id that is set, the reducer
    returns a result whose correlation id is that id; in particular, for a
    sequence that ends in a done chunk with a set id [X], the result's
    correlation id is [X]. *)
Theorem reducer_reports_last_done_id (json_loads : string -> loads_result)
    (active : option span) :
  (forall (chunks : list dict) (text : string),
      token_text chunks = Some text ->
      object_or_failure (json_loads (clean_inline text)) = true ->
      truthy (last_done_id chunks) = true ->
      exists result,
        _stream_email_reducer_static json_loads active chunks = Returns result
        /\ dict_get result "trace_id" = Some (last_done_id chunks))
  /\ (forall (chunks : list dict) (final : dict) (X : value) (text : string),
         has_type "done" final = true ->
         get final "trace_id" = X ->
         token_text (chunks ++ [final]) = Some text ->
         object_or_failure (json_loads (clean_inline text)) = true ->
         truthy X = true ->
         exists result,
           _stream_email_reducer_static json_loads active (chunks ++ [final])
           = Returns result
           /\ dict_get result "trace_id" = Some X).
Proof.
  split.
  - intros chunks text. apply reducer_trace_id.
  - intros chunks final X text D G H O T.
    rewrite <- G, <- (last_done_id_final chunks final D) in *.
    now apply (reducer_trace_id _ _ _ text).
Qed.

Lemma reducer_reports_last_done_id_witness :
  (truthy (last_done_id chunks_two_done) = true
   /\ exists result,
       _stream_email_reducer_static sample_loads None chunks_two_done
       = Returns result
       /\ dict_get result "trace_id" = Some (VStr "tr-2"))
  /\ (has_type "done" (done_chunk (VStr "tr-7")) = true
      /\ exists result,
          _stream_email_reducer_static sample_loads None
            ([token_chunk "Sorry"] ++ [done_chunk (VStr "tr-7")])
          = Returns result
          /\ dict_get result "trace_id" = Some (VStr "tr-7")).
Proof.
  split; (split; [reflexivity|]).
  - apply (proj1 (reducer_reports_last_done_id sample_loads None)
             chunks_two_done sample_email_text); reflexivity.
  - apply (proj2 (reducer_reports_last_done_id sample_loads None)
             [token_chunk "Sorry"] (done_chunk (VStr "tr-7")) (VStr "tr-7")
             "Sorry"); reflexivity.
Defined.

(** ** The synchronous facade *)

Lemma drain_appends {A : Type} (l acc : list A) :
  fold_left (fun acc x => (acc ++ [x])%list) l acc = (acc ++ l)%list.
Proof.
  revert acc. induction l as [|x l IH]; intros acc; simpl.
  - now rewrite app_nil_r.
  - now rewrite IH, <- app_assoc.
Qed.

Section FacadeProperties.

Variable json_loads : string -> loads_result.
Variable active : option span.
Variable producer : string -> option string -> run.

Local Abbreviation facade :=
  (generate_email_with_retrieval json_loads active producer).

(** A run that ends normally: the facade is the contract on its chunks,
    with or without a running event loop. *)
Lemma facade_of_finished_run (loop_running : bool) (name : string)
    (instruction : option string) (chunks : list dict) :
  producer name instruction = (chunks, None) ->
  facade loop_running name instruction
  = facade_contract json_loads active chunks.
Proof.
  intros H. unfold generate_email_with_retrieval, collect_chunks.
  rewrite H, drain_appends. simpl.
  now destruct loop_running.
Qed.

(** A run that ends in an exception: the facade raises, the exception of
    the run or, under a running loop, the one of the refused
    [asyncio.run]. *)
Lemma facade_of_failed_run (loop_running : bool) (name : string)
    (instruction : option string) (chunks : list dict) (e : exn) :
  producer name instruction = (chunks, Some e) ->
  facade loop_running name instruction
  = Raises (if loop_running && subclass (exn_class_of e) RuntimeError
            then mk_exn RuntimeError
                   "asyncio.run() cannot be called from a running event loop"
            else e).
Proof.
  intros H. unfold generate_email_with_retrieval, collect_chunks.
  rewrite H, drain_appends. simpl.
  destruct loop_running; simpl; [|reflexivity].
  unfold caught_by. simpl. rewrite orb_false_r.
  now destruct (subclass (exn_class_of e) RuntimeError).
Qed.

End FacadeProperties.

(** The reducer's result always has a subject and a body, so the empty
    defaults of the facade are never used. *)
Lemma reducer_result_has_fields (json_loads : string -> loads_result)
    (active : option span) (chunks : list dict) (result : dict) :
  _stream_email_reducer_static json_loads active chunks = Returns result ->
  exists subject body,
    dict_get result "email_subject" = Some subject
    /\ dict_get result "email_body" = Some body.
Proof.
  unfold _stream_email_reducer_static.
  destruct (collect _ chunks) as [st|e]; simpl; [|discriminate].
  unfold reduce_parsed, loads.
  destruct (json_loads _) as [v|msg|why msg]; simpl.
  - destruct v; simpl; try discriminate.
    destruct (truthy (trace_id st)); intros [= <-]; simpl; eauto.
  - unfold reduce_failed.
    destruct (truthy (trace_id st)), (truthy (error_message st));
      intros [= <-]; simpl; eauto.
  - destruct why; discriminate.
Qed.

Example facade_sample :
  generate_email_with_retrieval sample_loads None sample_producer true
    "EcomSolutions LLC" None
  = Returns [("subject_line", VStr "Hi"); ("body", VStr "Bye");
             ("trace_id", VStr "tr-1")].
Proof. reflexivity. Qed.

Example facade_unknown_customer :
  generate_email_with_retrieval sample_loads None sample_producer false
    "Nobody" None
  = Raises (mk_exn ValueError "Customer 'Nobody' not found in data file").
Proof. reflexivity. Qed.

(** C5: for every customer name and instruction, when the producer's run
    has been drained to its end, the facade returns what the reducer
    returns on the drained chunks with the keys renamed ([subject_line]
    from [email_subject], [body] from [email_body], each with the empty
    string as default, and [trace_id]); a reducer that raises makes the
    facade raise the same. *)
Theorem facade_is_reducer_renamed (json_loads : string -> loads_result)
    (active : option span) (producer : string -> option string -> run)
    (loop_running : bool) (name : string) (instruction : option string)
    (chunks : list dict) :
  producer name instruction = (chunks, None) ->
  generate_email_with_retrieval json_loads active producer loop_running
                                name instruction
  = match _stream_email_reducer_static json_loads active chunks with
    | Returns reduced =>
        Returns [("subject_line", get_or reduced "email_subject" (VStr ""));
                 ("body", get_or reduced "email_body" (VStr ""));
                 ("trace_id", get reduced "trace_id")]
    | Raises e => Raises e
    end.
Proof.
  intros H. rewrite (facade_of_finished_run _ _ _ _ _ _ _ H).
  unfold facade_contract, renamed.
  now destruct (_stream_email_reducer_static json_loads active chunks).
Qed.

Lemma facade_is_reducer_renamed_witness :
  sample_producer "EcomSolutions LLC" None = (chunks_fenced, None)
  /\ generate_email_with_retrieval sample_loads None sample_producer true
       "EcomSolutions LLC" None
     = match _stream_email_reducer_static sample_loads None chunks_fenced with
       | Returns reduced =>
           Returns [("subject_line", get_or reduced "email_subject" (VStr ""));
                    ("body", get_or reduced "email_body" (VStr ""));
                    ("trace_id", get reduced "trace_id")]
       | Raises e => Raises e
       end.
Proof.
  split; [reflexivity|].
  apply (facade_is_reducer_renamed sample_loads None sample_producer true
           "EcomSolutions LLC" None chunks_fenced).
  reflexivity.
Defined.

(** ** Occurrences *)

Lemma prefix_app_l (sub a b : string) :
  prefix sub a = true -> prefix sub (a ++ b) = true.
Proof.
  revert a. induction sub as [|x sub IH]; intros a H;
    [now destruct (a ++ b)|].
  destruct a as [|y a]; [discriminate|]. simpl in *.
  destruct (ascii_dec x y); [now apply IH | discriminate].
Qed.

Lemma contains_app_l (sub a b : string) :
  contains sub a = true -> contains sub (a ++ b) = true.
Proof.
  induction a as [|y a IH]; intros H.
  - simpl in H. rewrite orb_false_r in H.
    destruct sub; [|discriminate]. now destruct b.
  - cbn [contains] in H. change (String y a ++ b) with (String y (a ++ b)).
    cbn [contains]. apply orb_true_iff in H. apply orb_true_iff.
    destruct H as [H|H]; [left | right; now apply IH].
    now apply (prefix_app_l _ (String y a)).
Qed.

Lemma contains_app_r (sub a b : string) :
  contains sub b = true -> contains sub (a ++ b) = true.
Proof.
  intros H. induction a as [|y a IH]; [exact H|].
  change (String y a ++ b) with (String y (a ++ b)). cbn [contains].
  rewrite IH. apply orb_true_r.
Qed.

(** ** The message composer *)

Example create_messages_sample :
  _create_messages ascii_title sample_generator sample_documents
                   (Some "Keep it brief")
  = [[("role", VStr "system"); ("content", VStr "Write a follow-up email.")];
     [("role", VStr "user");
      ("content",
        VStr ("Account:" ++ nl ++ "# Account" ++ nl ++ nl
              ++ "Support Tickets:" ++ nl ++ "# Support Tickets" ++ nl ++ nl
              ++ "User Instructions:" ++ nl ++ "Keep it brief"))]].
Proof. reflexivity. Qed.

Lemma prefix_refl (s : string) : prefix s s = true.
Proof.
  induction s as [|c s IH]; [reflexivity|]. simpl.
  destruct (ascii_dec c c); [exact IH | contradiction].
Qed.

Lemma contains_refl (s : string) : contains s s = true.
Proof.
  destruct s as [|c s]; [reflexivity|]. cbn [contains].
  now rewrite prefix_refl.
Qed.

(** The data the composer formats are the sections of the contract. *)
Lemma formatted_customer_data_sections (title : string -> string)
    (docs : list Document) :
  formatted_customer_data title docs = sections_text title docs.
Proof.
  unfold formatted_customer_data.
  induction docs as [|doc rest IH]; [reflexivity|].
  destruct rest as [|next rest]; [reflexivity|].
  change (sections_text title (doc :: next :: rest))
    with (section_text title doc ++ nl ++ nl
          ++ sections_text title (next :: rest)).
  rewrite <- IH. reflexivity.
Qed.

(** The text of every document stands in the sections. *)
Lemma sections_contain (title : string -> string) (docs : list Document)
    (doc : Document) :
  In doc docs ->
  contains (page_content doc) (sections_text title docs) = true.
Proof.
  induction docs as [|d rest IH]; [intros []|].
  assert (Own : contains (page_content d) (section_text title d) = true).
  { unfold section_text. do 3 apply contains_app_r. apply contains_refl. }
  intros [->|I].
  - destruct rest as [|next rest]; [exact Own|].
    change (sections_text title (doc :: next :: rest))
      with (section_text title doc ++ nl ++ nl
            ++ sections_text title (next :: rest)).
    now apply contains_app_l.
  - destruct rest as [|next rest]; [destruct I|].
    change (sections_text title (d :: next :: rest))
      with (section_text title d ++ nl ++ nl
            ++ sections_text title (next :: rest)).
    do 3 apply contains_app_r. now apply IH.
Qed.

(** C6: for every list of customer documents the composer returns two
    messages, the system message with the prompt template and then the
    user message with the formatted customer data, which are the sections
    of the documents in order, each under its heading; without an
    instruction ([None] or the empty string) the user content is exactly
    these data, and a non-empty instruction is appended to them under the
    heading [User Instructions:]; in every case the text of every
    document stands in the user content. *)
Theorem create_messages_shape (title : string -> string)
    (self : EmailGenerator) (customer_documents : list Document) :
  let data := sections_text title customer_documents in
  let system :=
    [("role", VStr "system");
     ("content", VStr match prompt self with
                      | Some p => template p
                      | None => ""
                      end)] in
  _create_messages title self customer_documents None
  = [system; [("role", VStr "user"); ("content", VStr data)]]
  /\ _create_messages title self customer_documents (Some "")
     = [system; [("role", VStr "user"); ("content", VStr data)]]
  /\ (forall instruction : string,
         instruction <> "" ->
         _create_messages title self customer_documents (Some instruction)
         = [system;
            [("role", VStr "user");
             ("content",
               VStr (data ++ nl ++ nl ++ "User Instructions:" ++ nl
                     ++ instruction))]])
  /\ (forall (doc : Document) (user_input : option string),
         In doc customer_documents ->
         exists content : string,
           user_content
             (_create_messages title self customer_documents user_input)
           = VStr content
           /\ contains (page_content doc) content = true).
Proof.
  cbv zeta. unfold _create_messages.
  rewrite formatted_customer_data_sections.
  split; [reflexivity|]. split; [reflexivity|]. split.
  - intros instruction H. simpl.
    apply String.eqb_neq in H. now rewrite H.
  - intros doc user_input I. unfold user_content. cbn [nth get get_or dict_get].
    eexists. split; [reflexivity|].
    pose proof (sections_contain title customer_documents doc I) as C.
    destruct (truthy (of_opt user_input)); [now apply contains_app_l | exact C].
Qed.

Lemma create_messages_shape_witness :
  "Keep it brief" <> ""
  /\ _create_messages ascii_title sample_generator sample_documents
       (Some "Keep it brief")
     = [[("role", VStr "system"); ("content", VStr "Write a follow-up email.")];
        [("role", VStr "user");
         ("content",
           VStr ("Account:" ++ nl ++ "# Account" ++ nl ++ nl
                 ++ "Support Tickets:" ++ nl ++ "# Support Tickets"
                 ++ nl ++ nl ++ "User Instructions:" ++ nl
                 ++ "Keep it brief"))]]
  /\ exists content : string,
      user_content (_create_messages ascii_title sample_generator
                      sample_documents None)
      = VStr content
      /\ contains "# Support Tickets" content = true.
Proof.
  pose proof (create_messages_shape ascii_title sample_generator
                sample_documents) as [_ [_ [Hi Hc]]].
  split; [discriminate|]. split.
  - apply (Hi "Keep it brief"). discriminate.
  - apply (Hc (mk_document "Acme_support_tickets" "# Support Tickets"
                 (mk_metadata "support_tickets" "Acme"))
              None).
    right. left. reflexivity.
Defined.

(** ** Customer lookup *)

Section RetrievalProperties.

Variable title : string -> string.
Variable py_str : value -> string.
Variable json_loads : string -> loads_result.
Variable data_path : string.

Local Abbreviation retrieve :=
  (_retrieve_customer_data title py_str json_loads data_path).

Lemma retrieve_missing (name : string) :
  retrieve Missing name
  = Raises (mk_exn FileNotFoundError
              ("Customer data file not found at " ++ data_path)).
Proof. reflexivity. Qed.

Lemma loads_lines_class (lines : list string) (e : exn) :
  map_m (loads json_loads) lines = Raises e ->
  exn_class_of e = JSONDecodeError \/ exn_class_of e = ValueError
  \/ exn_class_of e = RecursionError.
Proof.
  induction lines as [|l lines IH]; simpl; [discriminate|].
  unfold loads at 1. destruct (json_loads l) as [v|msg|why msg]; simpl.
  - destruct (map_m (loads json_loads) lines); simpl; [discriminate|].
    intros [= <-]. now apply IH.
  - intros [= <-]. now left.
  - intros [= <-]. right. destruct why; [now left | now right].
Qed.

Lemma load_customers_lines (lines : list string) :
  load_customers json_loads data_path (Lines lines)
  = map_m (loads json_loads) lines.
Proof.
  unfold load_customers, try_except. simpl.
  destruct (map_m (loads json_loads) lines) as [cs|e] eqn:M; [reflexivity|].
  unfold caught_by. simpl.
  destruct (loads_lines_class _ _ M) as [C|[C|C]]; now rewrite C.
Qed.

Lemma account_name_class (customer : value) (e : exn) :
  account_name customer = Raises e ->
  exn_class_of e = KeyError \/ exn_class_of e = TypeError.
Proof.
  unfold account_name.
  assert (S : forall v k e', subscript v k = Raises e' ->
              exn_class_of e' = KeyError \/ exn_class_of e' = TypeError).
  { intros v k e'. destruct v; simpl; try (intros [= <-]; now right).
    destruct (dict_get items k); [discriminate|]. intros [= <-]. now left. }
  destruct (subscript customer "account") as [a|e0] eqn:A; simpl.
  - apply S.
  - intros [= <-]. now apply (S _ _ _ A).
Qed.

Lemma find_customer_class (customers : list value) (name : string) (e : exn) :
  find_customer customers name = Raises e ->
  exn_class_of e = KeyError \/ exn_class_of e = TypeError.
Proof.
  induction customers as [|c rest IH]; simpl; [discriminate|].
  destruct (account_name c) as [n|e0] eqn:A; simpl.
  - destruct (eq_str n name); [discriminate | exact IH].
  - intros [= <-]. now apply (account_name_class c).
Qed.

(** No record of the file carries the name: the search ends with
    [None]. *)
Lemma find_customer_absent (customers : list value) (name : string) :
  Forall (named_otherwise name) customers ->
  find_customer customers name = Returns VNone.
Proof.
  induction 1 as [|c cs [n [Hc Hn]] _ IH]; simpl; [reflexivity|].
  now rewrite Hc; simpl; rewrite Hn.
Qed.

(** On a file that exists, the lookup raises neither of the two errors
    for another reason than a name that is not found. *)
Lemma retrieve_lines_classes (lines : list string) (name : string) (e : exn) :
  retrieve (Lines lines) name = Raises e ->
  exn_class_of e <> FileNotFoundError.
Proof.
  unfold _retrieve_customer_data. rewrite load_customers_lines.
  destruct (map_m (loads json_loads) lines) as [cs|e0] eqn:M; simpl.
  - destruct (find_customer cs name) as [c|e1] eqn:F; simpl.
    + destruct (truthy c); simpl.
      * destruct c; simpl; try discriminate; intros [= <-]; discriminate.
      * intros [= <-]. discriminate.
    + intros [= <-]. destruct (find_customer_class _ _ _ F) as [K|K];
        rewrite K; discriminate.
  - intros [= <-].
    destruct (loads_lines_class _ _ M) as [C|[C|C]]; rewrite C; discriminate.
Qed.

End RetrievalProperties.

Example retrieve_unknown_name :
  _retrieve_customer_data ascii_title sample_str sample_loads
    "data/input_data.jsonl" (Lines [sample_line]) "Nobody"
  = Raises (mk_exn ValueError "Customer 'Nobody' not found in data file").
Proof. reflexivity. Qed.

Example retrieve_known_name :
  _retrieve_customer_data ascii_title sample_str sample_loads
    "data/input_data.jsonl" (Lines [sample_line]) "EcomSolutions LLC"
  = Returns [mk_document "EcomSolutions LLC_account"
               ("# Account" ++ nl ++ nl ++ "**Name:** EcomSolutions LLC")
               (mk_metadata "account" "EcomSolutions LLC")].
Proof. reflexivity. Qed.

(** C7: for every name, a missing data file makes the lookup raise
    [FileNotFoundError], and a file that is read, whose records all have
    an account name, none of them equal to the given one, makes it raise
    [ValueError]; the missing file never gives a [ValueError] and the file
    that exists never gives a [FileNotFoundError]. *)
Theorem retrieval_error_kinds (title : string -> string)
    (py_str : value -> string) (json_loads : string -> loads_result)
    (data_path name : string) :
  (exists e,
      _retrieve_customer_data title py_str json_loads data_path Missing name
      = Raises e
      /\ exn_class_of e = FileNotFoundError)
  /\ (forall (lines : list string) (customers : list value),
         map_m (loads json_loads) lines = Returns customers ->
         Forall (named_otherwise name) customers ->
         exists e,
           _retrieve_customer_data title py_str json_loads data_path
                                   (Lines lines) name
           = Raises e
           /\ exn_class_of e = ValueError)
  /\ (forall e,
         _retrieve_customer_data title py_str json_loads data_path Missing name
         = Raises e ->
         subclass (exn_class_of e) ValueError = false)
  /\ (forall (lines : list string) (e : exn),
         _retrieve_customer_data title py_str json_loads data_path
                                 (Lines lines) name
         = Raises e ->
         subclass (exn_class_of e) FileNotFoundError = false).
Proof.
  repeat split.
  - eexists; split; [apply retrieve_missing | reflexivity].
  - intros lines customers M N.
    unfold _retrieve_customer_data.
    rewrite load_customers_lines, M. simpl.
    rewrite (find_customer_absent _ _ N). simpl.
    eexists; split; reflexivity.
  - rewrite retrieve_missing. now intros e [= <-].
  - intros lines e H. apply retrieve_lines_classes in H.
    destruct (exn_class_of e); simpl; congruence.
Qed.

Lemma retrieval_error_kinds_witness :
  (map_m (loads sample_loads) [sample_line]
   = Returns [sample_customer "EcomSolutions LLC"]
   /\ exists e,
       _retrieve_customer_data ascii_title sample_str sample_loads
         "data/input_data.jsonl" (Lines [sample_line]) "Nobody"
       = Raises e
       /\ exn_class_of e = ValueError)
  /\ subclass FileNotFoundError ValueError = false
  /\ subclass ValueError FileNotFoundError = false.
Proof.
  pose proof (retrieval_error_kinds ascii_title sample_str sample_loads
                "data/input_data.jsonl" "Nobody") as (_ & Habsent & Hm & Hl).
  split; [split; [reflexivity|] | split].
  - apply (Habsent [sample_line] [sample_customer "EcomSolutions LLC"]).
    + reflexivity.
    + repeat constructor. exists (VStr "EcomSolutions LLC").
      split; reflexivity.
  - apply (Hm (mk_exn FileNotFoundError
                 "Customer data file not found at data/input_data.jsonl")).
    reflexivity.
  - apply (Hl [sample_line]
              (mk_exn ValueError "Customer 'Nobody' not found in data file")).
    reflexivity.
Defined.

(** ** Feedback *)

Section FeedbackProperties.

Variable AssessmentSource : string -> string -> outcome assessment_source.
Variable mlflow_log_feedback : feedback_call -> outcome unit.

Local Abbreviation feedback := (log_feedback AssessmentSource mlflow_log_feedback).

(** The result is one of the two dictionaries, whatever the client
    does. *)
Lemma feedback_cases (trace_id : string) (value : bool)
    (comment user_name : option string) :
  feedback trace_id value comment user_name = Returns succeeded
  \/ exists e, feedback trace_id value comment user_name = Returns (failed e).
Proof.
  unfold log_feedback, try_except_all.
  destruct (AssessmentSource _ _) as [src|e]; simpl; [|right; now exists e].
  destruct (mlflow_log_feedback _) as [[]|e]; simpl;
    [now left | right; now exists e].
Qed.

End FeedbackProperties.

(** C8: for every trace id, rating, comment and rater name, and whatever
    the feedback client does, [log_feedback] returns a dictionary with a
    [success] flag and a [message]: the success result when the call goes
    through, and the failure result with the exception's text when the
    source constructor or the call raises. *)
Theorem log_feedback_never_raises
    (AssessmentSource : string -> string -> outcome assessment_source)
    (mlflow_log_feedback : feedback_call -> outcome unit)
    (trace_id : string) (value : bool) (comment user_name : option string) :
  let result :=
    log_feedback AssessmentSource mlflow_log_feedback trace_id value comment
                 user_name in
  let source_id :=
    match user_name with
    | Some u => if u =? "" then "user" else u
    | None => "user"
    end in
  let rationale :=
    match comment with
    | Some c => if c =? "" then None else Some c
    | None => None
    end in
  (exists (success : bool) (message : string),
      result = Returns [("success", VBool success); ("message", VStr message)])
  /\ (forall e,
         AssessmentSource "HUMAN" source_id = Raises e ->
         result = Returns (failed e))
  /\ (forall source e,
         AssessmentSource "HUMAN" source_id = Returns source ->
         mlflow_log_feedback
           (mk_feedback_call trace_id "user_feedback" value rationale source)
         = Raises e ->
         result = Returns (failed e))
  /\ (forall source,
         AssessmentSource "HUMAN" source_id = Returns source ->
         mlflow_log_feedback
           (mk_feedback_call trace_id "user_feedback" value rationale source)
         = Returns tt ->
         result = Returns succeeded).
Proof.
  cbv zeta.
  assert (Hid : (if truthy (of_opt user_name)
                 then match user_name with Some u => u | None => "user" end
                 else "user")
                = match user_name with
                  | Some u => if u =? "" then "user" else u
                  | None => "user"
                  end).
  { destruct user_name as [u|]; simpl; [|reflexivity]. now destruct (u =? ""). }
  assert (Hra : (if truthy (of_opt comment) then comment else None)
                = match comment with
                  | Some c => if c =? "" then None else Some c
                  | None => None
                  end).
  { destruct comment as [c|]; simpl; [|reflexivity]. now destruct (c =? ""). }
  repeat split.
  - destruct (feedback_cases AssessmentSource mlflow_log_feedback trace_id
                value comment user_name) as [H|[e H]]; rewrite H;
      eexists; eexists; reflexivity.
  - intros e H. unfold log_feedback. now rewrite Hid, H.
  - intros source e Hs H. unfold log_feedback. rewrite Hid, Hs. simpl.
    now rewrite Hra, H.
  - intros source Hs H. unfold log_feedback. rewrite Hid, Hs. simpl.
    now rewrite Hra, H.
Qed.

Lemma log_feedback_never_raises_witness :
  (sample_log_feedback
     (mk_feedback_call "tr-0" "user_feedback" false (Some "Too long")
                       (mk_source "HUMAN" "user"))
   = Raises (mk_exn (OtherError "MlflowException")
               "Trace with ID tr-0 not found")
   /\ log_feedback sample_source sample_log_feedback "tr-0" false
        (Some "Too long") (Some "")
      = Returns [("success", VBool false);
                 ("message",
                   VStr "Error submitting feedback: Trace with ID tr-0 not found")])
  /\ log_feedback sample_source sample_log_feedback "tr-1" true None
       (Some "sales_rep_1")
     = Returns [("success", VBool true);
                ("message", VStr "Feedback submitted successfully")].
Proof.
  split; [split; [reflexivity|] |].
  - apply (proj1 (proj2 (proj2 (log_feedback_never_raises sample_source
             sample_log_feedback "tr-0" false (Some "Too long") (Some ""))))
             (mk_source "HUMAN" "user")
             (mk_exn (OtherError "MlflowException")
                     "Trace with ID tr-0 not found")); reflexivity.
  - apply (proj2 (proj2 (proj2 (log_feedback_never_raises sample_source
             sample_log_feedback "tr-1" true None (Some "sales_rep_1"))))
             (mk_source "HUMAN" "sales_rep_1")); reflexivity.
Defined.

(** ** The streaming endpoint *)

Lemma event_of_chunk_typed (chunk d : dict) :
  event_of_chunk chunk = Returns (Some d) -> frame_type_ok d = true.
Proof.
  unfold event_of_chunk, subscript.
  destruct (dict_get chunk "type") as [ty|]; simpl; [|discriminate].
  destruct (eq_str ty "token");
    [|destruct (eq_str ty "done");
      [|destruct (eq_str ty "error"); [|discriminate]]].
  - destruct (dict_get chunk "content"); simpl; [|discriminate].
    now intros [= <-].
  - destruct (dict_get chunk "trace_id"); simpl; [|discriminate].
    now intros [= <-].
  - destruct (dict_get chunk "error"); simpl; [|discriminate].
    now intros [= <-].
Qed.

Lemma stream_events_typed (chunks : list dict) (ending : option exn) :
  Forall (fun d => frame_type_ok d = true) (fst (stream_events chunks ending)).
Proof.
  induction chunks as [|chunk rest IH]; simpl; [constructor|].
  destruct (event_of_chunk chunk) as [ev|e] eqn:E; simpl; [|constructor].
  destruct (stream_events rest ending) as [evs raised]; simpl in *.
  destruct ev as [d|]; [|exact IH].
  constructor; [now apply (event_of_chunk_typed chunk) | exact IH].
Qed.

(** Once the producer's run ends in an exception, the [try] block is left
    by an exception: that one, or an earlier one of the loop body. *)
Lemma stream_events_raised (chunks : list dict) (e : exn) :
  exists e', snd (stream_events chunks (Some e)) = Some e'
             /\ (Forall handled chunks -> e' = e).
Proof.
  induction chunks as [|chunk rest [e' [IH1 IH2]]]; simpl.
  - now exists e.
  - destruct (event_of_chunk chunk) as [ev|e0] eqn:E; simpl.
    + destruct (stream_events rest (Some e)) as [evs raised]; simpl in *.
      exists e'. split; [exact IH1|].
      intros H. inversion H; subst. now apply IH2.
    + exists e0. split; [reflexivity|].
      intros H. inversion H as [|c l [ev Hev] Hl]; subst. congruence.
Qed.

Example stream_sample :
  generate sample_dumps sample_producer "EcomSolutions LLC" None
  = ["data: {" ++ dq ++ "type" ++ dq ++ ": " ++ dq ++ "token" ++ dq ++ ", "
     ++ dq ++ "content" ++ dq ++ ": " ++ dq ++ "```json\n" ++ dq ++ "}"
     ++ nl ++ nl;
     sse sample_dumps (token_chunk sample_email_text);
     sse sample_dumps (token_chunk (nl ++ "```"));
     sse sample_dumps (done_chunk (VStr "tr-1"));
     sse sample_dumps closing_event].
Proof. reflexivity. Qed.

Example stream_unknown_customer :
  generate sample_dumps sample_producer "Nobody" None
  = ["data: {" ++ dq ++ "type" ++ dq ++ ": " ++ dq ++ "error" ++ dq ++ ", "
     ++ dq ++ "error" ++ dq ++ ": " ++ dq
     ++ "Customer 'Nobody' not found in data file" ++ dq ++ "}" ++ nl ++ nl;
     "data: {" ++ dq ++ "type" ++ dq ++ ": " ++ dq ++ "done" ++ dq ++ "}"
     ++ nl ++ nl].
Proof. reflexivity. Qed.

(** C9: for every request, every frame the endpoint's generator sends is
    the encoding of a dictionary whose type is token, done or error; the
    last frame is the closing done frame; and when the producer's run ends
    in an exception, the frame before the closing one is an error frame
    (with the text of that exception when every chunk was handled). *)
Theorem stream_frames_typed_and_closed (json_dumps : dict -> string)
    (producer : string -> option string -> run) (name : string)
    (instruction : option string) :
  let frames := generate json_dumps producer name instruction in
  Forall (fun frame =>
            exists d, frame = sse json_dumps d /\ frame_type_ok d = true)
         frames
  /\ (exists earlier,
         frames = (earlier ++ [sse json_dumps closing_event])%list)
  /\ (forall (chunks : list dict) (e : exn),
         producer name instruction = (chunks, Some e) ->
         exists earlier e',
           frames = (earlier ++ [sse json_dumps (failure_event e');
                                 sse json_dumps closing_event])%list
           /\ (Forall handled chunks -> e' = e)).
Proof.
  cbv zeta. unfold generate, generate_events.
  destruct (producer name instruction) as [chunks ending].
  pose proof (stream_events_typed chunks ending) as T.
  destruct (stream_events chunks ending) as [events raised] eqn:E.
  simpl in T. repeat split.
  - rewrite Forall_map. rewrite Forall_app. split.
    + revert T. apply Forall_impl. intros d H. now exists d.
    + destruct raised as [e|]; repeat constructor;
        eexists; split; reflexivity.
  - rewrite !map_app. simpl.
    eexists. rewrite app_assoc. reflexivity.
  - intros chunks' e H. injection H as Hc He. subst chunks' ending.
    destruct (stream_events_raised chunks e) as [e' [R H]].
    rewrite E in R. simpl in R. subst raised.
    exists (map (sse json_dumps) events), e'. split; [|exact H].
    rewrite map_app. reflexivity.
Qed.

Lemma stream_frames_typed_and_closed_witness :
  sample_producer "Nobody" None
  = ([], Some (mk_exn ValueError "Customer 'Nobody' not found in data file"))
  /\ exists earlier e',
      generate sample_dumps sample_producer "Nobody" None
      = (earlier ++ [sse sample_dumps (failure_event e');
                     sse sample_dumps closing_event])%list
      /\ (Forall handled [] -> e'
          = mk_exn ValueError "Customer 'Nobody' not found in data file").
Proof.
  split; [reflexivity|].
  apply (proj2 (proj2 (stream_frames_typed_and_closed sample_dumps
                         sample_producer "Nobody" None)) []).
  reflexivity.
Defined.

(** ** The companies listing *)

(** The order of strings is transitive. *)
Lemma compare_not_gt_trans (a : string) :
  forall b c : string,
    String.compare a b <> Gt -> String.compare b c <> Gt ->
    String.compare a c <> Gt.
Proof.
  induction a as [|x a IH]; intros [|y b] [|z c]; simpl; try congruence.
  intros H1 H2.
  destruct (Ascii.compare x y) eqn:Exy; [| |congruence].
  - apply Ascii.compare_eq_iff in Exy. subst y.
    destruct (Ascii.compare x z); [now apply (IH b) | discriminate | congruence].
  - destruct (Ascii.compare y z) eqn:Eyz; [| |congruence].
    + apply Ascii.compare_eq_iff in Eyz. subst z. rewrite Exy. discriminate.
    + assert (L : Ascii.compare x z = Lt).
      { unfold Ascii.compare in *. rewrite N.compare_lt_iff in *. lia. }
      rewrite L. discriminate.
Qed.

Lemma str_le_trans (a b c : string) : str_le a b -> str_le b c -> str_le a c.
Proof.
  unfold str_le, String.leb. intros H1 H2.
  pose proof (compare_not_gt_trans a b c) as T.
  destruct (String.compare a b), (String.compare b c), (String.compare a c);
    try reflexivity; try discriminate; exfalso; apply T; congruence.
Qed.

Lemma ltb_le (a b : string) : String.ltb a b = true -> str_le a b.
Proof.
  unfold str_le, String.ltb, String.leb.
  now destruct (String.compare a b).
Qed.

Lemma not_ltb_le (a b : string) : String.ltb a b = false -> str_le b a.
Proof.
  unfold str_le, String.ltb, String.leb.
  rewrite (String.compare_antisym b a).
  now destruct (String.compare a b).
Qed.

Lemma insert_name_perm (x : string) (l : list string) :
  Permutation (x :: l) (insert_name x l).
Proof.
  induction l as [|y l IH]; simpl; [reflexivity|].
  destruct (String.ltb y x); [|reflexivity].
  rewrite perm_swap. now constructor.
Qed.

Lemma sort_names_perm (l : list string) : Permutation l (sort_names l).
Proof.
  induction l as [|x l IH]; simpl; [constructor|].
  rewrite <- insert_name_perm. now constructor.
Qed.

Lemma insert_name_sorted (x : string) (l : list string) :
  StronglySorted str_le l -> StronglySorted str_le (insert_name x l).
Proof.
  induction 1 as [|y l S IH F]; simpl.
  - repeat constructor.
  - destruct (String.ltb y x) eqn:L.
    + constructor; [exact IH|].
      apply (Permutation_Forall (insert_name_perm x l)).
      constructor; [now apply ltb_le | exact F].
    + apply not_ltb_le in L. constructor; [now constructor|].
      constructor; [exact L|].
      revert F. apply Forall_impl. intros z. now apply str_le_trans.
Qed.

Lemma sort_names_sorted (l : list string) : StronglySorted str_le (sort_names l).
Proof.
  induction l as [|x l IH]; simpl; [constructor|].
  now apply insert_name_sorted.
Qed.

(** A list of names has one ascending arrangement, so every sort returns
    the list the insertion sort returns. *)
Lemma sorted_arrangement_unique (l1 : list string) :
  forall l2 : list string,
    Permutation l1 l2 ->
    StronglySorted str_le l1 -> StronglySorted str_le l2 -> l1 = l2.
Proof.
  induction l1 as [|x l1 IH]; intros l2 P S1 S2.
  - apply Permutation_nil in P. now subst.
  - destruct l2 as [|y l2].
    + apply Permutation_sym, Permutation_nil in P. discriminate.
    + inversion S1 as [|? ? S1' F1]; inversion S2 as [|? ? S2' F2]; subst.
      assert (E : x = y).
      { assert (Ix : In x (y :: l2)) by (apply (Permutation_in _ P); now left).
        assert (Iy : In y (x :: l1))
          by (apply (Permutation_in _ (Permutation_sym P)); now left).
        destruct Ix as [->|Ix]; [reflexivity|].
        destruct Iy as [->|Iy]; [reflexivity|].
        rewrite Forall_forall in F1, F2.
        apply String.leb_antisym; [now apply F1 | now apply F2]. }
      subst y. f_equal. apply IH; trivial.
      now apply Permutation_cons_inv in P.
Qed.

Section CompaniesProperties.

Variable lt_other : value -> value -> outcome bool.

(** On names, the sort of the endpoint is the insertion sort of
    strings. *)
Lemma insert_by_key_names (x : string) (l : list string) :
  insert_by_key lt_other (VStr x) (company x) (map keyed l)
  = Returns (map keyed (insert_name x l)).
Proof.
  induction l as [|y l IH]; simpl; [reflexivity|].
  destruct (String.ltb y x); simpl; [|reflexivity].
  now rewrite IH.
Qed.

Lemma sort_keyed_names (l : list string) :
  sort_keyed lt_other (map keyed l) = Returns (map keyed (sort_names l)).
Proof.
  induction l as [|x l IH]; simpl; [reflexivity|].
  rewrite IH. simpl. apply insert_by_key_names.
Qed.

Lemma keys_of_companies (l : list string) :
  map_m (fun x => k <- name_key x ;; Returns (k, x)) (map company l)
  = Returns (map keyed l).
Proof.
  induction l as [|x l IH]; simpl; [reflexivity|].
  now rewrite IH.
Qed.

Lemma companies_of_names (data : list value) (names : list string) :
  Forall2 named data names ->
  map_m (fun customer => n <- account_name customer ;; Returns [("name", n)])
        data
  = Returns (map company names).
Proof.
  induction 1 as [|c n cs ns Hc _ IH]; simpl; [reflexivity|].
  unfold named in Hc. now rewrite Hc, IH.
Qed.

Lemma get_companies_names (data : list value) (names : list string) :
  Forall2 named data names ->
  get_companies lt_other data = Returns (map company (sort_names names)).
Proof.
  intros H. unfold get_companies, sorted_by_name.
  rewrite (companies_of_names _ _ H). simpl.
  rewrite keys_of_companies. simpl.
  rewrite sort_keyed_names. simpl.
  now rewrite map_map.
Qed.

End CompaniesProperties.

Example companies_sample :
  get_companies sample_lt_other sample_data
  = Returns [company "Acme"; company "EcomSolutions LLC"; company "Zeta Corp"].
Proof. reflexivity. Qed.

(** C10: for every loaded data set whose records have a string account
    name, the listing returns the objects [{name}] of exactly these names
    (a permutation of them), in ascending order of the names. *)
Theorem companies_sorted_by_name (lt_other : value -> value -> outcome bool)
    (data : list value) (names : list string) :
  Forall2 named data names ->
  exists sorted_names : list string,
    get_companies lt_other data = Returns (map company sorted_names)
    /\ Permutation names sorted_names
    /\ StronglySorted str_le sorted_names.
Proof.
  intros H. exists (sort_names names). split; [|split].
  - now apply get_companies_names.
  - apply sort_names_perm.
  - apply sort_names_sorted.
Qed.

Lemma companies_sorted_by_name_witness :
  Forall2 named sample_data ["Zeta Corp"; "EcomSolutions LLC"; "Acme"]
  /\ exists sorted_names : list string,
      get_companies sample_lt_other sample_data
      = Returns (map company sorted_names)
      /\ Permutation ["Zeta Corp"; "EcomSolutions LLC"; "Acme"] sorted_names
      /\ StronglySorted str_le sorted_names.
Proof.
  assert (H : Forall2 named sample_data
                ["Zeta Corp"; "EcomSolutions LLC"; "Acme"]).
  { repeat constructor. }
  split; [exact H|].
  apply (companies_sorted_by_name sample_lt_other sample_data
           ["Zeta Corp"; "EcomSolutions LLC"; "Acme"] H).
Defined.

(** * Further properties *)

(** ** Stripping and fences *)

Lemma rstrip_blank (b : string) : all_space b = true -> rstrip b = "".
Proof.
  induction b as [|c b IH]; simpl; [reflexivity|].
  intros H. apply andb_true_iff in H. destruct H as [Hc Hb].
  now rewrite (IH Hb), Hc.
Qed.

Lemma lstrip_blank_app (a s : string) :
  all_space a = true -> lstrip (a ++ s) = lstrip s.
Proof.
  induction a as [|c a IH]; simpl; [reflexivity|].
  intros H. apply andb_true_iff in H. destruct H as [Hc Ha].
  rewrite Hc. now apply IH.
Qed.

Lemma rstrip_app_blank (s b : string) :
  all_space b = true -> rstrip (s ++ b) = rstrip s.
Proof.
  intros H. induction s as [|c s IH]; simpl.
  - now apply rstrip_blank.
  - now rewrite IH.
Qed.

Lemma strip_padding (a s b : string) :
  all_space a = true -> all_space b = true ->
  strip (a ++ s ++ b) = strip s.
Proof.
  intros Ha Hb. unfold strip.
  rewrite lstrip_rstrip_comm, (lstrip_blank_app _ _ Ha).
  rewrite <- lstrip_rstrip_comm. now rewrite (rstrip_app_blank _ _ Hb).
Qed.

Lemma length_app (a b : string) :
  String.length (a ++ b) = (String.length a + String.length b)%nat.
Proof. induction a as [|c a IH]; simpl; [reflexivity | now rewrite IH]. Qed.

Lemma startswith_prefix (p s : string) : startswith (p ++ s) p = true.
Proof.
  unfold startswith. induction p as [|c p IH]; simpl.
  - now destruct s.
  - destruct (ascii_dec c c); [exact IH | contradiction].
Qed.

Lemma endswith_suffix (s q : string) : endswith (s ++ q) q = true.
Proof.
  induction s as [|c s IH]; simpl.
  - apply endswith_refl.
  - rewrite IH. apply orb_true_r.
Qed.

Lemma substring_whole (b q : string) :
  substring 0 (String.length b) (b ++ q) = b.
Proof.
  induction b as [|c b IH]; simpl.
  - now destruct q.
  - now rewrite IH.
Qed.

Lemma substring_middle (p b q : string) :
  substring (String.length p) (String.length b) (p ++ b ++ q) = b.
Proof.
  induction p as [|c p IH]; simpl; [apply substring_whole | exact IH].
Qed.

(** The slice that removes [p] in front and a non-empty [q] behind. *)
Lemma slice_middle (p b q : string) :
  q <> "" ->
  slice (p ++ b ++ q) (len p) (- len q) = b.
Proof.
  intros Hq. unfold slice, slice_bound, len.
  rewrite !length_app.
  assert (0 < String.length q)%nat by (destruct q; simpl; [congruence | lia]).
  destruct (Z.ltb_spec (Z.of_nat (String.length p)) 0); [lia|].
  destruct (Z.ltb_spec (- Z.of_nat (String.length q)) 0); [|lia].
  replace (Z.to_nat (Z.min (Z.of_nat (String.length p)) _))
    with (String.length p) by lia.
  match goal with
  | |- substring _ (Z.to_nat ?n) _ = _ =>
      replace (Z.to_nat n) with (String.length b) by lia
  end.
  apply substring_middle.
Qed.

Lemma rstrip_ends_with_ink (c : ascii) (s : string) :
  is_space c = false -> endswith s (String c "") = true -> rstrip s = s.
Proof.
  intros Hc. induction s as [|x r IH]; simpl; [discriminate|].
  intros H. apply orb_true_iff in H. destruct H as [H|H].
  - apply andb_true_iff in H. destruct H as [Hx Hr].
    apply Ascii.eqb_eq in Hx. apply String.eqb_eq in Hr. subst x r.
    simpl. now rewrite Hc.
  - rewrite (IH H). destruct r; [discriminate | reflexivity].
Qed.

Lemma substring_length_le (n m : nat) (s : string) :
  (String.length (substring n m s) <= m)%nat.
Proof.
  revert n m. induction s as [|c s IH]; intros [|n] [|m]; simpl; try lia.
  - specialize (IH 0%nat m). lia.
  - apply (IH n 0%nat).
  - apply (IH n (S m)).
Qed.

Lemma lstrip_length_le (s : string) :
  (String.length (lstrip s) <= String.length s)%nat.
Proof.
  induction s as [|c s IH]; simpl; [lia|].
  destruct (is_space c); simpl; lia.
Qed.

Lemma rstrip_length_le (s : string) :
  (String.length (rstrip s) <= String.length s)%nat.
Proof.
  induction s as [|c s IH]; simpl; [lia|].
  destruct (rstrip s); [destruct (is_space c)|]; simpl in *; lia.
Qed.

Lemma strip_length_le (s : string) :
  (String.length (strip s) <= String.length s)%nat.
Proof.
  unfold strip.
  pose proof (lstrip_length_le (rstrip s)). pose proof (rstrip_length_le s).
  lia.
Qed.

Lemma startswith_length (s p : string) :
  startswith s p = true -> (String.length p <= String.length s)%nat.
Proof.
  unfold startswith. revert s.
  induction p as [|a p IH]; intros [|b s]; simpl; try lia; try discriminate.
  destruct (ascii_dec a b); [|discriminate].
  intros H. apply IH in H. lia.
Qed.

(** Removing a fence shortens the text. *)
Lemma unfence_shortens (s : string) :
  fenced s = true -> (String.length (unfence s) < String.length s)%nat.
Proof.
  intros F. unfold fenced in F.
  apply andb_true_iff in F. destruct F as [Fs Fe].
  pose proof (startswith_length _ _ Fs) as L3. simpl in L3.
  unfold unfence. rewrite Fs, Fe. simpl andb.
  destruct (startswith s fence_json_open && endswith s fence_close) eqn:T.
  - apply andb_true_iff in T. destruct T as [Ts _].
    pose proof (startswith_length _ _ Ts) as L8. simpl in L8.
    unfold slice.
    match goal with
    | |- (String.length (substring ?n ?m s) < _)%nat =>
        pose proof (substring_length_le n m s) as Hm
    end.
    unfold slice_bound, len in *. simpl in *. lia.
  - unfold slice.
    match goal with
    | |- (String.length (substring ?n ?m s) < _)%nat =>
        pose proof (substring_length_le n m s) as Hm
    end.
    unfold slice_bound in *. simpl in *. lia.
Qed.

Lemma prefix_cons (a b : ascii) (p s : string) :
  prefix (String a p) (String b s) = if ascii_dec a b then prefix p s else false.
Proof. reflexivity. Qed.

(** A text wrapped in a fence has no whitespace around it. *)
Lemma fenced_is_stripped (s : string) : fenced s = true -> strip s = s.
Proof.
  unfold fenced. intros H. apply andb_true_iff in H. destruct H as [Hs He].
  unfold strip.
  rewrite (rstrip_ends_with_ink "`"%char s); [|reflexivity|].
  - destruct s as [|c s]; [reflexivity|].
    unfold startswith, fence in Hs. rewrite prefix_cons in Hs.
    destruct (ascii_dec "`"%char c); [subst c; reflexivity | discriminate].
  - apply (endswith_tail "`"%char), (endswith_tail "`"%char). exact He.
Qed.

(** X1. Wrapping a text in the tagged fence and cleaning it gives the text
    back, stripped; so does the bare fence, unless the wrapped text is
    itself read as a tagged fence. *)
Theorem clean_unwraps_fence (body : string) :
  _clean_json_response (fence_json_open ++ body ++ fence_close) = strip body
  /\ (startswith (fence ++ body ++ fence) fence_json_open
      && endswith (fence ++ body ++ fence) fence_close = false ->
      _clean_json_response (fence ++ body ++ fence) = strip body).
Proof.
  split.
  - unfold _clean_json_response, unfence.
    rewrite startswith_prefix.
    rewrite <- (append_assoc fence_json_open body fence_close) at 1.
    rewrite endswith_suffix. simpl andb. cbv iota.
    now rewrite slice_middle.
  - intros H. unfold _clean_json_response, unfence. rewrite H.
    rewrite startswith_prefix.
    rewrite <- (append_assoc fence body fence) at 1.
    rewrite endswith_suffix. simpl andb. cbv iota.
    change 3%Z with (len fence). change (-3)%Z with (- len fence)%Z.
    now rewrite slice_middle.
Qed.

Lemma clean_unwraps_fence_witness :
  startswith (fence ++ "{}" ++ fence) fence_json_open
  && endswith (fence ++ "{}" ++ fence) fence_close = false
  /\ _clean_json_response (fence ++ "{}" ++ fence) = strip "{}".
Proof.
  split; [reflexivity|].
  apply (proj2 (clean_unwraps_fence "{}")). reflexivity.
Defined.

Lemma clean_inline_same (s : string) :
  fenced s = true \/ fenced (strip s) = false ->
  clean_inline s = _clean_json_response s.
Proof.
  intros [H|H].
  - rewrite clean_inline_eq. now rewrite (fenced_is_stripped _ H).
  - unfold clean_inline. rewrite (unfence_unfenced _ H), strip_idem.
    unfold _clean_json_response.
    destruct (fenced s) eqn:F.
    + rewrite (fenced_is_stripped _ F) in H. congruence.
    + now rewrite (unfence_unfenced _ F).
Qed.

Lemma clean_of_unfenced (s : string) :
  fenced s = false -> _clean_json_response s = strip s.
Proof.
  intros F. unfold _clean_json_response. now rewrite (unfence_unfenced _ F).
Qed.

(** X2. The reducer's copy of the cleaning and the method give the same
    text, except on a fence with whitespace around it, which only the copy
    unwraps. *)
Theorem clean_inline_agrees_unless_padded (s : string) :
  (fenced s = true \/ fenced (strip s) = false ->
   clean_inline s = _clean_json_response s)
  /\ (fenced s = false -> fenced (strip s) = true ->
      _clean_json_response s = strip s
      /\ clean_inline s <> _clean_json_response s).
Proof.
  split; [apply clean_inline_same|].
  intros F P. pose proof (clean_of_unfenced _ F) as E.
  split; [exact E|].
  rewrite E. intros C.
  assert (L : (String.length (clean_inline s) < String.length (strip s))%nat).
  { unfold clean_inline.
    pose proof (strip_length_le (unfence (strip s))).
    pose proof (unfence_shortens _ P). lia. }
  rewrite C in L. lia.
Qed.

Lemma clean_inline_agrees_unless_padded_witness :
  (fenced "```{}```" = true
   /\ clean_inline "```{}```" = _clean_json_response "```{}```")
  /\ (fenced " ```{}``` " = false /\ fenced (strip " ```{}``` ") = true
      /\ _clean_json_response " ```{}``` " = strip " ```{}``` "
      /\ clean_inline " ```{}``` " <> _clean_json_response " ```{}``` ").
Proof.
  split.
  - split; [reflexivity|].
    apply (proj1 (clean_inline_agrees_unless_padded "```{}```")).
    left. reflexivity.
  - split; [reflexivity|]. split; [reflexivity|].
    apply (proj2 (clean_inline_agrees_unless_padded " ```{}``` "));
      reflexivity.
Defined.

(** ** More on the stream reducer *)

Lemma token_text_app (a b : list dict) :
  token_text (a ++ b)
  = match token_text a, token_text b with
    | Some x, Some y => Some (x ++ y)
    | _, _ => None
    end.
Proof.
  induction a as [|chunk a IH]; simpl.
  - now destruct (token_text b).
  - destruct (has_type "token" chunk); [|exact IH].
    destruct (get_or chunk "content" (VStr "")); try reflexivity.
    rewrite IH.
    destruct (token_text a), (token_text b); try reflexivity.
    now rewrite append_assoc.
Qed.

Lemma done_ids_app (a b : list dict) :
  done_ids (a ++ b) = (done_ids a ++ done_ids b)%list.
Proof. unfold done_ids. now rewrite filter_app, map_app. Qed.

Lemma error_messages_app (a b : list dict) :
  error_messages (a ++ b) = (error_messages a ++ error_messages b)%list.
Proof. unfold error_messages. now rewrite filter_app, map_app. Qed.

Lemma all_space_app (a b : string) :
  all_space (a ++ b) = all_space a && all_space b.
Proof.
  induction a as [|c a IH]; simpl; [reflexivity|].
  now rewrite IH, andb_assoc.
Qed.

(** Blank tokens carry whitespace and nothing else. *)
Lemma blank_tokens_summary (l : list dict) :
  forallb blank_token l = true ->
  (exists w, token_text l = Some w /\ all_space w = true)
  /\ done_ids l = [] /\ error_messages l = [].
Proof.
  induction l as [|chunk l IH]; simpl.
  - intros _. split; [now exists ""|split; reflexivity].
  - intros H. apply andb_true_iff in H. destruct H as [B Hl].
    destruct (IH Hl) as [[w [Hw Sw]] [Hd He]].
    unfold blank_token in B. apply andb_true_iff in B. destruct B as [T C].
    rewrite done_ids_cons, error_messages_cons. unfold has_type in *.
    rewrite T, (eq_str_other _ _ "done" T), (eq_str_other _ _ "error" T)
      by discriminate.
    destruct (get_or chunk "content" (VStr "")); try discriminate.
    rewrite Hw. split; [|split; assumption].
    exists (s ++ w). split; [reflexivity|].
    now rewrite all_space_app, C, Sw.
Qed.

Lemma not_error_keeps_summary (chunks : list dict) :
  token_text (filter not_error chunks) = token_text chunks
  /\ done_ids (filter not_error chunks) = done_ids chunks.
Proof.
  induction chunks as [|chunk rest [IHt IHd]]; [split; reflexivity|].
  cbn [filter]. destruct (not_error chunk) eqn:N.
  - rewrite !done_ids_cons. cbn [token_text]. now rewrite IHt, IHd.
  - unfold not_error, has_type in N. apply negb_false_iff in N.
    rewrite done_ids_cons. cbn [token_text]. unfold has_type.
    rewrite (eq_str_other _ _ "token" N), (eq_str_other _ _ "done" N)
      by discriminate.
    now split.
Qed.

(** X3. The reducer raises in three situations only: a token chunk whose
    content is not a string ([TypeError]), a token text that parses to a
    JSON value that is not an object ([AttributeError]), and a token text
    on which [json.loads] raises one of its two exceptions other than
    [json.JSONDecodeError], which the [except] clause does not name
    ([ValueError] for an integer literal over the limit of digits,
    [RecursionError] for a nesting that is too deep). *)
Theorem reducer_raises_only (json_loads : string -> loads_result)
    (active : option span) (chunks : list dict) (e : exn) :
  _stream_email_reducer_static json_loads active chunks = Raises e ->
  (token_text chunks = None /\ exn_class_of e = TypeError)
  \/ (exists text v,
         token_text chunks = Some text
         /\ json_loads (clean_inline text) = Parsed v
         /\ object_or_failure (Parsed v) = false
         /\ exn_class_of e = AttributeError)
  \/ (exists text why msg,
         token_text chunks = Some text
         /\ json_loads (clean_inline text) = Refused why msg
         /\ exn_str e = msg
         /\ ((why = DigitLimit /\ exn_class_of e = ValueError)
             \/ (why = DepthLimit /\ exn_class_of e = RecursionError))).
Proof.
  intros H. destruct (token_text chunks) as [text|] eqn:T.
  - right.
    destruct (json_loads (clean_inline text)) as [v|msg|why msg] eqn:P.
    + left. exists text.
      destruct (object_or_failure (Parsed v)) eqn:O.
      * destruct v; try discriminate.
        rewrite (reducer_on_object _ _ _ _ _ T P) in H. discriminate.
      * exists v. repeat split; trivial.
        destruct (reducer_on_other_json _ active _ _ _ T P O) as [e' [R C]].
        congruence.
    + rewrite (reducer_on_failure _ _ _ _ _ T P) in H. discriminate.
    + right. exists text, why, msg.
      rewrite (reducer_on_refusal _ active _ _ _ _ T P) in H.
      injection H as <-.
      split; [reflexivity|]. split; [exact P|]. split; [reflexivity|].
      destruct why; [left | right]; split; reflexivity.
  - left. split; [reflexivity|].
    destruct (collect_type_error chunks (mk_collected "" VNone VNone) T)
      as [e' [R C]].
    unfold _stream_email_reducer_static in H. rewrite R in H. simpl in H.
    congruence.
Qed.

Lemma reducer_raises_only_witness :
  (_stream_email_reducer_static sample_loads None [token_chunk "42"]
   = Raises (mk_exn AttributeError "'int' object has no attribute 'get'")
   /\ exists text v,
       token_text [token_chunk "42"] = Some text
       /\ sample_loads (clean_inline text) = Parsed v
       /\ object_or_failure (Parsed v) = false)
  /\ (_stream_email_reducer_static sample_refusing_loads None
        [token_chunk "[[[["]
      = Raises (mk_exn RecursionError
                  "maximum recursion depth exceeded while decoding a JSON array")
      /\ exists text msg,
          token_text [token_chunk "[[[["] = Some text
          /\ sample_refusing_loads (clean_inline text)
             = Refused DepthLimit msg).
Proof.
  split; (split; [reflexivity|]).
  - destruct (reducer_raises_only sample_loads None [token_chunk "42"]
                (mk_exn AttributeError "'int' object has no attribute 'get'")
                eq_refl)
      as [[H _]|[[text [v [T [P [O _]]]]]|[text [why [msg [T [P _]]]]]]].
    + discriminate H.
    + exists text, v. repeat split; assumption.
    + injection T as <-. discriminate P.
  - destruct (reducer_raises_only sample_refusing_loads None
                [token_chunk "[[[["]
                (mk_exn RecursionError "maximum recursion depth exceeded while decoding a JSON array")
                eq_refl)
      as [[H _]|[[text [v [_ [_ [_ C]]]]]|[text [why [msg [T [P [_ W]]]]]]]].
    + discriminate H.
    + discriminate C.
    + exists text, msg. split; [exact T|].
      destruct W as [[_ C]|[-> _]]; [discriminate C | exact P].
Defined.

(** X4. Token chunks of whitespace before and after a chunk sequence do
    not change what the reducer returns. *)
Theorem reducer_ignores_blank_tokens (json_loads : string -> loads_result)
    (active : option span) (before chunks after : list dict) (text : string) :
  forallb blank_token before = true ->
  forallb blank_token after = true ->
  token_text chunks = Some text ->
  _stream_email_reducer_static json_loads active (before ++ chunks ++ after)
  = _stream_email_reducer_static json_loads active chunks.
Proof.
  intros Hb Ha T.
  destruct (blank_tokens_summary _ Hb) as [[w1 [T1 S1]] [D1 E1]].
  destruct (blank_tokens_summary _ Ha) as [[w2 [T2 S2]] [D2 E2]].
  assert (T' : token_text (before ++ chunks ++ after)
               = Some (w1 ++ text ++ w2)).
  { now rewrite !token_text_app, T1, T, T2. }
  rewrite (reducer_unfold _ _ _ _ T'), (reducer_unfold _ _ _ _ T).
  unfold last_done_id, last_error.
  rewrite !done_ids_app, !error_messages_app, D1, D2, E1, E2, !app_nil_r.
  cbn [app]. cbv zeta. unfold reduce_parsed. cbn [email_content].
  unfold clean_inline. now rewrite (strip_padding _ _ _ S1 S2).
Qed.

Lemma reducer_ignores_blank_tokens_witness :
  forallb blank_token [token_chunk " "] = true
  /\ forallb blank_token [token_chunk nl; token_chunk "  "] = true
  /\ _stream_email_reducer_static sample_loads None
       ([token_chunk " "] ++ chunks_fenced ++ [token_chunk nl; token_chunk "  "])
     = _stream_email_reducer_static sample_loads None chunks_fenced.
Proof.
  split; [reflexivity|]. split; [reflexivity|].
  apply (reducer_ignores_blank_tokens sample_loads None [token_chunk " "]
           chunks_fenced [token_chunk nl; token_chunk "  "]
           ("```json" ++ nl ++ sample_email_text ++ nl ++ "```"));
    reflexivity.
Defined.

(** X5. When the token text parses, the error chunks of the sequence have
    no part in the result: the reducer returns what it returns without
    them. *)
Theorem reducer_drops_errors_when_parsed (json_loads : string -> loads_result)
    (active : option span) (chunks : list dict) (text : string) (v : value) :
  token_text chunks = Some text ->
  json_loads (clean_inline text) = Parsed v ->
  _stream_email_reducer_static json_loads active chunks
  = _stream_email_reducer_static json_loads active (filter not_error chunks).
Proof.
  intros T P.
  destruct (not_error_keeps_summary chunks) as [Tf Df].
  rewrite (reducer_unfold _ _ _ _ T).
  rewrite <- Tf in T. rewrite (reducer_unfold _ _ _ _ T).
  unfold last_done_id. rewrite Df. cbv zeta.
  unfold reduce_parsed, loads. cbn [email_content trace_id].
  rewrite P. destruct v; reflexivity.
Qed.

Lemma reducer_drops_errors_when_parsed_witness :
  _stream_email_reducer_static sample_loads None
    (chunks_fenced ++ [error_chunk (VStr "Failed to parse email JSON")])
  = _stream_email_reducer_static sample_loads None chunks_fenced.
Proof.
  apply (reducer_drops_errors_when_parsed sample_loads None
           (chunks_fenced ++ [error_chunk (VStr "Failed to parse email JSON")])
           ("```json" ++ nl ++ sample_email_text ++ nl ++ "```")
           sample_email);
    reflexivity.
Defined.

(** ** The streaming producer *)

Lemma stream_tokens_spec (response : list completion_chunk) :
  forall full : string,
    stream_tokens response full
    = mk_gen (map token_chunk (tokens_of response)) []
             (Returns (full ++ joined (tokens_of response))).
Proof.
  induction response as [|chunk rest IH]; intros full; simpl.
  - unfold gen_ret. now rewrite append_empty_r.
  - destruct (token_of chunk) as [token|]; simpl; [|apply IH].
    unfold gen_bind, yield. simpl. rewrite IH. simpl.
    now rewrite append_assoc.
Qed.

Lemma token_text_tokens (tokens : list string) :
  token_text (map token_chunk tokens) = Some (joined tokens).
Proof.
  induction tokens as [|t tokens IH]; simpl; [reflexivity|].
  now rewrite IH.
Qed.

Lemma subscript_class (v : value) (k : string) (e : exn) :
  subscript v k = Raises e ->
  exn_class_of e = KeyError \/ exn_class_of e = TypeError.
Proof.
  destruct v; simpl; try (intros [= <-]; now right).
  destruct (dict_get items k); [discriminate|]. intros [= <-]. now left.
Qed.

Section ProducerProperties.

Variable pf : platform.
Variable customer_name : string.
Variable user_input : option string.

Local Abbreviation finish := (finish_stream pf customer_name user_input).

(** The three ways the end of the producer goes. *)
Lemma finish_on_decode_error (full msg : string) :
  loads_json pf (_clean_json_response full) = DecodeError msg ->
  finish full
  = mk_gen [error_chunk (VStr ("Failed to parse email JSON: " ++ msg))] []
           (Returns tt).
Proof.
  intros P. unfold finish_stream, gen_try, gen_bind, lift, loads.
  simpl. now rewrite P.
Qed.

Lemma finish_on_refusal (full : string) (why : loads_failure) (msg : string) :
  loads_json pf (_clean_json_response full) = Refused why msg ->
  finish full = mk_gen [] [] (Raises (mk_exn (failure_class why) msg)).
Proof.
  intros P. unfold finish_stream, gen_try, gen_bind, lift, loads.
  simpl. rewrite P. now destruct why.
Qed.

Lemma finish_on_body (full : string) (email_json body : value) :
  loads_json pf (_clean_json_response full) = Parsed email_json ->
  subscript email_json "body" = Returns body ->
  finish full
  = mk_gen [done_chunk (_get_current_trace_id (span_inside pf))]
           [TraceTags [("user_instructions",
                        VStr (if no_instructions user_input then "no"
                              else "yes"))];
            TracePreview
              ("Customer: " ++ customer_name ++ "; User Instructions: "
               ++ (if no_instructions user_input
                   then "No instructions provided" else text_of user_input))
              body]
           (Returns tt).
Proof.
  intros P B. unfold finish_stream, gen_try, gen_bind, lift, loads.
  simpl. rewrite P. simpl. now rewrite B.
Qed.

Lemma finish_on_missing_body (full : string) (email_json : value) (e : exn) :
  loads_json pf (_clean_json_response full) = Parsed email_json ->
  subscript email_json "body" = Raises e ->
  finish full
  = mk_gen []
           [TraceTags [("user_instructions",
                        VStr (if no_instructions user_input then "no"
                              else "yes"))]]
           (Raises e).
Proof.
  intros P B. unfold finish_stream, gen_try, gen_bind, lift, loads.
  simpl. rewrite P. simpl. rewrite B. simpl.
  unfold caught_by. simpl.
  destruct (subscript_class _ _ _ B) as [C|C]; now rewrite C.
Qed.

Variable self : EmailGenerator.

Local Abbreviation stream :=
  (stream_generate_email_with_retrieval pf self customer_name user_input).

Local Abbreviation retrieved :=
  (_retrieve_customer_data (str_title pf) (str_of pf) (loads_json pf)
     (data_path_of pf) (data_source pf) customer_name).

Lemma stream_on_registry_error (e : exn) :
  load_prompt pf (prompt_uri self) = Raises e ->
  stream = mk_gen [] [LoadPrompt (prompt_uri self)] (Raises e).
Proof.
  intros L. unfold stream_generate_email_with_retrieval, _load_prompt.
  unfold gen_bind, perform, lift. simpl. now rewrite L.
Qed.

Lemma stream_on_lookup_error (loaded : prompt_version) (e : exn) :
  load_prompt pf (prompt_uri self) = Returns loaded ->
  retrieved = Raises e ->
  stream = mk_gen [] (after_load self loaded) (Raises e).
Proof.
  intros L R. unfold stream_generate_email_with_retrieval, _load_prompt.
  unfold gen_bind, perform, lift, gen_ret. simpl. rewrite L. simpl.
  now rewrite R.
Qed.

Local Abbreviation sent loaded docs :=
  (messages_of pf self loaded docs user_input).

Lemma stream_on_model_error (loaded : prompt_version) (docs : list Document)
    (e : exn) :
  load_prompt pf (prompt_uri self) = Returns loaded ->
  retrieved = Returns docs ->
  chat_create pf (model self) (sent loaded docs) = Raises e ->
  stream
  = mk_gen [] (after_load self loaded ++ [ModelCall (model self) (sent loaded docs)])
           (Raises e).
Proof.
  intros L R C. unfold stream_generate_email_with_retrieval, _load_prompt.
  unfold gen_bind, perform, lift, gen_ret. simpl. rewrite L. simpl.
  rewrite R. simpl. unfold messages_of, reloaded in C.
  unfold _stream_generate_email, gen_bind, perform, lift. simpl.
  now rewrite C.
Qed.

Lemma stream_on_interruption (loaded : prompt_version) (docs : list Document)
    (response : list completion_chunk) (e : exn) :
  load_prompt pf (prompt_uri self) = Returns loaded ->
  retrieved = Returns docs ->
  chat_create pf (model self) (sent loaded docs) = Returns (response, Some e) ->
  stream
  = mk_gen (map token_chunk (tokens_of response))
           (after_load self loaded ++ [ModelCall (model self) (sent loaded docs)])
           (Raises e).
Proof.
  intros L R C. unfold stream_generate_email_with_retrieval, _load_prompt.
  unfold gen_bind, perform, lift, gen_ret. simpl. rewrite L. simpl.
  rewrite R. simpl. unfold messages_of, reloaded in C.
  unfold _stream_generate_email, gen_bind, perform, lift. simpl.
  rewrite C. simpl. rewrite stream_tokens_spec. simpl.
  now rewrite app_nil_r.
Qed.

Lemma stream_on_response (loaded : prompt_version) (docs : list Document)
    (response : list completion_chunk) :
  load_prompt pf (prompt_uri self) = Returns loaded ->
  retrieved = Returns docs ->
  chat_create pf (model self) (sent loaded docs) = Returns (response, None) ->
  let tail := finish (joined (tokens_of response)) in
  stream
  = mk_gen (map token_chunk (tokens_of response) ++ gen_yielded tail)
           (after_load self loaded
            ++ [ModelCall (model self) (sent loaded docs)]
            ++ gen_effects tail)
           (gen_result tail).
Proof.
  intros L R C. unfold stream_generate_email_with_retrieval, _load_prompt.
  unfold gen_bind, perform, lift, gen_ret. simpl. rewrite L. simpl.
  rewrite R. simpl. unfold messages_of, reloaded in C.
  unfold _stream_generate_email, gen_bind, perform, lift. simpl.
  rewrite C. simpl. rewrite stream_tokens_spec. simpl.
  destruct (gen_result (finish (joined (tokens_of response)))); reflexivity.
Qed.

End ProducerProperties.

Section ProducerRuns.

Variable pf : platform.
Variable self : EmailGenerator.
Variable customer_name : string.
Variable user_input : option string.

Local Abbreviation stream :=
  (stream_generate_email_with_retrieval pf self customer_name user_input).

Local Abbreviation retrieved :=
  (_retrieve_customer_data (str_title pf) (str_of pf) (loads_json pf)
     (data_path_of pf) (data_source pf) customer_name).

(** Every run is a list of token chunks and a terminal, which is there
    exactly when the run ends normally. *)
Lemma stream_shape :
  exists (tokens : list string) (last : list dict),
    gen_yielded stream = (map token_chunk tokens ++ last)%list
    /\ terminal last
    /\ (gen_result stream = Returns tt <-> last <> []).
Proof.
  destruct (load_prompt pf (prompt_uri self)) as [loaded|e] eqn:L.
  2:{ rewrite (stream_on_registry_error _ _ _ _ _ L).
      exists [], []. split; [reflexivity|]. split; [now left|].
      simpl. split; [discriminate | congruence]. }
  destruct retrieved as [docs|e] eqn:R.
  2:{ rewrite (stream_on_lookup_error _ _ _ _ _ _ L R).
      exists [], []. split; [reflexivity|]. split; [now left|].
      simpl. split; [discriminate | congruence]. }
  destruct (chat_create pf (model self)
              (messages_of pf self loaded docs user_input))
    as [[response [e|]]|e] eqn:C.
  - rewrite (stream_on_interruption _ _ _ _ _ _ _ _ L R C).
    exists (tokens_of response), []. rewrite app_nil_r.
    split; [reflexivity|]. split; [now left|].
    simpl. split; [discriminate | congruence].
  - rewrite (stream_on_response _ _ _ _ _ _ _ L R C). cbv zeta.
    exists (tokens_of response).
    destruct (loads_json pf (_clean_json_response (joined (tokens_of response))))
      as [email_json|msg|why msg] eqn:P.
    + destruct (subscript email_json "body") as [body|e] eqn:B.
      * rewrite (finish_on_body _ _ _ _ _ _ P B). simpl.
        eexists. split; [reflexivity|]. split.
        -- right. left. eexists. reflexivity.
        -- split; [discriminate | reflexivity].
      * rewrite (finish_on_missing_body _ _ _ _ _ _ P B). simpl.
        exists []. split; [reflexivity|]. split; [now left|].
        split; [discriminate | congruence].
    + rewrite (finish_on_decode_error _ _ _ _ _ P). simpl.
      eexists. split; [reflexivity|]. split.
      * right. right. eexists. reflexivity.
      * split; [discriminate | reflexivity].
    + rewrite (finish_on_refusal _ _ _ _ _ _ P). simpl.
      exists []. split; [reflexivity|]. split; [now left|].
      split; [discriminate | congruence].
  - rewrite (stream_on_model_error _ _ _ _ _ _ _ L R C).
    exists [], []. split; [reflexivity|]. split; [now left|].
    simpl. split; [discriminate | congruence].
Qed.

End ProducerRuns.

Lemma token_text_terminal (last : list dict) :
  terminal last -> token_text last = Some "".
Proof. intros [->|[[t ->]|[m ->]]]; reflexivity. Qed.

(** The loop of the producer keeps the tokens of the contract. *)
Lemma received_tokens_spec (response : list completion_chunk) :
  received_tokens response = tokens_of response.
Proof.
  induction response as [|chunk rest IH]; [reflexivity|].
  destruct chunk as [[|[[token|]] others]]; simpl; now rewrite IH.
Qed.

(** X6. A run of the producer yields the tokens received from the model,
    one token chunk for each and in the order of arrival, followed by at
    most one terminal chunk, done or error; the terminal chunk is there
    exactly when the run ends without an exception, and it is not there
    when the response is interrupted.  When the registry, the lookup or
    the call of the model raises, the run yields nothing and ends in that
    exception. *)
Theorem producer_yields_tokens_then_terminal (pf : platform)
    (self : EmailGenerator) (customer_name : string)
    (user_input : option string) :
  let g := stream_generate_email_with_retrieval pf self customer_name
                                                user_input in
  let retrieved :=
    _retrieve_customer_data (str_title pf) (str_of pf) (loads_json pf)
      (data_path_of pf) (data_source pf) customer_name in
  (forall e,
      load_prompt pf (prompt_uri self) = Raises e ->
      gen_yielded g = [] /\ gen_result g = Raises e)
  /\ (forall loaded e,
         load_prompt pf (prompt_uri self) = Returns loaded ->
         retrieved = Raises e ->
         gen_yielded g = [] /\ gen_result g = Raises e)
  /\ (forall loaded docs e,
         load_prompt pf (prompt_uri self) = Returns loaded ->
         retrieved = Returns docs ->
         chat_create pf (model self)
           (messages_of pf self loaded docs user_input)
         = Raises e ->
         gen_yielded g = [] /\ gen_result g = Raises e)
  /\ (forall loaded docs response ending,
         load_prompt pf (prompt_uri self) = Returns loaded ->
         retrieved = Returns docs ->
         chat_create pf (model self)
           (messages_of pf self loaded docs user_input)
         = Returns (response, ending) ->
         exists last : list dict,
           gen_yielded g
           = (map token_chunk (received_tokens response) ++ last)%list
           /\ terminal last
           /\ (gen_result g = Returns tt <-> last <> [])
           /\ (forall e, ending = Some e ->
                         last = [] /\ gen_result g = Raises e)
           /\ token_text (gen_yielded g)
              = Some (joined (received_tokens response))).
Proof.
  cbv zeta. split; [|split; [|split]].
  - intros e L. now rewrite (stream_on_registry_error _ _ _ _ _ L).
  - intros loaded e L R. now rewrite (stream_on_lookup_error _ _ _ _ _ _ L R).
  - intros loaded docs e L R C.
    now rewrite (stream_on_model_error _ _ _ _ _ _ _ L R C).
  - intros loaded docs response ending L R C.
    rewrite received_tokens_spec.
    assert (Text : forall last : list dict,
               terminal last ->
               token_text (map token_chunk (tokens_of response) ++ last)
               = Some (joined (tokens_of response))).
    { intros last T.
      rewrite token_text_app, token_text_tokens, (token_text_terminal _ T).
      now rewrite append_empty_r. }
    destruct ending as [e|].
    + rewrite (stream_on_interruption _ _ _ _ _ _ _ _ L R C).
      exists []. cbn [gen_yielded gen_result]. rewrite app_nil_r.
      split; [reflexivity|]. split; [now left|].
      split; [split; [discriminate | congruence]|].
      split; [intros e' [= <-]; now split|].
      apply token_text_tokens.
    + rewrite (stream_on_response _ _ _ _ _ _ _ L R C). cbv zeta.
      cbn [gen_yielded gen_result].
      destruct (loads_json pf
                  (_clean_json_response (joined (tokens_of response))))
        as [email_json|msg|why msg] eqn:P.
      * destruct (subscript email_json "body") as [body|e] eqn:B.
        -- rewrite (finish_on_body _ _ _ _ _ _ P B).
           cbn [gen_yielded gen_result].
           assert (T : terminal
                         [done_chunk (_get_current_trace_id (span_inside pf))]).
           { right. left. eexists. reflexivity. }
           eexists. split; [reflexivity|]. split; [exact T|].
           split; [split; [discriminate | reflexivity]|].
           split; [discriminate|]. now apply Text.
        -- rewrite (finish_on_missing_body _ _ _ _ _ _ P B).
           cbn [gen_yielded gen_result].
           exists []. split; [reflexivity|]. split; [now left|].
           split; [split; [discriminate | congruence]|].
           split; [discriminate|]. apply Text. now left.
      * rewrite (finish_on_decode_error _ _ _ _ _ P).
        cbn [gen_yielded gen_result].
        assert (T : terminal
                      [error_chunk
                         (VStr ("Failed to parse email JSON: " ++ msg))]).
        { right. right. eexists. reflexivity. }
        eexists. split; [reflexivity|]. split; [exact T|].
        split; [split; [discriminate | reflexivity]|].
        split; [discriminate|]. now apply Text.
      * rewrite (finish_on_refusal _ _ _ _ _ _ P).
        cbn [gen_yielded gen_result].
        exists []. split; [reflexivity|]. split; [now left|].
        split; [split; [discriminate | congruence]|].
        split; [discriminate|]. apply Text. now left.
Qed.

Lemma producer_yields_tokens_then_terminal_witness :
  let pf := sample_platform sample_environ
              (sample_response sample_fenced_texts) (Lines [sample_line]) in
  let g := stream_generate_email_with_retrieval pf sample_self
             "EcomSolutions LLC" None in
  received_tokens (fst (sample_response sample_fenced_texts))
  = sample_fenced_texts
  /\ exists last : list dict,
      gen_yielded g
      = (map token_chunk
           (received_tokens (fst (sample_response sample_fenced_texts)))
         ++ last)%list
      /\ terminal last
      /\ (gen_result g = Returns tt <-> last <> [])
      /\ (forall e, @None exn = Some e ->
                    last = [] /\ gen_result g = Raises e)
      /\ token_text (gen_yielded g)
         = Some (joined
                   (received_tokens
                      (fst (sample_response sample_fenced_texts)))).
Proof.
  cbv zeta. split; [reflexivity|].
  apply (proj2 (proj2 (proj2
           (producer_yields_tokens_then_terminal
              (sample_platform sample_environ
                 (sample_response sample_fenced_texts) (Lines [sample_line]))
              sample_self "EcomSolutions LLC" None)))
           (mk_prompt "Write a follow-up email." 3)
           (documents_of ascii_title sample_str "EcomSolutions LLC"
              [("account", VDict [("name", VStr "EcomSolutions LLC")])])
           (fst (sample_response sample_fenced_texts)) None);
    reflexivity.
Defined.

Lemma done_ids_tokens (tokens : list string) :
  done_ids (map token_chunk tokens) = [].
Proof. induction tokens as [|t tokens IH]; [reflexivity | exact IH]. Qed.

(** A run that ends in an exception outside [RuntimeError] makes the
    facade raise that exception, with or without a running loop. *)
Lemma facade_raises_run_error (json_loads : string -> loads_result)
    (active : option span) (run_for : string -> option string -> run)
    (loop_running : bool) (name : string) (instruction : option string)
    (chunks : list dict) (e : exn) :
  run_for name instruction = (chunks, Some e) ->
  subclass (exn_class_of e) RuntimeError = false ->
  generate_email_with_retrieval json_loads active run_for loop_running name
                                instruction
  = Raises e.
Proof.
  intros R C. unfold generate_email_with_retrieval, collect_chunks.
  rewrite R. simpl. destruct loop_running; simpl; [|reflexivity].
  unfold caught_by. simpl. now rewrite C.
Qed.

Section ProducerAndConsumers.

Variable pf : platform.
Variable caller_span : option span.
Variable self : EmailGenerator.
Variable customer_name : string.
Variable user_input : option string.

Local Abbreviation stream :=
  (stream_generate_email_with_retrieval pf self customer_name user_input).

Local Abbreviation retrieved :=
  (_retrieve_customer_data (str_title pf) (str_of pf) (loads_json pf)
     (data_path_of pf) (data_source pf) customer_name).

Local Abbreviation facade loop_running :=
  (generate_email_with_retrieval (loads_json pf) caller_span (producer pf self)
     loop_running customer_name user_input).

Variable loaded : prompt_version.
Variable docs : list Document.
Variable response : list completion_chunk.

Hypothesis registry_answers : load_prompt pf (prompt_uri self) = Returns loaded.
Hypothesis lookup_answers : retrieved = Returns docs.
Hypothesis model_answers :
  chat_create pf (model self) (messages_of pf self loaded docs user_input)
  = Returns (response, None).

Local Abbreviation full := (joined (tokens_of response)).

Lemma run_with_body (d : dict) (body : value) :
  loads_json pf (_clean_json_response full) = Parsed (VDict d) ->
  dict_get d "body" = Some body ->
  producer pf self customer_name user_input
  = ((map token_chunk (tokens_of response)
      ++ [done_chunk (_get_current_trace_id (span_inside pf))])%list,
     None).
Proof.
  intros P B. unfold producer, run_of.
  rewrite (stream_on_response _ _ _ _ _ _ _ registry_answers lookup_answers
             model_answers).
  cbv zeta. rewrite (finish_on_body _ _ _ _ (VDict d) body P); [reflexivity|].
  simpl. now rewrite B.
Qed.

Lemma facade_with_body (loop_running : bool) (d : dict) (body : value) :
  loads_json pf (_clean_json_response full) = Parsed (VDict d) ->
  dict_get d "body" = Some body ->
  clean_inline full = _clean_json_response full ->
  facade loop_running
  = Returns
      [("subject_line", get d "subject_line"); ("body", body);
       ("trace_id",
         if truthy (_get_current_trace_id (span_inside pf))
         then _get_current_trace_id (span_inside pf) else VNone)].
Proof.
  intros P B A.
  rewrite (facade_of_finished_run _ _ _ _ _ _ _ (run_with_body _ _ P B)).
  unfold facade_contract.
  assert (T : token_text (map token_chunk (tokens_of response)
                          ++ [done_chunk (_get_current_trace_id (span_inside pf))])
              = Some full).
  { rewrite token_text_app, token_text_tokens. simpl.
    now rewrite append_empty_r. }
  rewrite <- A in P.
  rewrite (reducer_on_object _ _ _ _ _ T P).
  rewrite last_done_id_final by reflexivity.
  change (get (done_chunk (_get_current_trace_id (span_inside pf))) "trace_id")
    with (_get_current_trace_id (span_inside pf)).
  unfold get_or at 1. rewrite B.
  destruct (truthy (_get_current_trace_id (span_inside pf))); reflexivity.
Qed.

Lemma run_with_decode_error (msg : string) :
  loads_json pf (_clean_json_response full) = DecodeError msg ->
  producer pf self customer_name user_input
  = ((map token_chunk (tokens_of response)
      ++ [error_chunk (VStr ("Failed to parse email JSON: " ++ msg))])%list,
     None).
Proof.
  intros P. unfold producer, run_of.
  rewrite (stream_on_response _ _ _ _ _ _ _ registry_answers lookup_answers
             model_answers).
  cbv zeta. now rewrite (finish_on_decode_error _ _ _ _ _ P).
Qed.

Lemma run_without_body (d : dict) :
  loads_json pf (_clean_json_response full) = Parsed (VDict d) ->
  dict_get d "body" = None ->
  producer pf self customer_name user_input
  = (map token_chunk (tokens_of response), Some (mk_exn KeyError "'body'")).
Proof.
  intros P B. unfold producer, run_of.
  rewrite (stream_on_response _ _ _ _ _ _ _ registry_answers lookup_answers
             model_answers).
  cbv zeta.
  rewrite (finish_on_missing_body _ _ _ _ (VDict d) (mk_exn KeyError "'body'") P).
  - simpl. now rewrite app_nil_r.
  - simpl. now rewrite B.
Qed.

End ProducerAndConsumers.

Example producer_sample :
  producer (sample_platform sample_environ (sample_response sample_fenced_texts)
              (Lines [sample_line]))
           sample_self "EcomSolutions LLC" None
  = (chunks_fenced, None).
Proof. reflexivity. Qed.

(** X7. The model endpoint is called only after the prompt was loaded and
    the customer was found; when the lookup raises, the run yields no
    chunk and ends in the lookup's exception. *)
Theorem model_called_only_after_lookup (pf : platform) (self : EmailGenerator)
    (customer_name : string) (user_input : option string) :
  let g := stream_generate_email_with_retrieval pf self customer_name
                                                user_input in
  let retrieved :=
    _retrieve_customer_data (str_title pf) (str_of pf) (loads_json pf)
      (data_path_of pf) (data_source pf) customer_name in
  (existsb is_model_call (gen_effects g) = true ->
   exists loaded docs,
     load_prompt pf (prompt_uri self) = Returns loaded
     /\ retrieved = Returns docs)
  /\ (forall loaded e,
         load_prompt pf (prompt_uri self) = Returns loaded ->
         retrieved = Raises e ->
         gen_yielded g = [] /\ gen_result g = Raises e
         /\ existsb is_model_call (gen_effects g) = false).
Proof.
  cbv zeta. split.
  - destruct (load_prompt pf (prompt_uri self)) as [loaded|e] eqn:L.
    2:{ rewrite (stream_on_registry_error _ _ _ _ _ L). discriminate. }
    destruct (_retrieve_customer_data _ _ _ _ _ customer_name)
      as [docs|e] eqn:R.
    2:{ rewrite (stream_on_lookup_error _ _ _ _ _ _ L R). discriminate. }
    intros _. now exists loaded, docs.
  - intros loaded e L R.
    rewrite (stream_on_lookup_error _ _ _ _ _ _ L R). now repeat split.
Qed.

Lemma model_called_only_after_lookup_witness :
  _retrieve_customer_data ascii_title sample_str sample_loads_more
    "data/input_data.jsonl" (Lines [sample_line]) "Nobody"
  = Raises (mk_exn ValueError (not_found_text "Nobody"))
  /\ gen_yielded
       (stream_generate_email_with_retrieval
          (sample_platform sample_environ (sample_response sample_fenced_texts)
             (Lines [sample_line]))
          sample_self "Nobody" None)
     = []
  /\ exists loaded docs,
      sample_registry (prompt_uri sample_self) = Returns loaded
      /\ _retrieve_customer_data ascii_title sample_str sample_loads_more
           "data/input_data.jsonl" (Lines [sample_line]) "EcomSolutions LLC"
         = Returns docs.
Proof.
  split; [reflexivity|]. split.
  - apply (proj2 (model_called_only_after_lookup
                    (sample_platform sample_environ
                       (sample_response sample_fenced_texts)
                       (Lines [sample_line]))
                    sample_self "Nobody" None)
                 (mk_prompt "Write a follow-up email." 3)
                 (mk_exn ValueError (not_found_text "Nobody")));
      reflexivity.
  - apply (proj1 (model_called_only_after_lookup
                    (sample_platform sample_environ
                       (sample_response sample_fenced_texts)
                       (Lines [sample_line]))
                    sample_self "EcomSolutions LLC" None)).
    reflexivity.
Defined.

(** X8. When the model's text, as the producer cleans it, parses to an
    object with a body, and the reducer's cleaning gives the same text,
    the run is the tokens followed by one done chunk with the active
    trace id, and the facade returns the object's subject line and body
    with that id (no id when it is not set). *)
Theorem facade_returns_streamed_email (pf : platform)
    (caller_span : option span) (self : EmailGenerator)
    (customer_name : string) (user_input : option string)
    (loop_running : bool) (loaded : prompt_version) (docs : list Document)
    (response : list completion_chunk) (d : dict) (body : value) :
  load_prompt pf (prompt_uri self) = Returns loaded ->
  _retrieve_customer_data (str_title pf) (str_of pf) (loads_json pf)
    (data_path_of pf) (data_source pf) customer_name
  = Returns docs ->
  chat_create pf (model self) (messages_of pf self loaded docs user_input)
  = Returns (response, None) ->
  loads_json pf (_clean_json_response (joined (tokens_of response)))
  = Parsed (VDict d) ->
  dict_get d "body" = Some body ->
  clean_inline (joined (tokens_of response))
  = _clean_json_response (joined (tokens_of response)) ->
  let tid := _get_current_trace_id (span_inside pf) in
  producer pf self customer_name user_input
  = ((map token_chunk (tokens_of response) ++ [done_chunk tid])%list, None)
  /\ generate_email_with_retrieval (loads_json pf) caller_span
       (producer pf self) loop_running customer_name user_input
     = Returns [("subject_line", get d "subject_line"); ("body", body);
                ("trace_id", if truthy tid then tid else VNone)].
Proof.
  intros L R C P B A. cbv zeta. split.
  - now apply (run_with_body pf self customer_name user_input loaded docs
                 response L R C d body).
  - now apply (facade_with_body pf caller_span self customer_name user_input
                 loaded docs response L R C loop_running d body).
Qed.

Lemma facade_returns_streamed_email_witness :
  let pf := sample_platform sample_environ
              (sample_response sample_fenced_texts) (Lines [sample_line]) in
  producer pf sample_self "EcomSolutions LLC" None
  = ((map token_chunk sample_fenced_texts ++ [done_chunk (VStr "tr-1")])%list,
     None)
  /\ generate_email_with_retrieval sample_loads_more None
       (producer pf sample_self) true "EcomSolutions LLC" None
     = Returns [("subject_line", VStr "Hi"); ("body", VStr "Bye");
                ("trace_id", VStr "tr-1")].
Proof.
  cbv zeta.
  apply (facade_returns_streamed_email
           (sample_platform sample_environ
              (sample_response sample_fenced_texts) (Lines [sample_line]))
           None sample_self "EcomSolutions LLC" None true
           (mk_prompt "Write a follow-up email." 3)
           (documents_of ascii_title sample_str "EcomSolutions LLC"
              [("account", VDict [("name", VStr "EcomSolutions LLC")])])
           (fst (sample_response sample_fenced_texts))
           [("subject_line", VStr "Hi"); ("body", VStr "Bye")] (VStr "Bye"));
    reflexivity.
Defined.

(** X9. When the model's text does not parse as the producer cleans it
    but parses to an object as the reducer cleans it (a fence with
    whitespace around it, which only the reducer unwraps), the stream ends
    with an error chunk while the facade returns the email, without a
    correlation id and without the error. *)
Theorem padded_fence_splits_stream_and_facade (pf : platform)
    (caller_span : option span) (self : EmailGenerator)
    (customer_name : string) (user_input : option string)
    (loop_running : bool) (loaded : prompt_version) (docs : list Document)
    (response : list completion_chunk) (msg : string) (d : dict) :
  load_prompt pf (prompt_uri self) = Returns loaded ->
  _retrieve_customer_data (str_title pf) (str_of pf) (loads_json pf)
    (data_path_of pf) (data_source pf) customer_name
  = Returns docs ->
  chat_create pf (model self) (messages_of pf self loaded docs user_input)
  = Returns (response, None) ->
  loads_json pf (_clean_json_response (joined (tokens_of response)))
  = DecodeError msg ->
  loads_json pf (clean_inline (joined (tokens_of response)))
  = Parsed (VDict d) ->
  producer pf self customer_name user_input
  = ((map token_chunk (tokens_of response)
      ++ [error_chunk (VStr ("Failed to parse email JSON: " ++ msg))])%list,
     None)
  /\ generate_email_with_retrieval (loads_json pf) caller_span
       (producer pf self) loop_running customer_name user_input
     = Returns [("subject_line", get d "subject_line");
                ("body", get_or d "body" (VStr ""));
                ("trace_id", VNone)].
Proof.
  intros L R C E P.
  pose proof (run_with_decode_error pf self customer_name user_input loaded
                docs response L R C msg E) as Run.
  split; [exact Run|].
  rewrite (facade_of_finished_run _ _ _ _ _ _ _ Run). unfold facade_contract.
  match goal with
  | |- context [_stream_email_reducer_static _ _ ?chunks] =>
      assert (T : token_text chunks = Some (joined (tokens_of response)))
  end.
  { rewrite token_text_app, token_text_tokens. simpl.
    now rewrite append_empty_r. }
  rewrite (reducer_on_object _ _ _ _ _ T P).
  unfold last_done_id. rewrite done_ids_app, done_ids_tokens. reflexivity.
Qed.

Lemma padded_fence_splits_stream_and_facade_witness :
  let pf := sample_platform sample_environ
              (sample_response sample_padded_texts) (Lines [sample_line]) in
  fenced (joined sample_padded_texts) = false
  /\ fenced (strip (joined sample_padded_texts)) = true
  /\ producer pf sample_self "EcomSolutions LLC" None
     = ((map token_chunk sample_padded_texts
         ++ [error_chunk
               (VStr ("Failed to parse email JSON: "
                      ++ "Expecting value: line 1 column 1 (char 0)"))])%list,
        None)
  /\ generate_email_with_retrieval sample_loads_more None
       (producer pf sample_self) true "EcomSolutions LLC" None
     = Returns [("subject_line", VStr "Hi"); ("body", VStr "Bye");
                ("trace_id", VNone)].
Proof.
  cbv zeta. split; [reflexivity|]. split; [reflexivity|].
  apply (padded_fence_splits_stream_and_facade
           (sample_platform sample_environ
              (sample_response sample_padded_texts) (Lines [sample_line]))
           None sample_self "EcomSolutions LLC" None true
           (mk_prompt "Write a follow-up email." 3)
           (documents_of ascii_title sample_str "EcomSolutions LLC"
              [("account", VDict [("name", VStr "EcomSolutions LLC")])])
           (fst (sample_response sample_padded_texts))
           "Expecting value: line 1 column 1 (char 0)"
           [("subject_line", VStr "Hi"); ("body", VStr "Bye")]);
    reflexivity.
Defined.

(** X10. When the model's text parses to an object without a body, the
    producer raises [KeyError] after the tokens and yields no terminal
    chunk, so the facade raises too; the reducer alone, on the same
    tokens, returns the email with an empty body. *)
Theorem missing_body_breaks_stream (pf : platform)
    (caller_span : option span) (self : EmailGenerator)
    (customer_name : string) (user_input : option string)
    (loop_running : bool) (loaded : prompt_version) (docs : list Document)
    (response : list completion_chunk) (d : dict) :
  load_prompt pf (prompt_uri self) = Returns loaded ->
  _retrieve_customer_data (str_title pf) (str_of pf) (loads_json pf)
    (data_path_of pf) (data_source pf) customer_name
  = Returns docs ->
  chat_create pf (model self) (messages_of pf self loaded docs user_input)
  = Returns (response, None) ->
  loads_json pf (_clean_json_response (joined (tokens_of response)))
  = Parsed (VDict d) ->
  dict_get d "body" = None ->
  producer pf self customer_name user_input
  = (map token_chunk (tokens_of response), Some (mk_exn KeyError "'body'"))
  /\ generate_email_with_retrieval (loads_json pf) caller_span
       (producer pf self) loop_running customer_name user_input
     = Raises (mk_exn KeyError "'body'")
  /\ (clean_inline (joined (tokens_of response))
      = _clean_json_response (joined (tokens_of response)) ->
      _stream_email_reducer_static (loads_json pf) caller_span
        (map token_chunk (tokens_of response))
      = Returns [("email_subject", get d "subject_line");
                 ("email_body", VStr "")]).
Proof.
  intros L R C P B.
  pose proof (run_without_body pf self customer_name user_input loaded docs
                response L R C d P B) as Run.
  split; [exact Run|]. split.
  - now apply (facade_raises_run_error _ _ _ _ _ _ _ _ Run).
  - intros A. rewrite <- A in P.
    rewrite (reducer_on_object _ _ _ _ _ (token_text_tokens _) P).
    unfold last_done_id. rewrite done_ids_tokens. simpl.
    unfold get_or. now rewrite B.
Qed.

Lemma missing_body_breaks_stream_witness :
  let pf := sample_platform sample_environ (sample_response ["{"; "}"])
              (Lines [sample_line]) in
  producer pf sample_self "EcomSolutions LLC" None
  = ([token_chunk "{"; token_chunk "}"], Some (mk_exn KeyError "'body'"))
  /\ generate_email_with_retrieval sample_loads_more None
       (producer pf sample_self) true "EcomSolutions LLC" None
     = Raises (mk_exn KeyError "'body'")
  /\ _stream_email_reducer_static sample_loads_more None
       [token_chunk "{"; token_chunk "}"]
     = Returns [("email_subject", VNone); ("email_body", VStr "")].
Proof.
  cbv zeta.
  destruct (missing_body_breaks_stream
              (sample_platform sample_environ (sample_response ["{"; "}"])
                 (Lines [sample_line]))
              None sample_self "EcomSolutions LLC" None true
              (mk_prompt "Write a follow-up email." 3)
              (documents_of ascii_title sample_str "EcomSolutions LLC"
                 [("account", VDict [("name", VStr "EcomSolutions LLC")])])
              (fst (sample_response ["{"; "}"])) []
              eq_refl eq_refl eq_refl eq_refl eq_refl) as [H1 [H2 H3]].
  split; [exact H1|]. split; [exact H2|]. apply H3. reflexivity.
Defined.

(** X11. In every run that reaches the trace update, the tag
    [user_instructions] is [yes] exactly when the user message sent to the
    model is the customer data followed by the instruction section, and
    [no] exactly when it is the customer data alone: the two tests of the
    instruction, in the composer and in the producer, agree. *)
Theorem instruction_tag_matches_messages (pf : platform)
    (self : EmailGenerator) (customer_name : string)
    (user_input : option string) (tags : dict) (model_name : string)
    (messages : list dict) :
  let g := stream_generate_email_with_retrieval pf self customer_name
                                                user_input in
  In (TraceTags tags) (gen_effects g) ->
  In (ModelCall model_name messages) (gen_effects g) ->
  exists docs : list Document,
    _retrieve_customer_data (str_title pf) (str_of pf) (loads_json pf)
      (data_path_of pf) (data_source pf) customer_name
    = Returns docs
    /\ ((exists u, user_input = Some u /\ u <> ""
                   /\ tags = [("user_instructions", VStr "yes")]
                   /\ user_content messages
                      = VStr (formatted_customer_data (str_title pf) docs
                              ++ nl ++ nl ++ "User Instructions:" ++ nl ++ u))
        \/ ((user_input = None \/ user_input = Some "")
            /\ tags = [("user_instructions", VStr "no")]
            /\ user_content messages
               = VStr (formatted_customer_data (str_title pf) docs))).
Proof.
  cbv zeta.
  destruct (load_prompt pf (prompt_uri self)) as [loaded|e] eqn:L.
  2:{ rewrite (stream_on_registry_error _ _ _ _ _ L). simpl.
      intros [H|[]]. discriminate. }
  destruct (_retrieve_customer_data (str_title pf) (str_of pf) (loads_json pf)
              (data_path_of pf) (data_source pf) customer_name)
    as [docs|e] eqn:R.
  2:{ rewrite (stream_on_lookup_error _ _ _ _ _ _ L R). simpl.
      intros [H|[H|[]]]; discriminate. }
  assert (Done : forall tail : list effect,
             (forall t, In (TraceTags t) tail ->
                        t = [("user_instructions",
                              VStr (if no_instructions user_input then "no"
                                    else "yes"))]) ->
             (forall m ms, ~ In (ModelCall m ms) tail) ->
             In (TraceTags tags)
                (after_load self loaded
                 ++ [ModelCall (model self)
                       (messages_of pf self loaded docs user_input)]
                 ++ tail) ->
             In (ModelCall model_name messages)
                (after_load self loaded
                 ++ [ModelCall (model self)
                       (messages_of pf self loaded docs user_input)]
                 ++ tail) ->
             exists docs' : list Document,
               Returns docs = Returns docs'
               /\ ((exists u, user_input = Some u /\ u <> ""
                      /\ tags = [("user_instructions", VStr "yes")]
                      /\ user_content messages
                         = VStr (formatted_customer_data (str_title pf) docs'
                                 ++ nl ++ nl ++ "User Instructions:"
                                 ++ nl ++ u))
                   \/ ((user_input = None \/ user_input = Some "")
                       /\ tags = [("user_instructions", VStr "no")]
                       /\ user_content messages
                          = VStr (formatted_customer_data (str_title pf)
                                    docs')))).
  { intros tail Ht Hm HT HM. simpl in HT, HM.
    destruct HT as [HT|[HT|[HT|HT]]]; try discriminate.
    destruct HM as [HM|[HM|[HM|HM]]]; try discriminate;
      [|now apply Hm in HM].
    injection HM as _ <-. rewrite (Ht _ HT).
    exists docs. split; [reflexivity|].
    destruct user_input as [[|c u]|].
    - right. repeat split; auto.
    - left. exists (String c u). repeat split; congruence.
    - right. repeat split; auto. }
  destruct (chat_create pf (model self)
              (messages_of pf self loaded docs user_input))
    as [[response [e|]]|e] eqn:C.
  - rewrite (stream_on_interruption _ _ _ _ _ _ _ _ L R C). simpl.
    intros [H|[H|[H|[]]]]; discriminate.
  - rewrite (stream_on_response _ _ _ _ _ _ _ L R C). cbv zeta.
    cbn [gen_effects].
    destruct (loads_json pf (_clean_json_response (joined (tokens_of response))))
      as [email_json|msg|why msg] eqn:P.
    + destruct (subscript email_json "body") as [body|e] eqn:B.
      * rewrite (finish_on_body _ _ _ _ _ _ P B). cbn [gen_effects].
        apply Done.
        -- intros t [H|[H|[]]]; [now injection H as <- | discriminate].
        -- intros m ms [H|[H|[]]]; discriminate.
      * rewrite (finish_on_missing_body _ _ _ _ _ _ P B). cbn [gen_effects].
        apply Done.
        -- intros t [H|[]]. now injection H as <-.
        -- intros m ms [H|[]]. discriminate.
    + rewrite (finish_on_decode_error _ _ _ _ _ P). cbn [gen_effects].
      apply Done; [intros t [] | intros m ms []].
    + rewrite (finish_on_refusal _ _ _ _ _ _ P). cbn [gen_effects].
      apply Done; [intros t [] | intros m ms []].
  - rewrite (stream_on_model_error _ _ _ _ _ _ _ L R C). simpl.
    intros [H|[H|[H|[]]]]; discriminate.
Qed.

Lemma instruction_tag_matches_messages_witness :
  let pf := sample_platform sample_environ
              (sample_response sample_fenced_texts) (Lines [sample_line]) in
  let g := stream_generate_email_with_retrieval pf sample_self
             "EcomSolutions LLC" (Some "Keep it brief") in
  let sent := messages_of pf sample_self
                (mk_prompt "Write a follow-up email." 3)
                (documents_of ascii_title sample_str "EcomSolutions LLC"
                   [("account", VDict [("name", VStr "EcomSolutions LLC")])])
                (Some "Keep it brief") in
  In (TraceTags [("user_instructions", VStr "yes")]) (gen_effects g)
  /\ In (ModelCall "llm-endpoint" sent) (gen_effects g)
  /\ exists docs : list Document,
      _retrieve_customer_data (str_title pf) (str_of pf) (loads_json pf)
        (data_path_of pf) (data_source pf) "EcomSolutions LLC"
      = Returns docs
      /\ ((exists u, Some "Keep it brief" = Some u /\ u <> ""
             /\ [("user_instructions", VStr "yes")]
                = [("user_instructions", VStr "yes")]
             /\ user_content sent
                = VStr (formatted_customer_data (str_title pf) docs
                        ++ nl ++ nl ++ "User Instructions:" ++ nl ++ u))
          \/ ((Some "Keep it brief" = None \/ Some "Keep it brief" = Some "")
              /\ [("user_instructions", VStr "yes")]
                 = [("user_instructions", VStr "no")]
              /\ user_content sent
                 = VStr (formatted_customer_data (str_title pf) docs))).
Proof.
  cbv zeta.
  assert (HT : In (TraceTags [("user_instructions", VStr "yes")])
                 (gen_effects
                    (stream_generate_email_with_retrieval
                       (sample_platform sample_environ
                          (sample_response sample_fenced_texts)
                          (Lines [sample_line]))
                       sample_self "EcomSolutions LLC" (Some "Keep it brief")))).
  { vm_compute. right. right. right. left. reflexivity. }
  assert (HM : In (ModelCall "llm-endpoint"
                     (messages_of
                        (sample_platform sample_environ
                           (sample_response sample_fenced_texts)
                           (Lines [sample_line]))
                        sample_self (mk_prompt "Write a follow-up email." 3)
                        (documents_of ascii_title sample_str
                           "EcomSolutions LLC"
                           [("account",
                             VDict [("name", VStr "EcomSolutions LLC")])])
                        (Some "Keep it brief")))
                 (gen_effects
                    (stream_generate_email_with_retrieval
                       (sample_platform sample_environ
                          (sample_response sample_fenced_texts)
                          (Lines [sample_line]))
                       sample_self "EcomSolutions LLC" (Some "Keep it brief")))).
  { vm_compute. right. right. left. reflexivity. }
  split; [exact HT|]. split; [exact HM|].
  exact (instruction_tag_matches_messages
           (sample_platform sample_environ
              (sample_response sample_fenced_texts) (Lines [sample_line]))
           sample_self "EcomSolutions LLC" (Some "Keep it brief")
           [("user_instructions", VStr "yes")] "llm-endpoint" _ HT HM).
Defined.

(** ** The streaming endpoint on the producer *)

Lemma stream_events_tokens (tokens : list string) (rest : list dict)
    (ending : option exn) :
  stream_events (map token_chunk tokens ++ rest) ending
  = ((map token_chunk tokens ++ fst (stream_events rest ending))%list,
     snd (stream_events rest ending)).
Proof.
  induction tokens as [|t tokens IH]; simpl.
  - now destruct (stream_events rest ending).
  - rewrite IH. reflexivity.
Qed.

Lemma stream_events_terminal (last : list dict) (ending : option exn) :
  terminal last -> stream_events last ending = (last, ending).
Proof. intros [->|[[t ->]|[m ->]]]; reflexivity. Qed.

(** X12. The streaming endpoint sends the producer's chunks as they are,
    one frame for each and in their order, then a frame with the text of
    the exception when the producer raised, then the closing frame: no
    chunk of the producer is dropped, and none makes the endpoint's own
    lookups raise. *)
Theorem stream_endpoint_forwards_producer (json_dumps : dict -> string)
    (pf : platform) (self : EmailGenerator) (customer_name : string)
    (user_input : option string) :
  generate json_dumps (producer pf self) customer_name user_input
  = map (sse json_dumps)
        (events_of (stream_generate_email_with_retrieval pf self customer_name
                                                         user_input)).
Proof.
  unfold generate, generate_events, producer, run_of, events_of. f_equal.
  destruct (stream_shape pf self customer_name user_input)
    as [tokens [last [Y [T R]]]].
  rewrite Y, stream_events_tokens, (stream_events_terminal _ _ T). simpl.
  destruct (gen_result (stream_generate_email_with_retrieval pf self
                          customer_name user_input)); reflexivity.
Qed.

(** ** The generation route *)

(** A text that does not hold the first character of [sub] holds no
    start of it. *)
Lemma contains_skip (c : ascii) (r a b : string) :
  has_char c a = false ->
  contains (String c r) (a ++ b) = contains (String c r) b.
Proof.
  induction a as [|y a IH]; intros H; [reflexivity|].
  simpl in H. apply orb_false_iff in H. destruct H as [Hy Ha].
  apply Ascii.eqb_neq in Hy.
  change (String y a ++ b) with (String y (a ++ b)). cbn [contains prefix].
  destruct (ascii_dec c y) as [E|_]; [now subst|].
  simpl. now apply IH.
Qed.

(** No occurrence of [sub] goes over a character that [sub] does not
    hold. *)
Lemma prefix_sep (c : ascii) (sub a b : string) :
  has_char c sub = false ->
  prefix sub (a ++ String c b) = prefix sub a.
Proof.
  revert a. induction sub as [|x sub IH]; intros a H;
    [now destruct a|].
  simpl in H. apply orb_false_iff in H. destruct H as [Hx Hs].
  apply Ascii.eqb_neq in Hx.
  destruct a as [|y a]; simpl.
  - destruct (ascii_dec x c); [contradiction | reflexivity].
  - destruct (ascii_dec x y); [now apply IH | reflexivity].
Qed.

Lemma contains_sep (c : ascii) (sub a b : string) :
  has_char c sub = false ->
  contains sub (a ++ String c b) = contains sub a || contains sub b.
Proof.
  intros H. induction a as [|y a IH].
  - pose proof (prefix_sep c sub "" b H) as P.
    change ("" ++ String c b) with (String c b) in *. cbn [contains].
    rewrite P. now rewrite orb_false_r.
  - pose proof (prefix_sep c sub (String y a) b H) as P.
    change (String y a ++ String c b) with (String y (a ++ String c b)) in *.
    cbn [contains]. rewrite IH, P.
    now rewrite orb_assoc.
Qed.

(** In the message of the lookup, a phrase without an apostrophe occurs
    where it occurs in the name. *)
Lemma contains_in_not_found (c : ascii) (r name : string) :
  has_char c "Customer '" = false ->
  has_char "'" (String c r) = false ->
  contains (String c r) " not found in data file" = false ->
  contains (String c r) (not_found_text name) = contains (String c r) name.
Proof.
  intros H1 H2 H3. unfold not_found_text.
  rewrite (contains_skip c r "Customer '" _ H1).
  change "' not found in data file"
    with (String "'" " not found in data file").
  rewrite (contains_sep "'" _ name _ H2), H3. apply orb_false_r.
Qed.

Lemma status_of_not_found (name : string) :
  status_of (not_found_text name) = lookup_status name.
Proof.
  unfold status_of, lookup_status.
  rewrite !contains_in_not_found by reflexivity.
  assert (N : contains "not found" (not_found_text name) = true).
  { unfold not_found_text. apply contains_app_r, contains_app_r. reflexivity. }
  now rewrite N.
Qed.

Lemma status_of_missing_file (path : string) :
  status_of ("Customer data file not found at " ++ path) = lookup_status path.
Proof.
  unfold status_of, lookup_status.
  rewrite !contains_skip by reflexivity.
  assert (N : contains "not found" ("Customer data file not found at " ++ path)
              = true).
  { apply contains_app_l. reflexivity. }
  now rewrite N.
Qed.

(** An exception of the lookup comes out of the route as an HTTP error
    with its text. *)
Lemma route_on_lookup_error (validate_other : dict -> outcome dict)
    (pf : platform) (caller_span : option span) (self : EmailGenerator)
    (request_data : EmailRequestWithRetrieval) (loaded : prompt_version)
    (e : exn) :
  load_prompt pf (prompt_uri self) = Returns loaded ->
  _retrieve_customer_data (str_title pf) (str_of pf) (loads_json pf)
    (data_path_of pf) (data_source pf) (request_customer_name request_data)
  = Raises e ->
  subclass (exn_class_of e) RuntimeError = false ->
  generation_route validate_other pf caller_span self request_data
  = HttpError (status_of (exn_str e)) (exn_str e).
Proof.
  intros L R C. unfold generation_route, api_generate_email_with_retrieval.
  rewrite (facade_raises_run_error _ _ _ _ _ _ [] e); [reflexivity| |exact C].
  unfold producer, run_of.
  now rewrite (stream_on_lookup_error _ _ _ _ _ _ L R).
Qed.

(** X13. A lookup that fails makes the generation route answer with the
    lookup's message as detail and a status read off that message: 404,
    unless the customer name (for a name that is not in the file) or the
    path of the data file (for a file that is missing) holds one of the
    two phrases the route looks for first. *)
Theorem route_status_of_lookup_failure (validate_other : dict -> outcome dict)
    (pf : platform) (caller_span : option span) (self : EmailGenerator)
    (request_data : EmailRequestWithRetrieval) (loaded : prompt_version) :
  load_prompt pf (prompt_uri self) = Returns loaded ->
  (forall (lines : list string) (customers : list value),
      data_source pf = Lines lines ->
      map_m (loads (loads_json pf)) lines = Returns customers ->
      Forall (named_otherwise (request_customer_name request_data)) customers ->
      generation_route validate_other pf caller_span self request_data
      = HttpError (lookup_status (request_customer_name request_data))
                  (not_found_text (request_customer_name request_data)))
  /\ (data_source pf = Missing ->
      generation_route validate_other pf caller_span self request_data
      = HttpError (lookup_status (data_path_of pf))
                  ("Customer data file not found at " ++ data_path_of pf)).
Proof.
  intros L. split.
  - intros lines customers D M N.
    rewrite <- status_of_not_found.
    apply (route_on_lookup_error _ _ _ _ _ _
             (mk_exn ValueError
                (not_found_text (request_customer_name request_data))) L);
      [|reflexivity].
    rewrite D. unfold _retrieve_customer_data.
    rewrite load_customers_lines, M. simpl.
    now rewrite (find_customer_absent _ _ N).
  - intros D. rewrite <- status_of_missing_file.
    apply (route_on_lookup_error _ _ _ _ _ _
             (mk_exn FileNotFoundError
                ("Customer data file not found at " ++ data_path_of pf)) L);
      [|reflexivity].
    now rewrite D.
Qed.

Lemma route_status_of_lookup_failure_witness :
  generation_route sample_validate_other
    (sample_platform sample_environ (sample_response sample_fenced_texts)
       (Lines [sample_line]))
    None sample_self (mk_email_request "Nobody" None)
  = HttpError 404 "Customer 'Nobody' not found in data file"
  /\ generation_route sample_validate_other
       (sample_platform sample_environ (sample_response sample_fenced_texts)
          (Lines [sample_line]))
       None sample_self (mk_email_request "OpenAI client not available" None)
     = HttpError 503 "Customer 'OpenAI client not available' not found in data file"
  /\ generation_route sample_validate_other
       (sample_platform sample_environ (sample_response sample_fenced_texts)
          Missing)
       None sample_self (mk_email_request "Nobody" None)
     = HttpError 404 "Customer data file not found at data/input_data.jsonl".
Proof.
  split; [|split].
  - apply (proj1 (route_status_of_lookup_failure sample_validate_other
                    (sample_platform sample_environ
                       (sample_response sample_fenced_texts)
                       (Lines [sample_line]))
                    None sample_self (mk_email_request "Nobody" None)
                    (mk_prompt "Write a follow-up email." 3) eq_refl)
                 [sample_line] [sample_customer "EcomSolutions LLC"]
                 eq_refl eq_refl).
    repeat constructor. exists (VStr "EcomSolutions LLC"). split; reflexivity.
  - apply (proj1 (route_status_of_lookup_failure sample_validate_other
                    (sample_platform sample_environ
                       (sample_response sample_fenced_texts)
                       (Lines [sample_line]))
                    None sample_self
                    (mk_email_request "OpenAI client not available" None)
                    (mk_prompt "Write a follow-up email." 3) eq_refl)
                 [sample_line] [sample_customer "EcomSolutions LLC"]
                 eq_refl eq_refl).
    repeat constructor. exists (VStr "EcomSolutions LLC"). split; reflexivity.
  - apply (proj2 (route_status_of_lookup_failure sample_validate_other
                    (sample_platform sample_environ
                       (sample_response sample_fenced_texts) Missing)
                    None sample_self (mk_email_request "Nobody" None)
                    (mk_prompt "Write a follow-up email." 3) eq_refl)
                 eq_refl).
Defined.

(** ** The data routes *)

Lemma company_in_listing (n : string) (l : list string) :
  In (company n) (map company l) <-> In n l.
Proof.
  rewrite in_map_iff. split.
  - intros [m [E I]]. injection E as ->. exact I.
  - intros I. now exists n.
Qed.

(** On records that carry a string name, the customer route returns the
    first record of the name, and answers 404 when there is none. *)
Lemma get_customer_by_name_named (data : list value) (names : list string)
    (n : string) :
  Forall2 named data names ->
  (In n names ->
   exists customer,
     get_customer_by_name data n = Ok customer
     /\ named customer n /\ In customer data)
  /\ (~ In n names ->
      get_customer_by_name data n
      = HttpError 404 ("Customer '" ++ n ++ "' not found")).
Proof.
  induction 1 as [|c m cs ns Hc _ [IHin IHout]]; simpl.
  - split; [intros [] | reflexivity].
  - unfold named in Hc. rewrite Hc. cbn [eq_str].
    destruct (String.eqb_spec m n) as [->|Hmn].
    + split.
      * intros _. exists c. repeat split; [exact Hc | now left].
      * intros Hn. exfalso. apply Hn. now left.
    + split.
      * intros [E|I]; [contradiction|].
        destruct (IHin I) as [c' [G [N I']]].
        exists c'. repeat split; [exact G | exact N | now right].
      * intros Hn. apply IHout. intros I. apply Hn. now right.
Qed.

(** X14. On a data set whose records carry a string account name, every
    company of the listing can be fetched by its name, and the record
    fetched is one of the data set that carries this name; a name that is
    not in the listing is answered with status 404. *)
Theorem listed_companies_are_served
    (lt_other : value -> value -> outcome bool) (data : list value)
    (names : list string) (n : string) :
  Forall2 named data names ->
  exists listing : list dict,
    get_companies lt_other data = Returns listing
    /\ (In (company n) listing ->
        exists customer,
          get_customer_by_name data n = Ok customer
          /\ named customer n /\ In customer data)
    /\ (~ In (company n) listing ->
        get_customer_by_name data n
        = HttpError 404 ("Customer '" ++ n ++ "' not found")).
Proof.
  intros H. exists (map company (sort_names names)).
  destruct (get_customer_by_name_named data names n H) as [Hin Hout].
  split; [now apply get_companies_names|]. split.
  - intros I. apply Hin. apply company_in_listing in I.
    apply (Permutation_in _ (Permutation_sym (sort_names_perm names)) I).
  - intros I. apply Hout. intros J. apply I, company_in_listing.
    apply (Permutation_in _ (sort_names_perm names) J).
Qed.

Lemma listed_companies_are_served_witness :
  Forall2 named sample_data ["Zeta Corp"; "EcomSolutions LLC"; "Acme"]
  /\ exists listing : list dict,
      get_companies sample_lt_other sample_data = Returns listing
      /\ (In (company "Acme") listing ->
          exists customer,
            get_customer_by_name sample_data "Acme" = Ok customer
            /\ named customer "Acme" /\ In customer sample_data)
      /\ (~ In (company "Acme") listing ->
          get_customer_by_name sample_data "Acme"
          = HttpError 404 ("Customer '" ++ "Acme" ++ "' not found")).
Proof.
  assert (H : Forall2 named sample_data
                ["Zeta Corp"; "EcomSolutions LLC"; "Acme"]).
  { repeat constructor. }
  split; [exact H|].
  apply (listed_companies_are_served sample_lt_other sample_data
           ["Zeta Corp"; "EcomSolutions LLC"; "Acme"] "Acme" H).
Defined.

(** The loop of the routes' loader reads what [map_m] reads. *)
Lemma read_into_spec (json_loads : string -> loads_result)
    (lines : list string) :
  forall customers : list value,
    match map_m (loads json_loads) lines with
    | Returns read =>
        read_into json_loads customers lines = ((customers ++ read)%list, None)
    | Raises e =>
        exists part, read_into json_loads customers lines = (part, Some e)
    end.
Proof.
  induction lines as [|line lines IH]; intros customers; simpl.
  - now rewrite app_nil_r.
  - destruct (loads json_loads line) as [customer|e] eqn:L; simpl.
    + specialize (IH (customers ++ [customer])%list).
      destruct (map_m (loads json_loads) lines) as [read|e]; simpl.
      * now rewrite IH, <- app_assoc.
      * exact IH.
    + now exists customers.
Qed.

Lemma load_customer_data_lines (json_loads : string -> loads_result)
    (lines : list string) :
  fst (match read_into json_loads [] lines with
       | (customers, None) => (Returns customers, [])
       | (customers, Some e) =>
           if caught_by [FileNotFoundError] e
           then (Returns customers,
                 ["Warning: input_data.jsonl not found in mlflow_demo/data/"])
           else (Raises e, [])
       end)
  = map_m (loads json_loads) lines.
Proof.
  pose proof (read_into_spec json_loads lines []) as S.
  destruct (map_m (loads json_loads) lines) as [read|e] eqn:M.
  - now rewrite S.
  - destruct S as [part ->].
    unfold caught_by. simpl.
    destruct (loads_lines_class _ _ _ M) as [C|[C|C]]; now rewrite C.
Qed.

(** X15. The generator reads the file that is the first choice of the
    routes.  When this file is there, the loader of the routes and the
    loader of the generator read the same records from it, and fail on
    the same line with the same exception.  When it is not there, the
    generator raises [FileNotFoundError], while the routes read the file
    of their second choice, if there is one, and else go on with an empty
    data set (an empty listing, status 404 for every customer). *)
Theorem route_loader_against_generator_loader
    (json_loads : string -> loads_result) (data_path : string)
    (lt_other : value -> value -> outcome bool) :
  (forall (lines : list string) (alternative : data_file),
      fst (load_customer_data json_loads (Lines lines) alternative)
      = load_customers json_loads data_path (Lines lines))
  /\ (forall alternative : data_file,
         exists e : exn,
           load_customers json_loads data_path Missing = Raises e
           /\ exn_class_of e = FileNotFoundError
           /\ match alternative with
              | Lines lines =>
                  fst (load_customer_data json_loads Missing alternative)
                  = map_m (loads json_loads) lines
              | Missing =>
                  (exists warning : string,
                      load_customer_data json_loads Missing alternative
                      = (Returns [], [warning]))
                  /\ get_companies lt_other [] = Returns []
                  /\ (forall n : string,
                         get_customer_by_name [] n
                         = HttpError 404 ("Customer '" ++ n ++ "' not found"))
              end).
Proof.
  split.
  - intros lines alternative. rewrite load_customers_lines.
    unfold load_customer_data. apply load_customer_data_lines.
  - intros alternative. eexists. split; [reflexivity|]. split; [reflexivity|].
    destruct alternative as [|lines].
    + split; [eexists; reflexivity|]. split; reflexivity.
    + unfold load_customer_data. apply load_customer_data_lines.
Qed.


(** ** The constructor *)

Lemma truthy_text (o : option string) :
  truthy (of_opt o) = true -> o = Some (text_of o) /\ text_of o <> "".
Proof.
  destruct o as [[|c r]|]; simpl; try discriminate.
  intros _. split; [reflexivity | discriminate].
Qed.

(** X17. A generator that the constructor returns has its five settings,
    each the argument when it is given and not empty and else the
    environment variable, none of them empty, and holds the prompt the
    registry gave for them; the constructor has connected, loaded the
    prompt and set the active model, in this order, and yielded nothing. *)
Theorem constructed_generator_is_configured (pf : platform)
    (alias model_name catalog schema name : option string)
    (g : EmailGenerator) :
  gen_result (__init__ pf alias model_name catalog schema name) = Returns g ->
  (py_or alias (environ pf "PROMPT_ALIAS") = Some (prompt_alias g)
   /\ py_or model_name (environ pf "LLM_MODEL") = Some (model g)
   /\ py_or catalog (environ pf "UC_CATALOG") = Some (uc_catalog g)
   /\ py_or schema (environ pf "UC_SCHEMA") = Some (uc_schema g)
   /\ py_or name (environ pf "PROMPT_NAME") = Some (prompt_name g))
  /\ (prompt_alias g <> "" /\ model g <> "" /\ uc_catalog g <> ""
      /\ uc_schema g <> "" /\ prompt_name g <> "")
  /\ connect pf = Returns tt
  /\ exists loaded : prompt_version,
      prompt g = Some loaded
      /\ load_prompt pf (prompt_uri g) = Returns loaded
      /\ gen_effects (__init__ pf alias model_name catalog schema name)
         = Connect :: after_load g loaded
      /\ gen_yielded (__init__ pf alias model_name catalog schema name) = [].
Proof.
  unfold __init__.
  destruct (truthy (of_opt (py_or model_name (environ pf "LLM_MODEL"))))
    eqn:Tm; [|discriminate].
  destruct (truthy (of_opt (py_or name (environ pf "PROMPT_NAME"))))
    eqn:Tn; [|discriminate].
  destruct (truthy (of_opt (py_or alias (environ pf "PROMPT_ALIAS"))))
    eqn:Ta; [|discriminate].
  destruct (truthy (of_opt (py_or catalog (environ pf "UC_CATALOG"))))
    eqn:Tc; [|discriminate].
  destruct (truthy (of_opt (py_or schema (environ pf "UC_SCHEMA"))))
    eqn:Ts; [|discriminate].
  cbn [negb orb].
  destruct (truthy_text _ Tm) as [Em Nm], (truthy_text _ Tn) as [En Nn],
    (truthy_text _ Ta) as [Ea Na], (truthy_text _ Tc) as [Ec Nc],
    (truthy_text _ Ts) as [Es Ns].
  unfold gen_bind at 1 2. cbn [perform lift gen_result].
  destruct (connect pf) as [[]|e]; [|discriminate].
  cbn [gen_result gen_yielded gen_effects].
  unfold _load_prompt, gen_bind, perform, lift, gen_ret.
  cbn [gen_result gen_yielded gen_effects].
  match goal with
  | |- context [load_prompt pf ?uri] =>
      destruct (load_prompt pf uri) as [loaded|e] eqn:L
  end; [|discriminate].
  cbn [gen_result gen_yielded gen_effects]. intros [= <-].
  cbn [prompt_alias model uc_catalog uc_schema prompt_name prompt].
  repeat split; try assumption.
  exists loaded. repeat split. exact L.
Qed.

Lemma constructed_generator_is_configured_witness :
  gen_result (__init__ (sample_platform sample_environ
                          (sample_response sample_fenced_texts)
                          (Lines [sample_line]))
                       None (Some "") None None None)
  = Returns (reloaded sample_self (mk_prompt "Write a follow-up email." 3))
  /\ py_or (Some "") (sample_environ "LLM_MODEL")
     = Some (model (reloaded sample_self (mk_prompt "Write a follow-up email." 3)))
  /\ model (reloaded sample_self (mk_prompt "Write a follow-up email." 3)) <> "".
Proof.
  split; [reflexivity|].
  pose proof (constructed_generator_is_configured
                (sample_platform sample_environ
                   (sample_response sample_fenced_texts) (Lines [sample_line]))
                None (Some "") None None None
                (reloaded sample_self (mk_prompt "Write a follow-up email." 3))
                eq_refl) as [[_ [M _]] [[_ [N _]] _]].
  split; [exact M | exact N].
Defined.

(** X18. The constructor checks its settings before it leaves the
    process: with a setting that is neither given nor in the environment
    it raises without having connected or asked the registry, a
    [ValueError] exactly when the model is the one that is missing (also
    when others are missing too); with all five settings it connects
    first. *)
Theorem constructor_validates_before_connecting (pf : platform)
    (alias model_name catalog schema name : option string) :
  let g := __init__ pf alias model_name catalog schema name in
  (resolved pf model_name "LLM_MODEL"
   && resolved pf name "PROMPT_NAME" && resolved pf alias "PROMPT_ALIAS"
   && resolved pf catalog "UC_CATALOG" && resolved pf schema "UC_SCHEMA"
   = false ->
   gen_effects g = []
   /\ exists e : exn,
       gen_result g = Raises e
       /\ (exn_class_of e = ValueError
           <-> resolved pf model_name "LLM_MODEL" = false))
  /\ (resolved pf model_name "LLM_MODEL"
      && resolved pf name "PROMPT_NAME" && resolved pf alias "PROMPT_ALIAS"
      && resolved pf catalog "UC_CATALOG" && resolved pf schema "UC_SCHEMA"
      = true ->
      exists rest : list effect, gen_effects g = Connect :: rest).
Proof.
  cbv zeta. unfold __init__, resolved.
  destruct (truthy (of_opt (py_or model_name (environ pf "LLM_MODEL")))).
  2:{ split; [|discriminate]. intros _. split; [reflexivity|].
      eexists. split; [reflexivity|]. split; reflexivity. }
  destruct (truthy (of_opt (py_or name (environ pf "PROMPT_NAME"))));
    destruct (truthy (of_opt (py_or alias (environ pf "PROMPT_ALIAS"))));
    destruct (truthy (of_opt (py_or catalog (environ pf "UC_CATALOG"))));
    destruct (truthy (of_opt (py_or schema (environ pf "UC_SCHEMA"))));
    cbn [negb orb andb];
    try (split; [|discriminate]; intros _; split; [reflexivity|];
         eexists; split; [reflexivity|]; split; discriminate).
  split; [discriminate|]. intros _.
  unfold gen_bind at 1 2. cbn [perform lift gen_result].
  destruct (connect pf) as [[]|e]; cbn [gen_result gen_yielded gen_effects];
    eexists; reflexivity.
Qed.

Lemma constructor_validates_before_connecting_witness :
  let g := __init__ (sample_platform (fun _ => None)
                       (sample_response sample_fenced_texts)
                       (Lines [sample_line]))
                    (Some "production") None None None None in
  gen_effects g = []
  /\ exists e : exn,
      gen_result g = Raises e
      /\ (exn_class_of e = ValueError
          <-> resolved (sample_platform (fun _ => None)
                          (sample_response sample_fenced_texts)
                          (Lines [sample_line]))
                       None "LLM_MODEL" = false).
Proof.
  apply (proj1 (constructor_validates_before_connecting
                  (sample_platform (fun _ => None)
                     (sample_response sample_fenced_texts)
                     (Lines [sample_line]))
                  (Some "production") None None None None)).
  reflexivity.
Defined.

(** ** The lookup of the first record *)

Lemma find_customer_first (before after : list value) (record : value)
    (name : string) :
  Forall (named_otherwise name) before ->
  find_customer (before ++ record :: after) name
  = (n <- account_name record ;;
     if eq_str n name then Returns record else find_customer after name).
Proof.
  induction 1 as [|c cs [n [Hc Hn]] _ IH]; [reflexivity|].
  change ((c :: cs) ++ record :: after)%list
    with (c :: (cs ++ record :: after))%list.
  cbn [find_customer]. rewrite Hc. cbn [bind]. now rewrite Hn.
Qed.

(** X19. The lookup stops at the first record that carries the name: it
    returns one document for each section of that record, in the order of
    the sections, whatever the records after it are (records of the same
    name, or records without a name); and a record without a name that
    stands before every record of the name makes the lookup raise, also
    when the customer is in the file. *)
Theorem retrieval_stops_at_first_match (title : string -> string)
    (py_str : value -> string) (json_loads : string -> loads_result)
    (data_path : string) (lines : list string) (before after : list value)
    (record : value) (name : string) :
  map_m (loads json_loads) lines = Returns (before ++ record :: after)%list ->
  Forall (named_otherwise name) before ->
  (forall items : dict,
      record = VDict items ->
      account_name record = Returns (VStr name) ->
      _retrieve_customer_data title py_str json_loads data_path (Lines lines)
                              name
      = Returns (documents_of title py_str name items))
  /\ (forall e : exn,
         account_name record = Raises e ->
         _retrieve_customer_data title py_str json_loads data_path
                                 (Lines lines) name
         = Raises e
         /\ (exn_class_of e = KeyError \/ exn_class_of e = TypeError)).
Proof.
  intros M B. unfold _retrieve_customer_data.
  rewrite load_customers_lines, M. cbn [bind].
  rewrite (find_customer_first _ _ _ _ B). split.
  - intros items -> A. rewrite A. cbn [bind eq_str]. rewrite String.eqb_refl.
    cbn [bind]. destruct items as [|kv items]; [discriminate|]. reflexivity.
  - intros e A. rewrite A. split; [reflexivity|].
    now apply (account_name_class record).
Qed.

Lemma retrieval_stops_at_first_match_witness :
  _retrieve_customer_data ascii_title sample_str sample_loads
    "data/input_data.jsonl" (Lines [sample_line; sample_line])
    "EcomSolutions LLC"
  = Returns (documents_of ascii_title sample_str "EcomSolutions LLC"
               [("account", VDict [("name", VStr "EcomSolutions LLC")])]).
Proof.
  apply (proj1 (retrieval_stops_at_first_match ascii_title sample_str
                  sample_loads "data/input_data.jsonl"
                  [sample_line; sample_line] []
                  [sample_customer "EcomSolutions LLC"]
                  (sample_customer "EcomSolutions LLC") "EcomSolutions LLC"
                  eq_refl (Forall_nil _))
               [("account", VDict [("name", VStr "EcomSolutions LLC")])]
               eq_refl eq_refl).
Defined.

(** ** The markdown of a section *)

Lemma rstrip_keeps_ink (c : ascii) (r : string) :
  is_space c = false -> exists r', rstrip (String c r) = String c r'.
Proof.
  intros Hc. simpl. destruct (rstrip r) as [|c' r'].
  - rewrite Hc. now exists "".
  - now exists (String c' r').
Qed.

(** X20. The text of a document is stripped and starts with the mark of
    its heading, whatever the section and its data are. *)
Theorem markdown_is_stripped_heading (title : string -> string)
    (py_str : value -> string) (section_name : string) (data : value) :
  strip (_format_json_as_markdown title py_str section_name data)
  = _format_json_as_markdown title py_str section_name data
  /\ startswith (_format_json_as_markdown title py_str section_name data) "#"
     = true.
Proof.
  unfold _format_json_as_markdown. split; [apply strip_idem|].
  unfold strip.
  match goal with
  | |- context [rstrip (("# " ++ ?h ++ ?n) ++ ?f)] =>
      change (("# " ++ h ++ n) ++ f) with (String "#" (" " ++ (h ++ n) ++ f))
  end.
  destruct (rstrip_keeps_ink "#" (" " ++ (heading title section_name ++ nl ++ nl)
                                 ++ format_value title py_str data 0)
              eq_refl) as [r' ->].
  change (lstrip (String "#" r')) with (String "#" r').
  apply (startswith_prefix "#" r').
Qed.

(** ** Hosts and links *)

Lemma ensure_https_cases (host : option string) :
  ensure_https_protocol host = ""
  \/ has_protocol (ensure_https_protocol host) = true.
Proof.
  unfold ensure_https_protocol, has_protocol.
  destruct (truthy (of_opt host)); cbn [negb]; [|now left]. right.
  destruct (startswith (text_of host) "https://"
            || startswith (text_of host) "http://") eqn:E; [exact E|].
  now rewrite (startswith_prefix "https://" (text_of host)).
Qed.

Lemma has_protocol_app (a b : string) :
  has_protocol a = true -> has_protocol (a ++ b) = true.
Proof.
  unfold has_protocol, startswith. intros H.
  apply orb_true_iff in H. apply orb_true_iff.
  destruct H as [H|H]; [left | right]; now apply prefix_app_l.
Qed.

Lemma has_protocol_truthy (s : string) :
  has_protocol s = true -> truthy (VStr s) = true.
Proof. now destruct s. Qed.

(** X21. [ensure_https_protocol] gives the empty text for no host and
    else a text that starts with a protocol; it leaves such a text as it
    is, so that applying it to its own result changes nothing, and it
    never puts a second protocol before one that is there. *)
Theorem ensure_https_protocol_idempotent (host : option string) :
  (ensure_https_protocol host = ""
   \/ has_protocol (ensure_https_protocol host) = true)
  /\ (ensure_https_protocol host = "" <-> host = None \/ host = Some "")
  /\ ensure_https_protocol (Some (ensure_https_protocol host))
     = ensure_https_protocol host
  /\ (forall url : string,
         has_protocol url = true -> ensure_https_protocol (Some url) = url).
Proof.
  assert (Fix : forall url : string,
             has_protocol url = true -> ensure_https_protocol (Some url) = url).
  { intros url H. unfold ensure_https_protocol.
    rewrite (has_protocol_truthy _ H : truthy (of_opt (Some url)) = true).
    unfold has_protocol in H. simpl. now rewrite H. }
  split; [apply ensure_https_cases|]. split; [|split; [|exact Fix]].
  - destruct host as [[|c r]|]; simpl.
    + split; [now right | reflexivity].
    + split.
      * unfold ensure_https_protocol.
        cbn [of_opt truthy text_of negb String.eqb].
        destruct (startswith (String c r) "https://"
                  || startswith (String c r) "http://");
          intros H; discriminate H.
      * intros [H|H]; discriminate.
    + split; [now left | reflexivity].
  - destruct (ensure_https_cases host) as [E|E].
    + rewrite E. reflexivity.
    + now apply Fix.
Qed.

Lemma ensure_https_protocol_idempotent_witness :
  ensure_https_protocol (Some "dbc.example.com") = "https://dbc.example.com"
  /\ has_protocol "http://localhost:8080" = true
  /\ ensure_https_protocol (Some "http://localhost:8080")
     = "http://localhost:8080"
  /\ ensure_https_protocol (Some (ensure_https_protocol (Some "dbc.example.com")))
     = ensure_https_protocol (Some "dbc.example.com").
Proof.
  destruct (ensure_https_protocol_idempotent (Some "dbc.example.com"))
    as [_ [_ [I K]]].
  split; [reflexivity|]. split; [reflexivity|]. split; [|exact I].
  apply (K "http://localhost:8080"). reflexivity.
Defined.

Section LinksProperties.

Variable environ : string -> option string.
Variable is_in_databricks_notebook : bool.
Variable get_browser_hostname : option string.

Local Abbreviation host :=
  (databricks_host environ is_in_databricks_notebook get_browser_hostname).

Lemma databricks_host_cases : host = "" \/ has_protocol host = true.
Proof.
  unfold databricks_host.
  destruct is_in_databricks_notebook; apply ensure_https_cases.
Qed.

Lemma rooted_has_protocol (experiment_id : option string) (link : string) :
  rooted host experiment_id link -> link = "" \/ has_protocol link = true.
Proof.
  unfold rooted.
  destruct (negb (truthy (VStr host)) || negb (truthy (of_opt experiment_id)))
    eqn:E; [now left|].
  intros [rest ->]. right.
  destruct databricks_host_cases as [H|H]; [|now apply has_protocol_app].
  rewrite H in E. discriminate.
Qed.

End LinksProperties.

(** X22. Every link the helpers return is empty when the host or the
    experiment id is not known; otherwise it is the host with its
    protocol, followed by the page of the experiment.  Printing or not
    makes no difference. *)
Theorem links_are_rooted_at_host (environ : string -> option string)
    (is_in_databricks_notebook : bool) (get_browser_hostname : option string)
    (dataset_id prompt_name session_id : option string)
    (selected_run_id compare_to_run_id : string) (print_url : bool) :
  let host := databricks_host environ is_in_databricks_notebook
                              get_browser_hostname in
  Forall (fun link =>
            rooted host (environ "MLFLOW_EXPERIMENT_ID") link
            /\ (link = "" \/ has_protocol link = true))
    [generate_dataset_link environ is_in_databricks_notebook
       get_browser_hostname dataset_id print_url;
     generate_prompt_link environ is_in_databricks_notebook
       get_browser_hostname prompt_name print_url;
     generate_evaluation_comparison_link environ is_in_databricks_notebook
       get_browser_hostname selected_run_id compare_to_run_id print_url;
     generate_labeling_schema_link environ is_in_databricks_notebook
       get_browser_hostname print_url;
     generate_labeling_session_link environ is_in_databricks_notebook
       get_browser_hostname session_id print_url].
Proof.
  cbv zeta.
  assert (R : forall link,
             rooted (databricks_host environ is_in_databricks_notebook
                       get_browser_hostname)
                    (environ "MLFLOW_EXPERIMENT_ID") link ->
             rooted (databricks_host environ is_in_databricks_notebook
                       get_browser_hostname)
                    (environ "MLFLOW_EXPERIMENT_ID") link
             /\ (link = "" \/ has_protocol link = true)).
  { intros link H. split; [exact H|]. now apply rooted_has_protocol in H. }
  repeat apply Forall_cons; try apply Forall_nil; apply R;
    unfold rooted, generate_dataset_link, generate_prompt_link,
      generate_evaluation_comparison_link, generate_labeling_schema_link,
      generate_labeling_session_link, get_mlflow_experiment_id;
    cbv zeta;
    destruct (negb (truthy (VStr (databricks_host environ
                                    is_in_databricks_notebook
                                    get_browser_hostname)))
              || negb (truthy (of_opt (environ "MLFLOW_EXPERIMENT_ID"))));
    try reflexivity.
  - destruct (truthy (of_opt dataset_id)); eexists; reflexivity.
  - destruct (truthy (of_opt prompt_name) && truthy (of_opt (environ "UC_CATALOG"))
              && truthy (of_opt (environ "UC_SCHEMA")));
      [|destruct (truthy (of_opt prompt_name))]; eexists; reflexivity.
  - eexists; reflexivity.
  - eexists; reflexivity.
  - destruct (truthy (of_opt session_id)); eexists; reflexivity.
Qed.

(** X23. The notebook route never answers with an empty URL: it gives
    the text [NOT FOUND], or the value of the variable [NOTEBOOK_URL_]
    followed by the notebook's name, and this only for one of the five
    notebooks. *)
Theorem notebook_url_is_variable_or_not_found
    (environ : string -> option string) (name : string) :
  let url := get_notebook_url environ name in
  url <> ""
  /\ get_notebook_url_route environ name
     = [("notebook_name", VStr name); ("url", VStr url)]
  /\ (url = "NOT FOUND"
      \/ (environ ("NOTEBOOK_URL_" ++ name) = Some url
          /\ In name (map fst notebook_env_vars))).
Proof.
  cbv zeta. unfold get_notebook_url_route, get_notebook_url.
  assert (K : str_get notebook_env_vars name = None
              \/ (str_get notebook_env_vars name
                  = Some ("NOTEBOOK_URL_" ++ name)
                  /\ In name (map fst notebook_env_vars))).
  { unfold notebook_env_vars. cbn [str_get map fst].
    repeat match goal with
           | |- context [(?k =? name)] =>
               destruct (String.eqb_spec k name) as [<-|_];
                 [right; split; [reflexivity | cbn; tauto]|]
           end.
    now left. }
  destruct K as [->|[-> I]]; cbn [of_opt truthy text_of].
  - repeat split; [discriminate | now left].
  - change (negb ("NOTEBOOK_URL_" ++ name =? "")) with true. cbv iota.
    destruct (environ ("NOTEBOOK_URL_" ++ name)) as [[|c r]|];
      cbn [of_opt truthy text_of String.eqb negb];
      repeat split; try discriminate; try (now left).
    right. split; [reflexivity | exact I].
Qed.

(** ** The generation route on the facade *)

Lemma error_messages_tokens (tokens : list string) :
  error_messages (map token_chunk tokens) = [].
Proof. induction tokens as [|t tokens IH]; [reflexivity | exact IH]. Qed.

(** X24. The format check of the generation route never fires: a result
    of the facade always has the two keys, so the route answers with the
    facade's result as the response model takes it, or with the text of
    the exception that the facade or the response model raises. *)
Theorem route_format_check_never_fires
    (validate_other : dict -> outcome dict)
    (json_loads : string -> loads_result) (caller_span : option span)
    (run_for : string -> option string -> run) (loop_running : bool)
    (request_data : EmailRequestWithRetrieval) :
  api_generate_email_with_retrieval validate_other
    (generate_email_with_retrieval json_loads caller_span run_for loop_running)
    request_data
  = match generate_email_with_retrieval json_loads caller_span run_for
            loop_running (request_customer_name request_data)
            (request_user_input request_data) with
    | Returns email_json =>
        match EmailOutput validate_other email_json with
        | Returns out => Ok out
        | Raises e => HttpError (status_of (exn_str e)) (exn_str e)
        end
    | Raises e => HttpError (status_of (exn_str e)) (exn_str e)
    end.
Proof.
  unfold api_generate_email_with_retrieval, generate_email_with_retrieval.
  destruct (collect_chunks _ _) as [chunks finished].
  destruct (if loop_running then _ else _) as [[]|e]; cbn [bind];
    [|reflexivity].
  destruct (_stream_email_reducer_static json_loads caller_span chunks)
    as [reduced|e]; cbn [bind]; reflexivity.
Qed.

(** X25. An answer of the model that is not JSON does not make the
    generation route fail: the route answers with the failure email,
    whose body is the message of the producer's error chunk and whose
    correlation id is the one of the span around the handler, as a
    success. *)
Theorem unparsable_answer_is_served_as_email
    (validate_other : dict -> outcome dict) (pf : platform)
    (caller_span : option span) (self : EmailGenerator)
    (request_data : EmailRequestWithRetrieval) (loaded : prompt_version)
    (docs : list Document) (response : list completion_chunk)
    (msg msg' : string) :
  load_prompt pf (prompt_uri self) = Returns loaded ->
  _retrieve_customer_data (str_title pf) (str_of pf) (loads_json pf)
    (data_path_of pf) (data_source pf) (request_customer_name request_data)
  = Returns docs ->
  chat_create pf (model self)
    (messages_of pf self loaded docs (request_user_input request_data))
  = Returns (response, None) ->
  loads_json pf (_clean_json_response (joined (tokens_of response)))
  = DecodeError msg ->
  loads_json pf (clean_inline (joined (tokens_of response)))
  = DecodeError msg' ->
  generation_route validate_other pf caller_span self request_data
  = Ok [("subject_line", VStr fixed_failure_subject);
        ("body", VStr ("Failed to parse email JSON: " ++ msg));
        ("trace_id", _get_current_trace_id caller_span)].
Proof.
  intros L R C E E'.
  pose proof (run_with_decode_error pf self _ _ loaded docs response L R C msg E)
    as Run.
  unfold generation_route, api_generate_email_with_retrieval.
  rewrite (facade_of_finished_run _ _ _ _ _ _ _ Run). unfold facade_contract.
  match goal with
  | |- context [_stream_email_reducer_static _ _ ?chunks] =>
      assert (T : token_text chunks = Some (joined (tokens_of response)))
  end.
  { rewrite token_text_app, token_text_tokens. simpl.
    now rewrite append_empty_r. }
  rewrite (reducer_on_failure _ _ _ _ _ T E').
  unfold last_error, last_done_id.
  rewrite error_messages_app, error_messages_tokens, done_ids_app,
    done_ids_tokens.
  cbn. unfold _get_current_trace_id. now destruct caller_span.
Qed.

Lemma unparsable_answer_is_served_as_email_witness :
  generation_route sample_validate_other
    (sample_platform sample_environ (sample_response ["Sorry, "; "no."])
       (Lines [sample_line]))
    None sample_self (mk_email_request "EcomSolutions LLC" None)
  = Ok [("subject_line", VStr "Email generation failed");
        ("body", VStr ("Failed to parse email JSON: "
                       ++ "Expecting value: line 1 column 1 (char 0)"));
        ("trace_id", VNone)].
Proof.
  apply (unparsable_answer_is_served_as_email sample_validate_other
           (sample_platform sample_environ (sample_response ["Sorry, "; "no."])
              (Lines [sample_line]))
           None sample_self (mk_email_request "EcomSolutions LLC" None)
           (mk_prompt "Write a follow-up email." 3)
           (documents_of ascii_title sample_str "EcomSolutions LLC"
              [("account", VDict [("name", VStr "EcomSolutions LLC")])])
           (fst (sample_response ["Sorry, "; "no."]))
           "Expecting value: line 1 column 1 (char 0)"
           "Expecting value: line 1 column 1 (char 0)");
    reflexivity.
Defined.

(** X26. Under the running loop of the route, a [RuntimeError] that ends
    the producer's run does not reach the client: the facade's handler
    for the missing loop takes it, the second [asyncio.run] is refused,
    and the route answers with status 500 and the text of that refusal.
    Without a running loop the facade raises the producer's exception
    itself. *)
Theorem route_masks_runtime_error (validate_other : dict -> outcome dict)
    (json_loads : string -> loads_result) (caller_span : option span)
    (run_for : string -> option string -> run)
    (request_data : EmailRequestWithRetrieval) (chunks : list dict)
    (e : exn) :
  run_for (request_customer_name request_data)
          (request_user_input request_data)
  = (chunks, Some e) ->
  subclass (exn_class_of e) RuntimeError = true ->
  api_generate_email_with_retrieval validate_other
    (generate_email_with_retrieval json_loads caller_span run_for true)
    request_data
  = HttpError 500 "asyncio.run() cannot be called from a running event loop"
  /\ generate_email_with_retrieval json_loads caller_span run_for false
       (request_customer_name request_data) (request_user_input request_data)
     = Raises e.
Proof.
  intros R C.
  unfold api_generate_email_with_retrieval, generate_email_with_retrieval,
    collect_chunks.
  rewrite R. cbn [fst snd]. unfold try_except, caught_by.
  cbn [existsb]. rewrite C. split; reflexivity.
Qed.

Lemma route_masks_runtime_error_witness :
  api_generate_email_with_retrieval sample_validate_other
    (generate_email_with_retrieval sample_loads None
       (fun _ _ => ([token_chunk "{"],
                    Some (mk_exn RuntimeError "connection lost")))
       true)
    (mk_email_request "EcomSolutions LLC" None)
  = HttpError 500 "asyncio.run() cannot be called from a running event loop"
  /\ generate_email_with_retrieval sample_loads None
       (fun _ _ => ([token_chunk "{"],
                    Some (mk_exn RuntimeError "connection lost")))
       false "EcomSolutions LLC" None
     = Raises (mk_exn RuntimeError "connection lost").
Proof.
  apply (route_masks_runtime_error sample_validate_other sample_loads None
           (fun _ _ => ([token_chunk "{"],
                        Some (mk_exn RuntimeError "connection lost")))
           (mk_email_request "EcomSolutions LLC" None)
           [token_chunk "{"] (mk_exn RuntimeError "connection lost"));
    reflexivity.
Defined.
